(** * Workbook-to-record extraction: a shallow embedding

    The two converters of the repository,
    [scripts/generate_me_accreditation.py] (accredited study programmes) and
    [scripts/generate_prishtina_building_permits.py] (building permits), are
    embedded as Rocq functions, one module per script, and the properties the
    specification states about them are proved or refuted on that embedding.

    Python strings are sequences of Unicode code points, so they are lists of
    [N].  Exceptions are explicit: a computation returns [Ok v] or
    [Raise e].  What the scripts take from outside the repository and what
    cannot be written down here in full (the Unicode character database
    behind [str.lower], [unicodedata.normalize] and [unicodedata.combining],
    the [repr] of a float, [pandas.to_datetime], the way [pandas.read_excel]
    names columns) is gathered in the class [Runtime], with the few facts
    about it that the proofs use. *)

From Stdlib Require Import List ZArith NArith Bool Lia String Ascii.
From Stdlib Require Import Floats.SpecFloat.
From Stdlib Require Import Sorting.Sorted Sorting.Permutation.
Import ListNotations.

Set Implicit Arguments.

(** ** Python strings *)

Module Py.

Local Open Scope N_scope.

Abbreviation codepoint := N (only parsing).
Abbreviation pystr := (list N) (only parsing).

(** An ASCII literal of the source, as a Python string. *)
Definition lit (s : string) : pystr := map N_of_ascii (list_ascii_of_string s).

Definition cp_eqb (a b : codepoint) : bool := N.eqb a b.

Fixpoint str_eqb (a b : pystr) : bool :=
  match a, b with
  | [], [] => true
  | x :: a', y :: b' => cp_eqb x y && str_eqb a' b'
  | _, _ => false
  end.

Definition in_range (lo hi c : codepoint) : bool := (N.leb lo c && N.leb c hi)%bool.

(** [str.isspace] of one character, which is also what [\s] matches in a
    [str] pattern: the 29 code points of CPython's [_PyUnicode_IsWhitespace]. *)
Definition py_isspace (c : codepoint) : bool :=
  (in_range 9 13 c || in_range 28 32 c || cp_eqb c 133 || cp_eqb c 160
   || cp_eqb c 5760 || in_range 8192 8202 c || cp_eqb c 8232 || cp_eqb c 8233
   || cp_eqb c 8239 || cp_eqb c 8287 || cp_eqb c 12288)%bool.

Definition is_ascii (c : codepoint) : bool := N.ltb c 128.
Definition is_ascii_upper (c : codepoint) : bool := in_range 65 90 c.
Definition is_ascii_lower (c : codepoint) : bool := in_range 97 122 c.
Definition is_ascii_digit (c : codepoint) : bool := in_range 48 57 c.

(** Lower-casing of the 26 ASCII capitals; every other code point is kept. *)
Definition ascii_lower (c : codepoint) : codepoint :=
  if is_ascii_upper c then c + 32 else c.

Definition ascii_upper (c : codepoint) : codepoint :=
  if is_ascii_lower c then c - 32 else c.

Fixpoint drop_while (p : codepoint -> bool) (s : pystr) : pystr :=
  match s with
  | [] => []
  | c :: s' => if p c then drop_while p s' else s
  end.

Fixpoint take_while (p : codepoint -> bool) (s : pystr) : pystr :=
  match s with
  | [] => []
  | c :: s' => if p c then c :: take_while p s' else []
  end.

(** [s.lstrip()], [s.rstrip()], [s.strip()] over a set of characters given
    as a predicate. *)
Definition lstrip_by (p : codepoint -> bool) (s : pystr) : pystr := drop_while p s.
Definition rstrip_by (p : codepoint -> bool) (s : pystr) : pystr :=
  rev (drop_while p (rev s)).
Definition strip_by (p : codepoint -> bool) (s : pystr) : pystr :=
  rstrip_by p (lstrip_by p s).

Definition str_strip (s : pystr) : pystr := strip_by py_isspace s.

Definition mem_cp (cs : pystr) (c : codepoint) : bool := existsb (cp_eqb c) cs.

(** [s.strip(chars)] and [s.lstrip(chars)]. *)
Definition str_strip_chars (chars s : pystr) : pystr := strip_by (mem_cp chars) s.
Definition str_lstrip_chars (chars s : pystr) : pystr := lstrip_by (mem_cp chars) s.

(** [s.startswith(p)]. *)
Fixpoint startswith (p s : pystr) : bool :=
  match p, s with
  | [], _ => true
  | x :: p', y :: s' => cp_eqb x y && startswith p' s'
  | _ :: _, [] => false
  end.

(** [p in s] for strings. *)
Fixpoint str_contains (p s : pystr) : bool :=
  startswith p s ||
  match s with
  | [] => false
  | _ :: s' => str_contains p s'
  end.

(** [s.replace(old, new)] for a non-empty [old], which is how the scripts
    call it: matches are taken left to right and do not overlap.  [skip]
    counts the characters of a match that are still to be passed over. *)
Fixpoint replace_from (old new : pystr) (skip : nat) (s : pystr) : pystr :=
  match s with
  | [] => []
  | c :: s' =>
      match skip with
      | S k => replace_from old new k s'
      | O =>
          if startswith old s
          then new ++ replace_from old new (List.length old - 1)%nat s'
          else c :: replace_from old new 0 s'
      end
  end.

Definition str_replace (old new s : pystr) : pystr :=
  match old with
  | [] => s
  | _ :: _ => replace_from old new 0 s
  end.

(** [s.count(c)] for a one-character string [c]. *)
Definition str_count_char (c : codepoint) (s : pystr) : nat :=
  List.length (filter (cp_eqb c) s).

(** [s.rsplit(c, 1)] for a one-character separator: the list of pieces,
    one piece when the separator does not occur, else two. *)
Fixpoint rsplit1 (c : codepoint) (s : pystr) : list pystr :=
  match s with
  | [] => [[]]
  | x :: s' =>
      match rsplit1 c s' with
      | [t] => if cp_eqb x c then [[]; t] else [x :: t]
      | h :: rest => (x :: h) :: rest
      | [] => []
      end
  end.

(** The decimal digits of a natural number, as [str(int)] prints them. *)
Fixpoint digits_fuel (fuel : nat) (n : N) (acc : pystr) : pystr :=
  match fuel with
  | O => acc
  | S f =>
      let acc' := (48 + N.modulo n 10) :: acc in
      if N.ltb n 10 then acc' else digits_fuel f (N.div n 10) acc'
  end.

Definition str_of_N (n : N) : pystr := digits_fuel (S (N.to_nat (N.log2 n))) n [].

Definition str_of_Z (z : Z) : pystr :=
  match z with
  | Zneg p => 45 :: str_of_N (Npos p)
  | _ => str_of_N (Z.to_N z)
  end.

(** [str(n).zfill(w)] for a natural number. *)
Definition zero_pad (w : nat) (n : N) : pystr :=
  let d := str_of_N n in repeat 48 (w - List.length d)%nat ++ d.

End Py.

(** ** The regular expressions of the scripts

    Every pattern the scripts hand to [re.sub] is a sequence of character
    classes, each taken once, optionally, or repeated, possibly anchored
    at the start of the text ([^]) or followed by a one-character
    lookahead ([(?=\s)]).  The repetitions are greedy and the matcher
    backtracks, as that of [re] does: it takes the longest run first and
    gives characters back one at a time while the rest of the pattern
    fails.  Each pattern has a class that must occur, so no match is
    empty. *)

Module Re.
Import Py.
Local Open Scope N_scope.

Inductive cclass :=
| CChar (c : codepoint)            (* a literal character *)
| CAnyI (cs : pystr)               (* one of the lower-case letters cs, under re.IGNORECASE *)
| CSpace                           (* \s *)
| CSet (cs : pystr) (sp : bool)    (* [...]: the listed characters, and \s when sp *)
| CNotKey.                         (* [^a-z0-9 ] *)

(** The characters a literal character [p] of a pattern (a lower-case
    ASCII letter, or a character without case) matches under
    [re.IGNORECASE] in a [str] pattern: itself, its capital, and the
    non-ASCII characters with the same case folding (dotted capital I and
    dotless i for [i], long s for [s], the Kelvin sign for [k]). *)
Definition ignorecase_match (p c : codepoint) : bool :=
  (cp_eqb (ascii_lower c) p
   || (cp_eqb p 105 && (cp_eqb c 304 || cp_eqb c 305))
   || (cp_eqb p 115 && cp_eqb c 383)
   || (cp_eqb p 107 && cp_eqb c 8490))%bool.

Definition is_key_char (c : codepoint) : bool :=
  (is_ascii_lower c || is_ascii_digit c || cp_eqb c 32)%bool.

Definition cls_match (k : cclass) (c : codepoint) : bool :=
  match k with
  | CChar x => cp_eqb c x
  | CAnyI cs => existsb (fun x => ignorecase_match x c) cs
  | CSpace => py_isspace c
  | CSet cs sp => (mem_cp cs c || (sp && py_isspace c))%bool
  | CNotKey => negb (is_key_char c)
  end.

Inductive quant := One | Opt | Star | Plus.

Record atom := Atom { a_cls : cclass; a_q : quant }.

Record pattern := Pattern {
  p_atoms : list atom;
  p_lookahead : option cclass
}.

(** What must follow the match, if the pattern ends with a lookahead. *)
Definition lookahead_ok (la : option cclass) (rest : pystr) : bool :=
  match la with
  | None => true
  | Some k => match rest with c :: _ => cls_match k c | [] => false end
  end.

(** A greedy repetition of the class [p] followed by [k]: the longest run
    of [p] first, then shorter ones, until [k] matches what is left. *)
Fixpoint repeat_then (p : codepoint -> bool) (k : pystr -> option pystr) (s : pystr)
  : option pystr :=
  match s with
  | c :: s' =>
      if p c
      then match repeat_then p k s' with
           | Some rest => Some rest
           | None => k s
           end
      else k s
  | [] => k s
  end.

(** The text left after the atoms, then the lookahead [la], have matched
    at the start of [s]; None when they do not match. *)
Fixpoint match_atoms (la : option cclass) (atoms : list atom) (s : pystr) : option pystr :=
  match atoms with
  | [] => if lookahead_ok la s then Some s else None
  | a :: rest =>
      let p := cls_match (a_cls a) in
      match a_q a with
      | One =>
          match s with
          | c :: s' => if p c then match_atoms la rest s' else None
          | [] => None
          end
      | Opt =>
          match s with
          | c :: s' =>
              if p c
              then match match_atoms la rest s' with
                   | Some r => Some r
                   | None => match_atoms la rest s
                   end
              else match_atoms la rest s
          | [] => match_atoms la rest s
          end
      | Star => repeat_then p (match_atoms la rest) s
      | Plus =>
          match s with
          | c :: s' => if p c then repeat_then p (match_atoms la rest) s' else None
          | [] => None
          end
      end
  end.

(** The number of characters the pattern matches at the start of [s]. *)
Definition match_len (p : pattern) (s : pystr) : option nat :=
  match match_atoms (p_lookahead p) (p_atoms p) s with
  | Some rest => Some (List.length s - List.length rest)%nat
  | None => None
  end.

(** [re.sub(p, repl, s)] with a constant replacement: the text is scanned
    from the left, a match is replaced and the scan goes on after it. *)
Fixpoint sub_from (p : pattern) (repl : pystr) (skip : nat) (s : pystr) : pystr :=
  match s with
  | [] => []
  | c :: s' =>
      match skip with
      | S k => sub_from p repl k s'
      | O =>
          match match_len p s with
          | Some (S n) => repl ++ sub_from p repl n s'
          | _ => c :: sub_from p repl 0 s'
          end
      end
  end.

Definition sub (p : pattern) (repl s : pystr) : pystr := sub_from p repl 0 s.

(** [re.sub("^" + p, repl, s)]: without re.MULTILINE the pattern can only
    match at the start of the text. *)
Definition sub_anchored (p : pattern) (repl s : pystr) : pystr :=
  match match_len p s with
  | Some (S n) => repl ++ skipn (S n) s
  | _ => s
  end.

Definition one (k : cclass) : atom := Atom k One.
Definition opt (k : cclass) : atom := Atom k Opt.
Definition star (k : cclass) : atom := Atom k Star.
Definition plus (k : cclass) : atom := Atom k Plus.
Definition pat (atoms : list atom) : pattern := Pattern atoms None.

(** The atoms of a literal word under re.IGNORECASE. *)
Definition word_i (s : pystr) : list atom := map (fun c => one (CAnyI [c])) s.

End Re.

(** ** Ordering and sorting *)

Module PySort.
Import Py.

(** [a < b] for two strings: by code points, a prefix first. *)
Fixpoint str_compare (a b : pystr) : comparison :=
  match a, b with
  | [], [] => Eq
  | [], _ :: _ => Lt
  | _ :: _, [] => Gt
  | x :: a', y :: b' =>
      match N.compare x y with
      | Eq => str_compare a' b'
      | o => o
      end
  end.

(** [list.sort]: the sort is stable, so its result is that of inserting
    each element in front of what follows it, after the elements that
    come strictly before it in the order ([before y x]: [y] is to stand
    before [x]). *)
Fixpoint insert {A : Type} (before : A -> A -> bool) (x : A) (l : list A) : list A :=
  match l with
  | [] => [x]
  | y :: l' => if before y x then y :: insert before x l' else x :: l
  end.

Definition sort {A : Type} (before : A -> A -> bool) (l : list A) : list A :=
  fold_right (insert before) [] l.

End PySort.

(** ** Values, exceptions *)

Module Val.
Import Py.

Inductive exn_class :=
| TypeError | ValueError | OverflowError | KeyError | AttributeError.

(** An exception: its class and, for those the scripts raise themselves,
    its message (the built-in ones carry the empty message here). *)
Record exn := Exn { exn_cls : exn_class; exn_msg : pystr }.

Inductive result (A : Type) :=
| Ok (a : A)
| Raise (e : exn).
Arguments Ok {A} a.
Arguments Raise {A} e.

Definition bind {A B : Type} (m : result A) (f : A -> result B) : result B :=
  match m with
  | Ok a => f a
  | Raise e => Raise e
  end.

Definition builtin_error {A : Type} (k : exn_class) : result A := Raise (Exn k []).

Definition exn_class_eqb (a b : exn_class) : bool :=
  match a, b with
  | TypeError, TypeError | ValueError, ValueError | OverflowError, OverflowError
  | KeyError, KeyError | AttributeError, AttributeError => true
  | _, _ => false
  end.

(** [try: body  except (classes): handler]. *)
Definition try_except {A : Type} (body : result A) (classes : list exn_class)
  (handler : result A) : result A :=
  match body with
  | Ok a => Ok a
  | Raise e => if existsb (exn_class_eqb (exn_cls e)) classes then handler else Raise e
  end.

(** [for x in xs: ...] where the body may raise. *)
Fixpoint mapM {A B : Type} (f : A -> result B) (xs : list A) : result (list B) :=
  match xs with
  | [] => Ok []
  | x :: xs' => bind (f x) (fun y => bind (mapM f xs') (fun ys => Ok (y :: ys)))
  end.

(** A naive [datetime.datetime], as a date cell of a workbook is read. *)
Record datetime := Datetime {
  dt_year : Z; dt_month : Z; dt_day : Z;
  dt_hour : Z; dt_minute : Z; dt_second : Z; dt_microsecond : Z
}.

(** The value of a spreadsheet cell, or of a field of a row: pandas reads the
    cells with [dtype=object], so they are Python scalars, an empty cell
    being the float NaN. *)
Inductive scalar :=
| SNone
| SBool (b : bool)
| SInt (z : Z)
| SFloat (f : spec_float)
| SStr (s : pystr)
| SDatetime (d : datetime)
| SNaT.

(** What the functions typed [Any] can be given: a scalar, or the
    [pandas.Series] that [row.get] returns when several columns of a row
    carry the label asked for. *)
Inductive pyval :=
| PScalar (x : scalar)
| PSeries (xs : list scalar).

Coercion PScalar : scalar >-> pyval.

(** An insertion-ordered [dict] with string keys. *)
Definition dict (V : Type) := list (pystr * V).

Fixpoint dict_get {V : Type} (d : dict V) (k : pystr) : option V :=
  match d with
  | [] => None
  | (k', v) :: d' => if str_eqb k' k then Some v else dict_get d' k
  end.

(** [d[k] = v]: a key already present keeps its place. *)
Fixpoint dict_set {V : Type} (d : dict V) (k : pystr) (v : V) : dict V :=
  match d with
  | [] => [(k, v)]
  | (k', v') :: d' => if str_eqb k' k then (k', v) :: d' else (k', v') :: dict_set d' k v
  end.

Definition dict_keys {V : Type} (d : dict V) : list pystr := map fst d.

End Val.

Declare Scope py_scope.
Delimit Scope py_scope with py.
Notation "x <- m ;; k" := (Val.bind m (fun x => k))
  (at level 61, m at next level, right associativity) : py_scope.

(** ** Python floats

    A [float] is an IEEE 754 binary64 number: [spec_float] with precision 53
    and maximal exponent 1024.  Conversions round to nearest, ties to even,
    as CPython does. *)

Module PyFloat.
Import Py Val.
Local Open Scope Z_scope.

Definition prec : Z := 53.
Definition emax : Z := 1024.

Definition nan : spec_float := S754_nan.
Definition pos_zero : spec_float := S754_zero false.
Definition neg_zero : spec_float := S754_zero true.

Definition is_nan (f : spec_float) : bool :=
  match f with S754_nan => true | _ => false end.

Definition is_finite (f : spec_float) : bool :=
  match f with S754_zero _ | S754_finite _ _ _ => true | _ => false end.

(** [a == b] on floats. *)
Definition float_eqb (a b : spec_float) : bool := SFeqb a b.

(** The float nearest to [num / den] with sign [neg]. *)
Definition float_of_ratio (neg : bool) (num den : positive) : spec_float :=
  let k := Z.max 0 (Z.pos (digits2_pos den) + prec + 2 - Z.pos (digits2_pos num)) in
  let n := Z.shiftl (Z.pos num) k in
  let q := Z.div n (Z.pos den) in
  let r := Z.modulo n (Z.pos den) in
  let l := if Z.eqb r 0 then loc_Exact else loc_Inexact (Z.compare (2 * r) (Z.pos den)) in
  binary_round_aux prec emax neg q (- k) l.

(** [float(n)] for an [int]: OverflowError when [n] does not round to a
    finite float. *)
Definition float_of_int (z : Z) : result spec_float :=
  let f := binary_normalize prec emax z 0 false in
  if is_finite f then Ok f else builtin_error OverflowError.

(** The integer nearest to [num / den], ties to even. *)
Definition round_half_even_ratio (num den : Z) : Z :=
  let q := Z.div num den in
  let r := Z.modulo num den in
  match Z.compare (2 * r) den with
  | Lt => q
  | Gt => q + 1
  | Eq => if Z.even q then q else q + 1
  end.

(** [round(x)] for a float [x]: an [int]. *)
Definition round_to_int (f : spec_float) : result Z :=
  match f with
  | S754_nan => builtin_error ValueError
  | S754_infinity _ => builtin_error OverflowError
  | S754_zero _ => Ok 0
  | S754_finite s m e =>
      let a := if Z.leb 0 e then Z.pos m * 2 ^ e
               else round_half_even_ratio (Z.pos m) (2 ^ (- e)) in
      Ok (if s then - a else a)
  end.

(** [round(x, 2)] for a float [x], as [float.__round__] computes it: the
    exact value is rounded to two decimals, ties to even, and the decimal
    is converted back to the nearest float; OverflowError if that is not
    finite. *)
Definition round_2 (f : spec_float) : result spec_float :=
  match f with
  | S754_finite s m e =>
      let q := if Z.leb 0 e then Z.pos m * 2 ^ e * 100
               else round_half_even_ratio (Z.pos m * 100) (2 ^ (- e)) in
      match q with
      | Z.pos p =>
          let r := float_of_ratio s p 100 in
          if is_finite r then Ok r else builtin_error OverflowError
      | _ => Ok (S754_zero s)
      end
  | _ => Ok f
  end.

(** *** [float(s)] for a string *)

Definition is_c_space (c : codepoint) : bool :=
  (N.eqb c 32%N || in_range 9%N 13%N c)%bool.

Definition digit_value (c : codepoint) : N := (c - 48)%N.

Definition digits_value (ds : pystr) : N :=
  fold_left (fun acc d => (acc * 10 + digit_value d)%N) ds 0%N.

(** [s] is what follows the mantissa: nothing, or an exponent. *)
Definition parse_exponent (s : pystr) : option Z :=
  match s with
  | [] => Some 0
  | c :: s1 =>
      if (N.eqb c 101%N || N.eqb c 69%N)%bool then
        let '(neg, s2) :=
          match s1 with
          | 45%N :: t => (true, t)
          | 43%N :: t => (false, t)
          | _ => (false, s1)
          end in
        match s2 with
        | [] => None
        | _ :: _ =>
            if forallb is_ascii_digit s2
            then Some (if neg then - Z.of_N (digits_value s2) else Z.of_N (digits_value s2))
            else None
        end
      else None
  end.

(** A decimal literal: its digits as a number and its power of ten. *)
Definition parse_decimal_literal (s : pystr) : option (N * Z) :=
  let ip := take_while is_ascii_digit s in
  let r1 := drop_while is_ascii_digit s in
  let '(fp, r2) :=
    match r1 with
    | 46%N :: r => (take_while is_ascii_digit r, drop_while is_ascii_digit r)
    | _ => ([], r1)
    end in
  match ip ++ fp with
  | [] => None
  | ds =>
      match parse_exponent r2 with
      | Some e => Some (digits_value ds, e - Z.of_nat (List.length fp))
      | None => None
      end
  end.

(** Underscores are accepted between two digits and are dropped. *)
Fixpoint drop_underscores (prev_digit : bool) (s : pystr) : option pystr :=
  match s with
  | [] => Some []
  | c :: s' =>
      if N.eqb c 95%N then
        match s' with
        | d :: _ =>
            if (prev_digit && is_ascii_digit d)%bool
            then drop_underscores false s'
            else None
        | [] => None
        end
      else
        match drop_underscores (is_ascii_digit c) s' with
        | Some t => Some (c :: t)
        | None => None
        end
  end.

Definition unsigned_float (neg : bool) (s : pystr) : option spec_float :=
  let low := map ascii_lower s in
  if (str_eqb low (lit "inf") || str_eqb low (lit "infinity"))%bool
  then Some (S754_infinity neg)
  else if str_eqb low (lit "nan") then Some S754_nan
  else
    match parse_decimal_literal s with
    | Some (m, e) =>
        match m with
        | N0 => Some (S754_zero neg)
        | Npos p =>
            Some (if Z.leb 0 e
                  then float_of_ratio neg (p * Z.to_pos (10 ^ e)) 1
                  else float_of_ratio neg p (Z.to_pos (10 ^ (- e))))
        end
    | None => None
    end.

(** The ASCII text [float] parses: a code point from 127 on is a blank if
    it is white space, the digit it stands for if it is a decimal digit
    ([decimal] gives its value), and ['?'] otherwise. *)
Definition to_ascii_number (decimal : codepoint -> option N) (s : pystr) : pystr :=
  map (fun c =>
         if N.ltb c 127%N then c
         else if py_isspace c then 32%N
         else match decimal c with
              | Some d => (48 + d)%N
              | None => 63%N
              end) s.

Definition float_of_str (decimal : codepoint -> option N) (s : pystr) : result spec_float :=
  let t := strip_by is_c_space (to_ascii_number decimal s) in
  match drop_underscores false t with
  | None => builtin_error ValueError
  | Some u =>
      let '(neg, body) :=
        match u with
        | 45%N :: r => (true, r)
        | 43%N :: r => (false, r)
        | _ => (false, u)
        end in
      match unsigned_float neg body with
      | Some f => Ok f
      | None => builtin_error ValueError
      end
  end.

End PyFloat.

(** ** What the scripts take from outside the repository *)

Module Ext.
Import Py Val.
Local Open Scope N_scope.

(** The base letter of a Latin-1 letter that carries one diacritic (grave,
    acute, circumflex, tilde, diaeresis, ring, cedilla); every other code
    point is kept. *)
Definition latin1_base (c : codepoint) : codepoint :=
  if in_range 192 197 c then 65
  else if cp_eqb c 199 then 67
  else if in_range 200 203 c then 69
  else if in_range 204 207 c then 73
  else if cp_eqb c 209 then 78
  else if in_range 210 214 c then 79
  else if in_range 217 220 c then 85
  else if cp_eqb c 221 then 89
  else if in_range 224 229 c then 97
  else if cp_eqb c 231 then 99
  else if in_range 232 235 c then 101
  else if in_range 236 239 c then 105
  else if cp_eqb c 241 then 110
  else if in_range 242 246 c then 111
  else if in_range 249 252 c then 117
  else if (cp_eqb c 253 || cp_eqb c 255)%bool then 121
  else c.

Definition midnight (y m d : N) : datetime :=
  Datetime (Z.of_N y) (Z.of_N m) (Z.of_N d) 0 0 0 0.

(** A date written with two digits, two digits and four digits, separated
    by slashes. *)
Definition slashed_date (a b y : N) : pystr :=
  zero_pad 2 a ++ [47] ++ zero_pad 2 b ++ [47] ++ zero_pad 4 y.

(** The library functions the scripts call, and what the proofs use of
    them.  The facts are those of CPython's Unicode database and of
    pandas: ASCII text is lower-cased letter by letter, is its own NFKD
    form and has no combining character; lower-casing does not depend on
    the case of the ASCII letters, nor, up to the combining marks that the
    NFKD form exposes, on the diacritic of a Latin-1 letter; a date of the
    form nn/nn/yyyy whose first two numbers can both be a month is read
    month first unless [dayfirst] is set. *)
Class Runtime := {
  str_lower : pystr -> pystr;                  (* str.lower *)
  str_upper : pystr -> pystr;                  (* str.upper *)
  nfkd : pystr -> pystr;                       (* unicodedata.normalize("NFKD", _) *)
  combining : codepoint -> bool;               (* unicodedata.combining(_) != 0 *)
  unicode_alnum : codepoint -> bool;           (* str.isalnum, from 128 on *)
  unicode_decimal : codepoint -> option N;     (* the value of a decimal digit, from 127 on *)
  float_repr : spec_float -> pystr;            (* repr of a float *)
  series_str : list scalar -> pystr;           (* str of a pandas.Series *)
  to_datetime : bool -> pyval -> result pyval; (* pandas.to_datetime(_, errors="coerce", dayfirst=_) *)
  excel_columns : list scalar -> list scalar;  (* the column labels read_excel makes of a header row *)

  str_lower_ascii :
    forall s, forallb is_ascii s = true -> str_lower s = map ascii_lower s;
  str_lower_ascii_case :
    forall s, str_lower (map ascii_lower s) = str_lower s;
  nfkd_ascii :
    forall s, forallb is_ascii s = true -> nfkd s = s;
  combining_ascii :
    forall c, is_ascii c = true -> combining c = false;
  unmark_latin1_base :
    forall s,
      filter (fun ch => negb (combining ch)) (nfkd (str_lower (map latin1_base s))) =
      filter (fun ch => negb (combining ch)) (nfkd (str_lower s));
  to_datetime_slashed :
    forall (dayfirst : bool) a b y,
      1 <= a <= 12 -> 1 <= b <= 12 -> 1678 <= y <= 2261 ->
      to_datetime dayfirst (SStr (slashed_date a b y)) =
      Ok (PScalar (SDatetime (if dayfirst then midnight y b a else midnight y a b)))
}.

Section Builtins.
Context {R : Runtime}.

Definition two_digits (z : Z) : pystr := zero_pad 2 (Z.to_N z).

(** [d.date().isoformat()]. *)
Definition date_isoformat (d : datetime) : pystr :=
  zero_pad 4 (Z.to_N (dt_year d)) ++ [45] ++ two_digits (dt_month d) ++ [45]
  ++ two_digits (dt_day d).

(** [str(d)] for a datetime. *)
Definition str_datetime (d : datetime) : pystr :=
  date_isoformat d ++ [32] ++ two_digits (dt_hour d) ++ [58]
  ++ two_digits (dt_minute d) ++ [58] ++ two_digits (dt_second d)
  ++ (if Z.eqb (dt_microsecond d) 0 then []
      else 46 :: zero_pad 6 (Z.to_N (dt_microsecond d))).

(** [str(value)]. *)
Definition py_str (v : pyval) : pystr :=
  match v with
  | PScalar SNone => lit "None"
  | PScalar (SBool true) => lit "True"
  | PScalar (SBool false) => lit "False"
  | PScalar (SInt z) => str_of_Z z
  | PScalar (SFloat f) => float_repr f
  | PScalar (SStr s) => s
  | PScalar (SDatetime d) => str_datetime d
  | PScalar SNaT => lit "NaT"
  | PSeries xs => series_str xs
  end.

(** [pandas.isna] of a scalar. *)
Definition scalar_isna (x : scalar) : bool :=
  match x with
  | SNone | SNaT => true
  | SFloat f => PyFloat.is_nan f
  | _ => false
  end.

(** The truth value of [pandas.isna(value)]: that of a Series is a
    ValueError. *)
Definition isna_truth (v : pyval) : result bool :=
  match v with
  | PScalar x => Ok (scalar_isna x)
  | PSeries _ => builtin_error ValueError
  end.

(** [isinstance(value, float) and pandas.isna(value)]. *)
Definition is_nan_float (v : pyval) : bool :=
  match v with
  | PScalar (SFloat f) => PyFloat.is_nan f
  | _ => false
  end.

Definition is_none (v : pyval) : bool :=
  match v with
  | PScalar SNone => true
  | _ => false
  end.

(** [float(value)]. *)
Definition py_float (v : pyval) : result spec_float :=
  match v with
  | PScalar (SBool b) => PyFloat.float_of_int (if b then 1 else 0)
  | PScalar (SInt z) => PyFloat.float_of_int z
  | PScalar (SFloat f) => Ok f
  | PScalar (SStr s) => PyFloat.float_of_str unicode_decimal s
  | _ => builtin_error TypeError
  end.

(** [ts.date().isoformat()] for what [to_datetime] returned. *)
Definition timestamp_isoformat (ts : pyval) : result pystr :=
  match ts with
  | PScalar (SDatetime d) => Ok (date_isoformat d)
  | _ => builtin_error AttributeError
  end.

End Builtins.

(** A value of a record, as it is written to JSON. *)
Inductive jval :=
| JNull
| JStr (s : pystr)
| JInt (z : Z)
| JFloat (f : spec_float).

Definition record := dict jval.

Definition j_text (o : option pystr) : jval :=
  match o with Some s => JStr s | None => JNull end.
Definition j_int (o : option Z) : jval :=
  match o with Some z => JInt z | None => JNull end.
Definition j_float (o : option spec_float) : jval :=
  match o with Some f => JFloat f | None => JNull end.

(** [not v] for the value [d.get(k)] of a record. *)
Definition j_falsy (v : option jval) : bool :=
  match v with
  | None | Some JNull | Some (JStr []) | Some (JInt Z0) | Some (JFloat (S754_zero _)) => true
  | _ => false
  end.

(** [not text] for an optional string. *)
Definition blank (o : option pystr) : bool :=
  match o with
  | None | Some [] => true
  | Some (_ :: _) => false
  end.

End Ext.

(** ** scripts/generate_me_accreditation.py *)

Module Accreditation.
Import Py Val Ext.
Local Open Scope py_scope.

Definition ACCREDITED_HEADER_MAP : dict pystr :=
  [ (lit "institucioni i arsimit te larte", lit "institution");
    (lit "institucioni i arsimit te larte higher education institution", lit "institution");
    (lit "nr", lit "program_number");
    (lit "programi i studimit", lit "programme_sq");
    (lit "progarmi i studimit", lit "programme_sq");
    (lit "programet e studimit", lit "programme_sq");
    (lit "study program", lit "programme_en");
    (lit "kampusi", lit "campus");
    (lit "niveli", lit "level");
    (lit "ects", lit "ects");
    (lit "kuota", lit "quota");
    (lit "i akredituar deri me", lit "accredited_until");
    (lit "i akredituar deri m" ++ [235%N], lit "accredited_until") ].

Definition ACCREDITED_FIELD_ORDER : list pystr :=
  [ lit "institution"; lit "program_number"; lit "programme_sq";
    lit "programme_en"; lit "campus"; lit "level"; lit "ects"; lit "quota";
    lit "accredited_until" ].

Definition NL : pystr := [10%N].
Definition SP : pystr := [32%N].

(** The rows of the first sheet as [read_excel(header=None, dtype=object)]
    gives them, and the name of the file. *)
Record workbook := Workbook {
  wb_name : pystr;
  wb_rows : list (list scalar)
}.

(** A row of a frame, with its index label. *)
Definition frame_row := (nat * list (pystr * scalar))%type.

Section WithRuntime.
Context {R : Runtime}.

Definition normalize_header (value : pyval) : pystr :=
  if is_none value then []
  else
    let text := str_lower (str_strip (py_str value)) in
    let text := nfkd text in
    let text := filter (fun ch => negb (combining ch)) text in
    let text := str_replace NL SP text in
    let text := Re.sub (Re.pat [Re.plus Re.CNotKey]) SP text in
    str_strip (Re.sub (Re.pat [Re.plus Re.CSpace]) SP text).

(** [value is None or pd.isna(value)]. *)
Definition none_or_na (value : pyval) : result bool :=
  if is_none value then Ok true else isna_truth value.

Definition clean_text (value : pyval) : result (option pystr) :=
  na <- none_or_na value ;;
  if (na : bool) then Ok None
  else
    let text := str_strip (py_str value) in
    match text with
    | [] => Ok None
    | _ :: _ => Ok (Some (Re.sub (Re.pat [Re.plus Re.CSpace]) SP text))
    end.

Definition to_int (value : pyval) : result (option Z) :=
  na <- none_or_na value ;;
  if (na : bool) then Ok None
  else
    try_except
      (x <- py_float value ;; n <- PyFloat.round_to_int x ;; Ok (Some n))
      [TypeError; ValueError; OverflowError]
      (Ok None).

Definition to_float (value : pyval) : result (option spec_float) :=
  na <- none_or_na value ;;
  if (na : bool) then Ok None
  else
    r <- try_except
           (x <- py_float value ;; Ok (Some x))
           [TypeError; ValueError; OverflowError]
           (Ok None) ;;
    match r with
    | None => Ok None
    | Some num => y <- PyFloat.round_2 num ;; Ok (Some y)
    end.

Definition format_date (value : pyval) : result (option pystr) :=
  na <- none_or_na value ;;
  if (na : bool) then Ok None
  else
    ts <- to_datetime false value ;;
    na_ts <- isna_truth ts ;;
    if (na_ts : bool) then Ok None
    else s <- timestamp_isoformat ts ;; Ok (Some s).

(** [row[0]]. *)
Definition first_cell_of (row : list scalar) : result scalar :=
  match row with
  | c :: _ => Ok c
  | [] => builtin_error KeyError
  end.

(** The loop of [load_accredited_dataframe]: the index of the first row
    from [idx] on whose first cell names the institution column. *)
Fixpoint find_header_from (idx : nat) (rows : list (list scalar)) : result (option nat) :=
  match rows with
  | [] => Ok None
  | row :: rest =>
      c <- first_cell_of row ;;
      first_cell <- clean_text c ;;
      match first_cell with
      | Some (x :: t) =>
          if str_contains (lit "institucioni") (str_lower (x :: t))
          then Ok (Some idx)
          else find_header_from (S idx) rest
      | _ => find_header_from (S idx) rest
      end
  end.

Definition header_not_found (name : pystr) : exn :=
  Exn ValueError (lit "Unable to locate the header row in " ++ name).

(** [load_accredited_dataframe]: the column labels and the rows below the
    header row. *)
Definition load_accredited_dataframe (wb : workbook)
  : result (list scalar * list (list scalar)) :=
  h <- find_header_from 0 (wb_rows wb) ;;
  match h with
  | None => Raise (header_not_found (wb_name wb))
  | Some header_row =>
      Ok (excel_columns (nth header_row (wb_rows wb) []),
          skipn (S header_row) (wb_rows wb))
  end.

(** The entry of [rename_map] for a column, if it has one.  A column has
    an entry when its normalized label is a key of the header map; such a
    label is a string, so no two columns are confused as keys of the
    dictionary. *)
Definition rename_target (column : scalar) : option pystr :=
  match dict_get ACCREDITED_HEADER_MAP (normalize_header column) with
  | Some (x :: t) => Some (x :: t)
  | _ => None
  end.

(** [df.rename(columns=rename_map)], on one label. *)
Definition renamed (column : scalar) : scalar :=
  match rename_target column with
  | Some target => SStr target
  | None => column
  end.

Definition label_is (field : pystr) (label : scalar) : bool :=
  match label with
  | SStr s => str_eqb s field
  | _ => false
  end.

Definition no_institution (name : pystr) : exn :=
  Exn ValueError (lit "Unable to identify institution column in " ++ name).

Fixpoint join (sep : pystr) (xs : list pystr) : pystr :=
  match xs with
  | [] => []
  | [x] => x
  | x :: rest => x ++ sep ++ join sep rest
  end.

Definition missing_columns (name : pystr) (missing : list pystr) : exn :=
  Exn ValueError (name ++ lit " is missing columns: " ++ join (lit ", ") missing).

(** The positions of the columns carrying each label of [fields], in the
    order of [fields]: what [df[fields]] selects. *)
Fixpoint positions_of (field : pystr) (labels : list scalar) (j : nat) : list (pystr * nat) :=
  match labels with
  | [] => []
  | l :: rest =>
      (if label_is field l then [(field, j)] else []) ++ positions_of field rest (S j)
  end.

Definition select (fields : list pystr) (labels : list scalar) : list (pystr * nat) :=
  flat_map (fun f => positions_of f labels 0) fields.

Definition NaN : scalar := SFloat PyFloat.nan.

Definition select_row (sel : list (pystr * nat)) (row : list scalar) : list (pystr * scalar) :=
  map (fun fj => (fst fj, nth (snd fj) row NaN)) sel.

(** [df[field] = df[field].ffill()]: a missing value of a column labelled
    [field] takes the value above it. *)
Definition ffill_row (field : pystr) (above row : list (pystr * scalar)) : list (pystr * scalar) :=
  map (fun ac =>
         let '(a, c) := ac in
         if (str_eqb (fst c) field && scalar_isna (snd c) && negb (scalar_isna (snd a)))%bool
         then (fst c, snd a) else c)
      (combine above row).

Fixpoint ffill_from (field : pystr) (above : list (pystr * scalar)) (rows : list frame_row)
  : list frame_row :=
  match rows with
  | [] => []
  | (i, row) :: rest =>
      let row' := ffill_row field above row in
      (i, row') :: ffill_from field row' rest
  end.

Definition ffill (field : pystr) (rows : list frame_row) : list frame_row :=
  match rows with
  | [] => []
  | (i, row) :: rest => (i, row) :: ffill_from field row rest
  end.

Definition in_subset (subset : list pystr) (cell : pystr * scalar) : bool :=
  existsb (str_eqb (fst cell)) subset.

(** [df.dropna(subset=subset, how="all")] and [df.dropna(subset=subset)]. *)
Definition dropna_all (subset : list pystr) (rows : list frame_row) : list frame_row :=
  filter (fun r => negb (forallb (fun c => scalar_isna (snd c))
                           (filter (in_subset subset) (snd r)))) rows.

Definition dropna_any (subset : list pystr) (rows : list frame_row) : list frame_row :=
  filter (fun r => negb (existsb (fun c => scalar_isna (snd c))
                           (filter (in_subset subset) (snd r)))) rows.

(** [row.field] of a tuple of [itertuples]: the first column so labelled. *)
Fixpoint attr (field : pystr) (row : list (pystr * scalar)) : result scalar :=
  match row with
  | [] => builtin_error AttributeError
  | (f, v) :: rest => if str_eqb f field then Ok v else attr field rest
  end.

Definition build_record (row : list (pystr * scalar)) : result record :=
  institution <- (v <- attr (lit "institution") row ;; clean_text v) ;;
  program_number <- (v <- attr (lit "program_number") row ;; to_int v) ;;
  programme_sq <- (v <- attr (lit "programme_sq") row ;; clean_text v) ;;
  programme_en <- (v <- attr (lit "programme_en") row ;; clean_text v) ;;
  campus <- (v <- attr (lit "campus") row ;; clean_text v) ;;
  level <- (v <- attr (lit "level") row ;; clean_text v) ;;
  ects <- (v <- attr (lit "ects") row ;; to_int v) ;;
  quota <- (v <- attr (lit "quota") row ;; to_int v) ;;
  accredited_until <- (v <- attr (lit "accredited_until") row ;; format_date v) ;;
  Ok [ (lit "institution", j_text institution);
       (lit "program_number", j_int program_number);
       (lit "programme_sq", j_text programme_sq);
       (lit "programme_en", j_text programme_en);
       (lit "campus", j_text campus);
       (lit "level", j_text level);
       (lit "ects", j_int ects);
       (lit "quota", j_int quota);
       (lit "accredited_until", j_text accredited_until) ].

(** The loop over the rows of the frame: the records, each with the index
    of the row it was made from. *)
Fixpoint records_of (rows : list frame_row) : result (list (nat * record)) :=
  match rows with
  | [] => Ok []
  | (i, row) :: rest =>
      rec <- build_record row ;;
      tail <- records_of rest ;;
      if (j_falsy (dict_get rec (lit "programme_sq"))
          && j_falsy (dict_get rec (lit "programme_en")))%bool
      then Ok tail
      else Ok ((i, rec) :: tail)
  end.

Fixpoint index_from (i : nat) {A : Type} (xs : list A) : list (nat * A) :=
  match xs with
  | [] => []
  | x :: rest => (i, x) :: index_from (S i) rest
  end.

(** The frame after the two [dropna]: the rows that reach the loop. *)
Definition kept_rows (labels : list scalar) (data : list (list scalar)) : list frame_row :=
  let sel := select ACCREDITED_FIELD_ORDER (map renamed labels) in
  let df := index_from 0 (map (select_row sel) data) in
  let df := ffill (lit "institution") df in
  let df := dropna_all [lit "programme_sq"; lit "programme_en"] df in
  dropna_any [lit "institution"] df.

(** [parse_accredited_programmes], with the index of the row of each
    record. *)
Definition parse_indexed (wb : workbook) : result (list (nat * record)) :=
  df <- load_accredited_dataframe wb ;;
  let '(labels, data) := df in
  if negb (existsb (fun c => match rename_target c with
                             | Some t => str_eqb t (lit "institution")
                             | None => false
                             end) labels)
  then Raise (no_institution (wb_name wb))
  else
    let missing_fields :=
      filter (fun field => negb (existsb (label_is field) (map renamed labels)))
             ACCREDITED_FIELD_ORDER in
    match missing_fields with
    | _ :: _ => Raise (missing_columns (wb_name wb) missing_fields)
    | [] => records_of (kept_rows labels data)
    end.

Definition parse_accredited_programmes (wb : workbook) : result (list record) :=
  recs <- parse_indexed wb ;; Ok (map snd recs).

(** What [\d] matches and the value [int] gives it. *)
Definition decimal_digit (c : codepoint) : option N :=
  if is_ascii c
  then (if is_ascii_digit c then Some (c - 48)%N else None)
  else unicode_decimal c.

(** [extract_year]: YEAR_PATTERN is 20 followed by two digits; the first
    match is taken and read as a number. *)
Fixpoint extract_year (text : pystr) : option Z :=
  match text with
  | [] => None
  | a :: rest =>
      match rest with
      | b :: c :: d :: _ =>
          if (cp_eqb a 50%N && cp_eqb b 48%N)%bool then
            match decimal_digit c, decimal_digit d with
            | Some x, Some y => Some (Z.of_N (2000 + 10 * x + y)%N)
            | _, _ => extract_year rest
            end
          else extract_year rest
      | _ => None
      end
  end.

(** An entry of the index, as [generate_datasets] builds it: its
    category, path and period are strings. *)
Record index_entry := {
  category : pystr;
  path : pystr;
  period : pystr;
  record_count : Z;
  institution_count : Z;
  source_url : pystr;
  source_file : pystr;
  generated_at : pystr;
  version : option pystr
}.

(** [extract_year(item.get("period", "")) or 0]. *)
Definition period_year (item : index_entry) : Z :=
  match extract_year (period item) with
  | Some y => if Z.eqb y 0 then 0%Z else y
  | None => 0%Z
  end.

Definition dataset_index_key (item : index_entry) : Z * pystr * pystr :=
  ((- period_year item)%Z, category item, path item).

(** The order of two keys: that of tuples, component by component. *)
Definition key_compare (k1 k2 : Z * pystr * pystr) : comparison :=
  let '(y1, c1, p1) := k1 in
  let '(y2, c2, p2) := k2 in
  match Z.compare y1 y2 with
  | Eq => match PySort.str_compare c1 c2 with
          | Eq => PySort.str_compare p1 p2
          | o => o
          end
  | o => o
  end.

Definition key_ltb (k1 k2 : Z * pystr * pystr) : bool :=
  match key_compare k1 k2 with Lt => true | _ => false end.

(** [index_entries.sort(key=dataset_index_key)] in [generate_datasets]. *)
Definition sort_index (index_entries : list index_entry) : list index_entry :=
  PySort.sort (fun a b => key_ltb (dataset_index_key a) (dataset_index_key b)) index_entries.

End WithRuntime.
End Accreditation.

(** ** scripts/generate_prishtina_building_permits.py *)

Module Permits.
Import Py Val Ext.
Local Open Scope py_scope.

Definition HEADER_ALIASES : dict pystr :=
  [ (lit "#", lit "permit_number");
    (lit "data e aplikimit te lejes", lit "application_date");
    (lit "data e leshimit te lejes", lit "issuance_date");
    (lit "pronari pronaret perfaqesuesi", lit "owner");
    (lit "kompania investitori", lit "investor");
    (lit "projektuesi", lit "designer");
    (lit "lagja", lit "neighbourhood");
    (lit "lagjia", lit "neighbourhood");
    (lit "lagjia e", lit "neighbourhood");
    (lit "siperfaqja totale ndertimore", lit "total_floor_area_m2");
    (lit "pagesa totale e lejes se leshuar", lit "total_fee_eur");
    (lit "etazhiteti", lit "storeys");
    (lit "etazhiteti i objektit", lit "storeys");
    (lit "destinimi i objektit", lit "destination");
    (lit "koment", lit "comment");
    (lit "dokumenti ne pdf i lejes se leshuar", lit "document_reference");
    (lit "situacioni i ndertimit", lit "situation_reference");
    (lit "situacioni", lit "situation_reference") ].

Definition TEXT_FIELDS : list pystr :=
  [ lit "permit_number"; lit "owner"; lit "investor"; lit "designer";
    lit "neighbourhood"; lit "storeys"; lit "destination";
    lit "document_reference" ].

Definition NUMERIC_FIELDS : list pystr :=
  [ lit "total_floor_area_m2"; lit "density_fee_eur";
    lit "administrative_fee_eur"; lit "total_fee_eur" ].

Definition DATE_FIELDS : list pystr := [ lit "application_date"; lit "issuance_date" ].

Definition FIELD_ORDER : list pystr :=
  [ lit "permit_number"; lit "application_date"; lit "issuance_date";
    lit "owner"; lit "investor"; lit "designer"; lit "neighbourhood";
    lit "total_floor_area_m2"; lit "density_fee_eur";
    lit "administrative_fee_eur"; lit "total_fee_eur"; lit "storeys";
    lit "destination"; lit "document_reference"; lit "document_url";
    lit "situation_url" ].

(** The letter e with diaeresis is code point 235. *)
Definition SMALL_WORDS : list pystr :=
  [ lit "e"; lit "dhe"; lit "me"; lit "nga"; lit "ne"; lit "n" ++ [235%N];
    lit "te"; lit "t" ++ [235%N]; lit "per"; lit "p" ++ [235%N] ++ lit "r";
    lit "prej"; lit "s" ++ [235%N]; lit "se"; lit "i" ].

Definition str_in (xs : list pystr) (s : pystr) : bool := existsb (str_eqb s) xs.

Definition NL : pystr := [10%N].
Definition CR : pystr := [13%N].
Definition SP : pystr := [32%N].
Definition COMMA : codepoint := 44%N.
Definition APOS : codepoint := 39%N.
Definition QUOTE : codepoint := 34%N.
Definition DASH : codepoint := 45%N.
Definition SLASH : codepoint := 47%N.
Definition DOT : codepoint := 46%N.
Definition COLON : codepoint := 58%N.

(** The cell [sheet[coordinate]] of the openpyxl worksheet. *)
Record hyperlink := Hyperlink { target : option pystr }.
Record ws_cell := WsCell { c_hyperlink : option hyperlink; c_value : scalar }.

(** A workbook: the stem of the file name, the rows of the first sheet as
    [read_excel(header=None, dtype=object)] gives them, and the active
    sheet that openpyxl loads, with its title. *)
Record workbook := Workbook {
  wb_stem : pystr;
  wb_rows : list (list scalar);
  wb_sheet : pystr -> result ws_cell;
  wb_title : pystr
}.

Record WorkbookParseResult := {
  year : Z;
  sheet_name : pystr;
  header_row : Z;
  columns : list pystr;
  records : list record
}.

Definition frame_row := (nat * list (pystr * scalar))%type.

Section WithRuntime.
Context {R : Runtime}.

Definition clean_text (value : pyval) : option pystr :=
  if (is_none value || is_nan_float value)%bool then None
  else
    let text := str_strip (py_str value) in
    match text with
    | [] => None
    | _ :: _ =>
        let text := str_replace CR NL (str_replace (CR ++ NL) NL text) in
        let text := Re.sub (Re.pat [Re.plus (Re.CSet NL false)]) [COMMA; 32%N] text in
        let text := Re.sub (Re.pat [Re.plus Re.CSpace]) SP text in
        let text := Re.sub (Re.pat [Re.one (Re.CChar COMMA); Re.star Re.CSpace;
                                    Re.one (Re.CChar COMMA)]) [COMMA; 32%N] text in
        let text := Re.sub (Re.pat [Re.plus Re.CSpace; Re.one (Re.CChar COMMA)]) [COMMA] text in
        let text := Re.sub (Re.pat [Re.one (Re.CChar COMMA); Re.plus Re.CSpace])
                           [COMMA; 32%N] text in
        let text := Re.sub (Re.pat [Re.one (Re.CChar APOS); Re.plus (Re.CChar APOS)])
                           [APOS] text in
        let text := Re.sub (Re.pat [Re.one (Re.CChar QUOTE); Re.plus (Re.CChar QUOTE)])
                           [QUOTE] text in
        let text := Re.sub (Re.Pattern [Re.one (Re.CChar APOS)] (Some Re.CSpace)) [] text in
        let text := Re.sub (Re.Pattern [Re.one (Re.CChar QUOTE)] (Some Re.CSpace)) [] text in
        let text := str_strip_chars [32%N; COMMA; QUOTE; APOS] text in
        match text with
        | [] => None
        | _ :: _ => Some text
        end
    end.

Definition normalize_header (value : pyval) : pystr :=
  match clean_text value with
  | None | Some [] => []
  | Some text =>
      let decomposed := nfkd (str_lower text) in
      let stripped := filter (fun ch => negb (combining ch)) decomposed in
      let stripped := str_replace [186%N] [] stripped in
      let stripped := Re.sub (Re.pat [Re.plus Re.CNotKey]) SP stripped in
      str_strip (Re.sub (Re.pat [Re.plus Re.CSpace]) SP stripped)
  end.

(** What [\w] matches. *)
Definition is_word (c : codepoint) : bool :=
  if is_ascii c
  then (is_ascii_lower c || is_ascii_upper c || is_ascii_digit c || cp_eqb c 95%N)%bool
  else unicode_alnum c.

(** [re.sub(r"\b\w+\b", repl, s)]: every maximal run of word characters is
    replaced by its image; [cur] is the run being read, last character
    first. *)
Definition flush (repl : pystr -> pystr) (cur : pystr) : pystr :=
  match cur with
  | [] => []
  | _ :: _ => repl (rev cur)
  end.

Fixpoint sub_words (repl : pystr -> pystr) (cur s : pystr) : pystr :=
  match s with
  | [] => flush repl cur
  | c :: s' =>
      if is_word c then sub_words repl (c :: cur) s'
      else flush repl cur ++ c :: sub_words repl [] s'
  end.

(** [s[:1].upper() + s[1:]]. *)
Definition upper_first (s : pystr) : pystr :=
  match s with
  | [] => []
  | c :: t => str_upper [c] ++ t
  end.

Definition smart_title_case (text : pystr) : pystr :=
  let lowered := str_lower text in
  let repl := fun word => if str_in SMALL_WORDS word then word else upper_first word in
  let titled := sub_words repl [] lowered in
  upper_first titled.

Definition normalize_inline_separators (value : pyval) (dash_separator : option pystr)
  (title_case : bool) : option pystr :=
  match clean_text value with
  | None | Some [] => None
  | Some text =>
      let text := str_replace [8212%N] [DASH] (str_replace [8211%N] [DASH] text) in
      let text := Re.sub (Re.pat [Re.one (Re.CChar DASH); Re.star Re.CSpace;
                                  Re.one (Re.CChar COMMA)]) [DASH] text in
      let text := Re.sub (Re.pat [Re.one (Re.CChar COMMA); Re.star Re.CSpace;
                                  Re.one (Re.CChar DASH)]) [DASH] text in
      let text :=
        match dash_separator with
        | None => Re.sub (Re.pat [Re.plus (Re.CChar DASH)]) SP text
        | Some sep => Re.sub (Re.pat [Re.star Re.CSpace; Re.one (Re.CChar DASH);
                                      Re.star Re.CSpace]) sep text
        end in
      let text := Re.sub (Re.pat [Re.star Re.CSpace; Re.one (Re.CChar SLASH);
                                  Re.star Re.CSpace]) [32%N; SLASH; 32%N] text in
      let text := Re.sub (Re.pat [Re.plus Re.CSpace]) SP text in
      let text := str_strip_chars [32%N; COMMA; DASH; SLASH] text in
      match text with
      | [] => None
      | _ :: _ =>
          let text := if title_case then smart_title_case text else text in
          match text with
          | [] => None
          | _ :: _ => Some text
          end
      end
  end.

Definition normalize_destination (value : pyval) : option pystr :=
  normalize_inline_separators value (Some [32%N; DASH; 32%N]) true.

Definition normalize_neighbourhood (value : pyval) : option pystr :=
  normalize_inline_separators value (Some [32%N; DASH; 32%N]) true.

(** [(leja|leje)] under re.IGNORECASE. *)
Definition leja_leje : list Re.atom :=
  Re.word_i (lit "lej") ++ [Re.one (Re.CAnyI (lit "ae"))].

Definition normalize_document_reference (value : pyval) : option pystr :=
  match clean_text value with
  | None | Some [] => None
  | Some text =>
      let text := Re.sub_anchored
                    (Re.pat (Re.word_i (lit "leja dokumenti")
                             ++ [Re.plus (Re.CSet [COLON; DASH] true)])) [] text in
      let text := Re.sub_anchored
                    (Re.pat (leja_leje ++ [Re.plus Re.CSpace] ++ Re.word_i (lit "me")
                             ++ [Re.plus Re.CSpace] ++ Re.word_i (lit "nr")
                             ++ [Re.opt (Re.CChar DOT); Re.star Re.CSpace])) [] text in
      let text := Re.sub_anchored
                    (Re.pat (leja_leje ++ [Re.plus Re.CSpace] ++ Re.word_i (lit "nr")
                             ++ [Re.opt (Re.CChar DOT); Re.star Re.CSpace])) [] text in
      let text := str_lstrip_chars [COLON; DASH; 32%N] text in
      match text with
      | [] => None
      | _ :: _ => Some text
      end
  end.

(** [isinstance(value, (int, float))]: a [bool] is an [int]. *)
Definition is_number (value : pyval) : bool :=
  match value with
  | PScalar (SBool _) | PScalar (SInt _) | PScalar (SFloat _) => true
  | _ => false
  end.

(** [head, tail = text.rsplit(".", 1)]. *)
Definition unpack2 (xs : list pystr) : result (pystr * pystr) :=
  match xs with
  | [a; b] => Ok (a, b)
  | _ => builtin_error ValueError
  end.

Definition parse_decimal (value : pyval) : result (option spec_float) :=
  if (is_none value || is_nan_float value)%bool then Ok None
  else if is_number value then
    x <- py_float value ;; y <- PyFloat.round_2 x ;; Ok (Some y)
  else
    let text := py_str value in
    match text with
    | [] => Ok None
    | _ :: _ =>
        let text := str_replace (lit "EUR") [] (str_replace [8364%N] [] text) in
        let text := str_replace SP [] text in
        let text := str_replace [COMMA] [DOT] text in
        text <- (if Nat.ltb 1 (str_count_char DOT text)
                 then ht <- unpack2 (rsplit1 DOT text) ;;
                      let '(head, tail) := ht in
                      let head := str_replace [DOT] [] head in
                      Ok (head ++ [DOT] ++ tail)
                 else Ok text) ;;
        r <- try_except
               (number <- PyFloat.float_of_str unicode_decimal text ;; Ok (Some number))
               [ValueError]
               (Ok None) ;;
        match r with
        | None => Ok None
        | Some number =>
            rounded <- PyFloat.round_2 number ;;
            let rounded := if PyFloat.float_eqb rounded PyFloat.neg_zero
                           then PyFloat.pos_zero else rounded in
            Ok (Some rounded)
        end
    end.

Definition parse_date (value : pyval) : result (option pystr) :=
  if (is_none value || is_nan_float value)%bool then Ok None
  else
    ts <- to_datetime true value ;;
    na_ts <- isna_truth ts ;;
    if (na_ts : bool) then Ok None
    else s <- timestamp_isoformat ts ;; Ok (Some s).

(** What [\d] matches and the value [int] gives it. *)
Definition decimal_digit (c : codepoint) : option N :=
  if is_ascii c
  then (if is_ascii_digit c then Some (c - 48)%N else None)
  else unicode_decimal c.

(** [re.search(r"(\d{4})", stem)]: the first four digits in a row. *)
Fixpoint search_year (s : pystr) : option Z :=
  match s with
  | a :: ((b :: c :: d :: _) as s') =>
      match decimal_digit a, decimal_digit b, decimal_digit c, decimal_digit d with
      | Some x, Some y, Some z, Some w => Some (Z.of_N (((x * 10 + y) * 10 + z) * 10 + w))
      | _, _, _, _ => search_year s'
      end
  | _ => None
  end.

Definition extract_year (stem name : pystr) : result Z :=
  match search_year stem with
  | Some y => Ok y
  | None => Raise (Exn ValueError (lit "Unable to extract year from filename: " ++ name))
  end.

Definition MARKER : pystr := lit "data e leshimit".

Definition header_not_found : exn :=
  Exn ValueError
    (lit "Unable to locate the header row (missing 'Data e l" ++ [235%N]
     ++ lit "shimit t" ++ [235%N] ++ lit " lejes').").

Definition is_header_row (row : list scalar) : bool :=
  existsb (fun cell => startswith MARKER (normalize_header (PScalar cell))) row.

Fixpoint find_header_from (idx : nat) (rows : list (list scalar)) : result nat :=
  match rows with
  | [] => Raise header_not_found
  | row :: rest => if is_header_row row then Ok idx else find_header_from (S idx) rest
  end.

Definition find_header_row (frame : list (list scalar)) : result nat :=
  find_header_from 0 frame.

(** The loop of [excel_column_letter]; [idx] decreases, so [fuel] greater
    than [idx] is enough. *)
Fixpoint column_letter_loop (fuel : nat) (idx : Z) (acc : pystr) : pystr :=
  match fuel with
  | O => acc
  | S f =>
      if Z.leb 0 idx
      then column_letter_loop f (Z.div idx 26 - 1) (Z.to_N (65 + Z.modulo idx 26) :: acc)
      else acc
  end.

Definition excel_column_letter (index_zero_based : Z) : result pystr :=
  if Z.ltb index_zero_based 0
  then Raise (Exn ValueError (lit "Column index must be non-negative"))
  else Ok (column_letter_loop (S (Z.to_nat index_zero_based)) index_zero_based []).

Definition header_to_field (header : pystr) : option pystr :=
  let normalized := normalize_header (PScalar (SStr header)) in
  match normalized with
  | [] => None
  | _ :: _ =>
      if startswith (lit "pagesa e tarifes per rritjen e densitetit") normalized
      then Some (lit "density_fee_eur")
      else if startswith (lit "pagesa e takses administrative") normalized
      then Some (lit "administrative_fee_eur")
      else if startswith (lit "siperfaqja totale ndertimore") normalized
      then Some (lit "total_floor_area_m2")
      else dict_get HEADER_ALIASES normalized
  end.

Definition HASH : pystr := lit "#".

(** The loop of [load_dataframe] over the header row: the labels of the
    columns that are kept and their positions. *)
Fixpoint header_columns (idx : nat) (header : list scalar) : list (pystr * nat) :=
  match header with
  | [] => []
  | value :: rest =>
      let label := match value with
                   | SStr _ => clean_text (PScalar value)
                   | _ => None
                   end in
      match idx with
      | O => (HASH, idx) :: header_columns (S idx) rest
      | S _ =>
          match label with
          | None | Some [] => header_columns (S idx) rest
          | Some l => (l, idx) :: header_columns (S idx) rest
          end
      end
  end.

Definition NaN : scalar := SFloat PyFloat.nan.

Fixpoint index_from (i : nat) {A : Type} (xs : list A) : list (nat * A) :=
  match xs with
  | [] => []
  | x :: rest => (i, x) :: index_from (S i) rest
  end.

(** [df.dropna(how="all")]. *)
Definition all_na (row : list (pystr * scalar)) : bool :=
  forallb (fun c => scalar_isna (snd c)) row.

Definition dropna_all (rows : list frame_row) : list frame_row :=
  filter (fun r => negb (all_na (snd r))) rows.

(** [load_dataframe]: the rows below the header row, with their index in
    the sheet and their cells at the kept positions, the index of the
    header row, the labels and the positions. *)
Definition load_dataframe (wb : workbook)
  : result (list frame_row * nat * list pystr * list nat) :=
  header_idx <- find_header_row (wb_rows wb) ;;
  let header := nth header_idx (wb_rows wb) [] in
  let cols := header_columns 0 header in
  let columns := map fst cols in
  let positions := map snd cols in
  let below := skipn (S header_idx) (index_from 0 (wb_rows wb)) in
  let data := map (fun ir => (fst ir, map (fun lj => (fst lj, nth (snd lj) (snd ir) NaN)) cols))
                  below in
  Ok (dropna_all data, header_idx, columns, positions).

Definition str_http (s : pystr) : bool :=
  startswith (lit "http") (str_lower (str_strip s)).

Definition extract_hyperlink (sheet : pystr -> result ws_cell) (column_index : option Z)
  (excel_row : Z) : result (option pystr) :=
  match column_index with
  | None => Ok None
  | Some ci =>
      column_letter <- excel_column_letter ci ;;
      cell <- sheet (column_letter ++ str_of_Z excel_row) ;;
      match c_hyperlink cell with
      | Some (Hyperlink (Some (x :: t))) => Ok (Some (str_strip (x :: t)))
      | _ =>
          match c_value cell with
          | SStr value => if str_http value then Ok (Some (str_strip value)) else Ok None
          | _ => Ok None
          end
      end
  end.

(** [row.get(key)]: None when no column carries the label, the cell when
    one does, a Series when several do. *)
Definition row_get (row : list (pystr * scalar)) (key : pystr) : pyval :=
  match filter (fun c => str_eqb (fst c) key) row with
  | [] => PScalar SNone
  | [c] => PScalar (snd c)
  | cs => PSeries (map snd cs)
  end.

(** One turn of the loop of [build_record]. *)
Definition build_field (row : list (pystr * scalar)) (rec : record) (field : pystr)
  : result record :=
  if str_in [lit "document_url"; lit "situation_url"] field then Ok rec
  else
    let value := row_get row field in
    if str_in TEXT_FIELDS field then
      if str_eqb field (lit "destination")
      then Ok (dict_set rec field (j_text (normalize_destination value)))
      else if str_eqb field (lit "neighbourhood")
      then Ok (dict_set rec field (j_text (normalize_neighbourhood value)))
      else if str_eqb field (lit "document_reference")
      then Ok (dict_set rec field (j_text (normalize_document_reference value)))
      else Ok (dict_set rec field (j_text (clean_text value)))
    else if str_in NUMERIC_FIELDS field then
      x <- parse_decimal value ;; Ok (dict_set rec field (j_float x))
    else if str_in DATE_FIELDS field then
      x <- parse_date value ;; Ok (dict_set rec field (j_text x))
    else Ok (dict_set rec field (j_text (clean_text value))).

Fixpoint build_fields (row : list (pystr * scalar)) (rec : record) (fields : list pystr)
  : result record :=
  match fields with
  | [] => Ok rec
  | field :: rest => rec' <- build_field row rec field ;; build_fields row rec' rest
  end.

Definition build_record (row : list (pystr * scalar)) (comment_as_destination : bool)
  : result record :=
  let comment_value := clean_text (row_get row (lit "comment")) in
  rec <- build_fields row [] FIELD_ORDER ;;
  if (comment_as_destination && j_falsy (dict_get rec (lit "destination"))
      && negb (blank comment_value))%bool
  then
    match normalize_destination
            (PScalar (SStr (match comment_value with Some s => s | None => [] end))) with
    | Some (x :: t) => Ok (dict_set rec (lit "destination") (JStr (x :: t)))
    | _ => Ok rec
    end
  else Ok rec.

(** The entry of [column_map] for a column label. *)
Definition column_field (column : pystr) : option pystr :=
  let field := if str_eqb column HASH then Some (lit "permit_number")
               else header_to_field column in
  match field with
  | Some (x :: t) => Some (x :: t)
  | _ => None
  end.

(** [data.rename(columns=column_map)], on one label. *)
Definition renamed (column : pystr) : pystr :=
  match column_field column with
  | Some field => field
  | None => column
  end.

(** The position of the first column whose normalized label satisfies
    [test]. *)
Fixpoint first_position (test : pystr -> bool) (columns : list pystr) (positions : list nat)
  : option Z :=
  match columns, positions with
  | column :: cs, p :: ps =>
      if test (normalize_header (PScalar (SStr column))) then Some (Z.of_nat p)
      else first_position test cs ps
  | _, _ => None
  end.

(** The loop of [parse_workbook] over the rows: the records, each with the
    index of its row in the sheet. *)
Fixpoint records_of (sheet : pystr -> result ws_cell) (pdf_col situation_col : option Z)
  (destination_present : bool) (rows : list frame_row) : result (list (nat * record)) :=
  match rows with
  | [] => Ok []
  | (row_idx, row) :: rest =>
      if all_na row
      then records_of sheet pdf_col situation_col destination_present rest
      else if blank (clean_text (row_get row (lit "permit_number")))
      then records_of sheet pdf_col situation_col destination_present rest
      else
        rec <- build_record row (negb destination_present) ;;
        let excel_row_number := (Z.of_nat row_idx + 1)%Z in
        doc <- extract_hyperlink sheet pdf_col excel_row_number ;;
        let rec := dict_set rec (lit "document_url") (j_text doc) in
        sit <- extract_hyperlink sheet situation_col excel_row_number ;;
        let rec := dict_set rec (lit "situation_url") (j_text sit) in
        tail <- records_of sheet pdf_col situation_col destination_present rest ;;
        Ok ((row_idx, rec) :: tail)
  end.

(** [parse_workbook] up to the end of the loop: the header index, the
    labels and the records with the index of their row. *)
Definition parse_indexed (wb : workbook)
  : result (nat * list pystr * list (nat * record)) :=
  loaded <- load_dataframe wb ;;
  let '(data, header_idx, columns, positions) := loaded in
  let pdf_col_excel := first_position (str_contains (lit "pdf")) columns positions in
  let situation_col_excel :=
    first_position (startswith (lit "situacioni")) columns positions in
  let destination_present :=
    existsb (fun c => match column_field c with
                      | Some f => str_eqb f (lit "destination")
                      | None => false
                      end) columns in
  let renamed_rows :=
    map (fun ir => (fst ir, map (fun c => (renamed (fst c), snd c)) (snd ir))) data in
  recs <- records_of (wb_sheet wb) pdf_col_excel situation_col_excel destination_present
            renamed_rows ;;
  Ok (header_idx, columns, recs).

Definition parse_workbook (wb : workbook) (name : pystr) : result WorkbookParseResult :=
  parsed <- parse_indexed wb ;;
  let '(header_idx, columns, recs) := parsed in
  year <- extract_year (wb_stem wb) name ;;
  Ok {| year := year;
        sheet_name := wb_title wb;
        header_row := (Z.of_nat header_idx + 1)%Z;
        columns := columns;
        records := map snd recs |}.

(** An item of the summary of [main]. *)
Record summary_item := {
  s_year : Z;
  s_records_file : pystr;
  s_record_count : Z
}.

(** [summary.sort(key=lambda item: item["year"], reverse=True)] in [main]:
    the greater years first; items of one year keep their order. *)
Definition sort_summary (summary : list summary_item) : list summary_item :=
  PySort.sort (fun a b => Z.ltb (s_year b) (s_year a)) summary.

End WithRuntime.
End Permits.

(** ** A runtime to compute with

    The fragment of the libraries for texts in Basic Latin and Latin-1:
    the letters of these two blocks have their case and their canonical
    decomposition (base letter, then one mark of the block of combining
    diacritical marks), other code points have neither.  Dates are read
    from [datetime] cells and from strings of the form nn/nn/yyyy. *)

Module Reference.
Import Py Val Ext.
Local Open Scope N_scope.

Definition is_latin1_upper (c : codepoint) : bool :=
  (in_range 192 222 c && negb (cp_eqb c 215))%bool.

Definition is_latin1_lower (c : codepoint) : bool :=
  (in_range 224 254 c && negb (cp_eqb c 247))%bool.

Definition lower_cp (c : codepoint) : codepoint :=
  if (is_ascii_upper c || is_latin1_upper c)%bool then c + 32 else c.

(** The capital of a letter; the capitals of sharp s and of y with
    diaeresis are outside Latin-1. *)
Definition upper_cp (c : codepoint) : pystr :=
  if (is_ascii_lower c || is_latin1_lower c)%bool then [c - 32]
  else if cp_eqb c 223 then [83; 83]
  else if cp_eqb c 255 then [376]
  else [c].

(** The mark of a Latin-1 letter with a diacritic, by its place in its
    group: grave, acute, circumflex, tilde, diaeresis, ring. *)
Definition mark_at (k : N) : codepoint :=
  match k with
  | 0 => 768 | 1 => 769 | 2 => 770 | 3 => 771 | 4 => 776 | _ => 778
  end.

Definition decompose_lower (c : codepoint) : pystr :=
  if in_range 224 229 c then [97; mark_at (c - 224)]
  else if cp_eqb c 231 then [99; 807]
  else if in_range 232 234 c then [101; mark_at (c - 232)]
  else if cp_eqb c 235 then [101; 776]
  else if in_range 236 238 c then [105; mark_at (c - 236)]
  else if cp_eqb c 239 then [105; 776]
  else if cp_eqb c 241 then [110; 771]
  else if in_range 242 246 c then [111; mark_at (c - 242)]
  else if in_range 249 251 c then [117; mark_at (c - 249)]
  else if cp_eqb c 252 then [117; 776]
  else if cp_eqb c 253 then [121; 769]
  else if cp_eqb c 255 then [121; 776]
  else [c].

(** The compatibility decomposition of a code point of the two blocks:
    that of the letters, and no-break space, the ordinal indicators, the
    superscript digits and the micro sign. *)
Definition decompose (c : codepoint) : pystr :=
  if (is_ascii_upper (latin1_base c) && negb (is_ascii c))%bool
  then match decompose_lower (c + 32) with
       | b :: m => (b - 32) :: m
       | [] => [c]
       end
  else if cp_eqb c 160 then [32]
  else if cp_eqb c 170 then [97]
  else if cp_eqb c 186 then [111]
  else if cp_eqb c 178 then [50]
  else if cp_eqb c 179 then [51]
  else if cp_eqb c 185 then [49]
  else if cp_eqb c 181 then [956]
  else decompose_lower c.

Definition is_mark (c : codepoint) : bool :=
  (in_range 768 879 c && negb (cp_eqb c 847))%bool.

Definition is_alnum_latin1 (c : codepoint) : bool :=
  (is_latin1_upper c || is_latin1_lower c || cp_eqb c 223 || cp_eqb c 255
   || cp_eqb c 170 || cp_eqb c 181 || cp_eqb c 186
   || cp_eqb c 178 || cp_eqb c 179 || cp_eqb c 185
   || in_range 188 190 c)%bool.

(** The decimal expansion of a finite float, in full (CPython prints the
    shortest decimal that reads back as the float). *)
Definition exact_decimal (m : positive) (e : Z) : pystr :=
  if Z.leb 0 e then str_of_N (Z.to_N (Z.pos m * 2 ^ e)) ++ lit ".0"
  else
    let k := Z.to_nat (- e) in
    let digits := str_of_N (Z.to_N (Z.pos m * 5 ^ (- e))) in
    let padded := repeat 48 (S k - List.length digits) ++ digits in
    let n := (List.length padded - k)%nat in
    let fraction := rstrip_by (cp_eqb 48) (skipn n padded) in
    firstn n padded ++ [46] ++ (match fraction with [] => [48] | _ :: _ => fraction end).

Definition float_str (f : spec_float) : pystr :=
  match f with
  | S754_nan => lit "nan"
  | S754_infinity false => lit "inf"
  | S754_infinity true => lit "-inf"
  | S754_zero false => lit "0.0"
  | S754_zero true => lit "-0.0"
  | S754_finite s m e => (if s then [45] else []) ++ exact_decimal m e
  end.

Definition read_slashed (dayfirst : bool) (s : pystr) : scalar :=
  match s with
  | [a1; a2; 47; b1; b2; 47; y1; y2; y3; y4] =>
      if forallb is_ascii_digit [a1; a2; b1; b2; y1; y2; y3; y4] then
        let a := PyFloat.digits_value [a1; a2] in
        let b := PyFloat.digits_value [b1; b2] in
        let y := PyFloat.digits_value [y1; y2; y3; y4] in
        let '(d, m) := if dayfirst then (a, b) else (b, a) in
        let '(d, m) := if (12 <? m) then (m, d) else (d, m) in
        if (in_range 1 12 m && in_range 1 28 d && in_range 1678 2261 y)%bool
        then SDatetime (midnight y m d)
        else SNaT
      else SNaT
  | _ => SNaT
  end.

Definition read_datetime (dayfirst : bool) (v : pyval) : result pyval :=
  match v with
  | PScalar (SDatetime d) => Ok (PScalar (SDatetime d))
  | PScalar (SStr s) => Ok (PScalar (read_slashed dayfirst s))
  | PScalar _ => Ok (PScalar SNaT)
  | PSeries xs => Ok (PSeries (map (fun _ => SNaT) xs))
  end.

Fixpoint name_columns (j : N) (header : list scalar) : list scalar :=
  match header with
  | [] => []
  | c :: rest =>
      (if scalar_isna c then SStr (lit "Unnamed: " ++ str_of_N j) else c)
      :: name_columns (j + 1) rest
  end.

End Reference.

(** ** The notions the properties are stated with *)

Module Notions.
Import Py Val Ext.

(** The letter of a label, without its diacritic and in lower case. *)
Definition fold_letter (c : codepoint) : codepoint := ascii_lower (latin1_base c).

(** Two labels that differ only in the case or in the diacritics of their
    letters. *)
Definition same_letters (x y : pystr) : Prop := map fold_letter x = map fold_letter y.

(** The column a name of capital letters stands for, counted from 0: A is
    0, Z is 25, AA is 26. *)
Definition column_index (name : pystr) : Z :=
  (fold_left (fun acc c => acc * 26 + (Z.of_N c - 64)) name 0 - 1)%Z.

(** A text neither starts nor ends with a character of [p]. *)
Definition ends_free (p : codepoint -> bool) (s : pystr) : Prop :=
  (forall c t, s = c :: t -> p c = false) /\ (forall t c, s = t ++ [c] -> p c = false).

(** The white space of a text is made of blanks (U+0020). *)
Definition blanks_only (s : pystr) : Prop :=
  forall c, In c s -> py_isspace c = true -> c = 32%N.

(** No two blanks in a row. *)
Definition no_double_blank (s : pystr) : Prop := str_contains [32; 32]%N s = false.

(** A text that the cleaner of the permits script has nothing to do on. *)
Definition tidy (s : pystr) : Prop :=
  s <> [] /\ ends_free py_isspace s /\ blanks_only s /\ no_double_blank s
  /\ forallb (fun c => negb (mem_cp [Permits.COMMA; Permits.QUOTE; Permits.APOS] c)) s = true.

(** Neither an en dash nor an em dash. *)
Definition no_long_dash (c : codepoint) : bool := negb (mem_cp [8211; 8212]%N c).

(** The frame that [parse_accredited_programmes] selects from the data,
    before and after the forward fill of the institution. *)
Section WithRuntime.
Context {R : Runtime}.

Definition selected (labels : list scalar) (data : list (list scalar))
  : list Accreditation.frame_row :=
  Accreditation.index_from 0
    (map (Accreditation.select_row
            (Accreditation.select Accreditation.ACCREDITED_FIELD_ORDER
               (map Accreditation.renamed labels))) data).

Definition filled (labels : list scalar) (data : list (list scalar))
  : list Accreditation.frame_row :=
  Accreditation.ffill (lit "institution") (selected labels data).

(** The row of the frame of [load_dataframe] made of the cells of a row of
    the sheet, before and after the columns are renamed. *)
Definition data_row (cols : list (pystr * nat)) (cells : list scalar) : list (pystr * scalar) :=
  map (fun lj => (fst lj, nth (snd lj) cells Permits.NaN)) cols.

Definition renamed_row (cols : list (pystr * nat)) (cells : list scalar)
  : list (pystr * scalar) :=
  map (fun c => (Permits.renamed (fst c), snd c)) (data_row cols cells).

(** The test of [load_accredited_dataframe] on a row: its first cell,
    cleaned and in lower case, contains institucioni. *)
Definition marks_header (row : list scalar) : bool :=
  match row with
  | c :: _ =>
      match Accreditation.clean_text (PScalar c) with
      | Ok (Some (x :: t)) => str_contains (lit "institucioni") (str_lower (x :: t))
      | _ => false
      end
  | [] => false
  end.

(** The institution cell of a row of the sheet: the cell of the first
    column that is renamed to institution. *)
Definition institution_of (labels : list scalar) (cells : list scalar) : result scalar :=
  Accreditation.attr (lit "institution")
    (Accreditation.select_row
       (Accreditation.select Accreditation.ACCREDITED_FIELD_ORDER
          (map Accreditation.renamed labels)) cells).

End WithRuntime.
End Notions.

(** * Two workbooks to compute with *)

Module Samples.
Import Py Val Ext.

Definition text (s : string) : scalar := SStr (lit s).
Definition number (z : Z) : scalar := SInt z.
Definition empty : scalar := SFloat PyFloat.nan.

(** An accreditation sheet: a title row, the header row, a programme with
    no institution above it, two programmes of one institution (the second
    with its date written as text), a blank row, and a row whose programme
    name is made of blanks. *)
Definition accreditation_rows : list (list scalar) :=
  [ [ text "Programet e akredituara"; empty; empty; empty; empty; empty; empty; empty; empty ];
    [ text "Institucioni i arsimit te larte"; text "Nr"; text "Programi i studimit";
      text "Study program"; text "Kampusi"; text "Niveli"; text "ECTS"; text "Kuota";
      text "I akredituar deri me" ];
    [ empty; number 1; text "Histori"; text "History"; text "Peje"; text "BA";
      number 180; number 30; empty ];
    [ text "Universiteti  i Prishtines"; number 2; text "Informatike";
      text "Computer Science"; text "Prishtine"; text "BA"; number 180; number 100;
      SDatetime (Datetime 2026 9 30 0 0 0 0) ];
    [ empty; number 3; text "Matematike"; empty; text "Prishtine"; text "MA";
      number 120; number 40; text "05/03/2024" ];
    [ empty; empty; empty; empty; empty; empty; empty; empty; empty ];
    [ empty; number 4; text "   "; empty; text "Prishtine"; text "MA"; number 120;
      number 40; empty ] ].

Definition accreditation_workbook : Accreditation.workbook :=
  Accreditation.Workbook (lit "programet.xlsx") accreditation_rows.

Definition accreditation_records : list (nat * record) :=
  [ (1, [ (lit "institution", JStr (lit "Universiteti i Prishtines"));
          (lit "program_number", JInt 2);
          (lit "programme_sq", JStr (lit "Informatike"));
          (lit "programme_en", JStr (lit "Computer Science"));
          (lit "campus", JStr (lit "Prishtine"));
          (lit "level", JStr (lit "BA"));
          (lit "ects", JInt 180);
          (lit "quota", JInt 100);
          (lit "accredited_until", JStr (lit "2026-09-30")) ]);
    (2, [ (lit "institution", JStr (lit "Universiteti i Prishtines"));
          (lit "program_number", JInt 3);
          (lit "programme_sq", JStr (lit "Matematike"));
          (lit "programme_en", JNull);
          (lit "campus", JStr (lit "Prishtine"));
          (lit "level", JStr (lit "MA"));
          (lit "ects", JInt 120);
          (lit "quota", JInt 40);
          (lit "accredited_until", JStr (lit "2024-05-03")) ]) ]%nat.

(** A permits sheet: a title row, the header row (without a column for the
    destination), a permit, a blank row, and a row without permit number.
    The cell G3 of the permit carries a link. *)
Definition permits_rows : list (list scalar) :=
  [ [ text "Lista e lejeve te leshuara"; empty; empty; empty; empty; empty; empty ];
    [ text "Nr"; text "Data e leshimit te lejes"; text "Pronari/Pronaret/Perfaqesuesi";
      text "Lagjia"; text "Pagesa totale e lejes se leshuar"; text "Koment";
      text "Dokumenti ne PDF i lejes se leshuar" ];
    [ text "1/24"; text "05/03/2024"; text "Filan  Fisteku"; text "dardania";
      text "1.234,50"; text "shtepi banimi"; text "Leja nr. 1/24" ];
    [ empty; empty; empty; empty; empty; empty; empty ];
    [ text "  "; text "06/03/2024"; text "Filane Fisteku"; text "ulpiana"; number 10;
      empty; empty ] ].

Definition permits_sheet (coordinate : pystr) : result Permits.ws_cell :=
  if str_eqb coordinate (lit "G3")
  then Ok (Permits.WsCell (Some (Permits.Hyperlink (Some (lit "https://example.org/1-24.pdf "))))
                          (text "Leja nr. 1/24"))
  else Ok (Permits.WsCell None empty).

Definition permits_workbook : Permits.workbook :=
  Permits.Workbook (lit "building-permits-2024") permits_rows permits_sheet (lit "Sheet1").

Definition permits_columns : list pystr :=
  [ lit "#"; lit "Data e leshimit te lejes"; lit "Pronari/Pronaret/Perfaqesuesi";
    lit "Lagjia"; lit "Pagesa totale e lejes se leshuar"; lit "Koment";
    lit "Dokumenti ne PDF i lejes se leshuar" ].

Definition permits_records : list (nat * record) :=
  [ (2, [ (lit "permit_number", JStr (lit "1/24"));
          (lit "application_date", JNull);
          (lit "issuance_date", JStr (lit "2024-03-05"));
          (lit "owner", JStr (lit "Filan Fisteku"));
          (lit "investor", JNull);
          (lit "designer", JNull);
          (lit "neighbourhood", JStr (lit "Dardania"));
          (lit "total_floor_area_m2", JNull);
          (lit "density_fee_eur", JNull);
          (lit "administrative_fee_eur", JNull);
          (lit "total_fee_eur", JFloat (S754_finite false 5429388417957888 (-42)));
          (lit "storeys", JNull);
          (lit "destination", JStr (lit "Shtepi Banimi"));
          (lit "document_reference", JStr (lit "1/24"));
          (lit "document_url", JStr (lit "https://example.org/1-24.pdf"));
          (lit "situation_url", JNull) ]) ]%nat.

Definition permits_result : Permits.WorkbookParseResult :=
  {| Permits.year := 2024;
     Permits.sheet_name := lit "Sheet1";
     Permits.header_row := 2;
     Permits.columns := permits_columns;
     Permits.records := map snd permits_records |}.

(** A row of a permits frame without a column for the destination, and
    the record made of it. *)
Definition commented_row : list (pystr * scalar) :=
  [ (lit "permit_number", text "1/24"); (lit "comment", text "shtepi banimi") ].

Definition commented_record : record :=
  [ (lit "permit_number", JStr (lit "1/24"));
    (lit "application_date", JNull);
    (lit "issuance_date", JNull);
    (lit "owner", JNull);
    (lit "investor", JNull);
    (lit "designer", JNull);
    (lit "neighbourhood", JNull);
    (lit "total_floor_area_m2", JNull);
    (lit "density_fee_eur", JNull);
    (lit "administrative_fee_eur", JNull);
    (lit "total_fee_eur", JNull);
    (lit "storeys", JNull);
    (lit "destination", JStr (lit "Shtepi Banimi"));
    (lit "document_reference", JNull) ].

End Samples.

Unset Implicit Arguments.

(** * Facts about strings *)

Module PyFacts.
Import Py.

Lemma cp_eqb_eq (a b : codepoint) : cp_eqb a b = true <-> a = b.
Proof. unfold cp_eqb. apply N.eqb_eq. Qed.

Lemma cp_eqb_refl (a : codepoint) : cp_eqb a a = true.
Proof. apply cp_eqb_eq. reflexivity. Qed.

Lemma str_eqb_eq (a b : pystr) : str_eqb a b = true <-> a = b.
Proof.
  revert b. induction a as [|x a IH]; intros [|y b]; simpl; split; intro H;
    try reflexivity; try discriminate.
  - apply andb_true_iff in H. destruct H as [H1 H2].
    apply cp_eqb_eq in H1. apply IH in H2. subst. reflexivity.
  - injection H as -> ->. rewrite cp_eqb_refl. simpl. apply IH. reflexivity.
Qed.

Lemma str_eqb_refl (a : pystr) : str_eqb a a = true.
Proof. apply str_eqb_eq. reflexivity. Qed.

Lemma take_drop_while (p : codepoint -> bool) (s : pystr) :
  take_while p s ++ drop_while p s = s.
Proof.
  induction s as [|c s IH]; simpl; [reflexivity|].
  destruct (p c); simpl; [rewrite IH|]; reflexivity.
Qed.

Lemma drop_while_suffix (p : codepoint -> bool) (s : pystr) :
  exists pre, s = pre ++ drop_while p s.
Proof. exists (take_while p s). symmetry. apply take_drop_while. Qed.

Lemma drop_while_all (p : codepoint -> bool) (s : pystr) :
  forallb p s = true -> drop_while p s = [].
Proof.
  induction s as [|c s IH]; simpl; [reflexivity|].
  intro H. apply andb_true_iff in H. destruct H as [-> H]. auto.
Qed.

Lemma drop_while_head (p : codepoint -> bool) (c : codepoint) (s : pystr) :
  p c = false -> drop_while p (c :: s) = c :: s.
Proof. intro H. simpl. rewrite H. reflexivity. Qed.

Lemma drop_while_idem (p : codepoint -> bool) (s : pystr) :
  drop_while p (drop_while p s) = drop_while p s.
Proof.
  induction s as [|c s IH]; simpl; [reflexivity|].
  destruct (p c) eqn:E; [exact IH|]. simpl. rewrite E. reflexivity.
Qed.

(** The text that [rstrip] keeps ends with a character that is kept. *)
Lemma rstrip_by_snoc (p : codepoint -> bool) (s : pystr) (c : codepoint) :
  p c = false -> rstrip_by p (s ++ [c]) = s ++ [c].
Proof.
  intro H. unfold rstrip_by. rewrite rev_app_distr. simpl. rewrite H.
  simpl. rewrite rev_involutive. reflexivity.
Qed.

Lemma rstrip_by_snoc_drop (p : codepoint -> bool) (s : pystr) (c : codepoint) :
  p c = true -> rstrip_by p (s ++ [c]) = rstrip_by p s.
Proof.
  intro H. unfold rstrip_by. rewrite rev_app_distr. simpl. rewrite H. reflexivity.
Qed.

Lemma rstrip_by_nil (p : codepoint -> bool) : rstrip_by p [] = [].
Proof. reflexivity. Qed.

(** [rstrip] by cases on the last character. *)
Lemma rstrip_by_cases (p : codepoint -> bool) (s : pystr) :
  rstrip_by p s = [] /\ forallb p s = true
  \/ exists t c, rstrip_by p s = t ++ [c] /\ p c = false
                 /\ exists u, s = t ++ c :: u /\ forallb p u = true.
Proof.
  induction s as [|x s IH] using rev_ind.
  - left. split; reflexivity.
  - destruct (p x) eqn:E.
    + rewrite (rstrip_by_snoc_drop _ _ _ E).
      destruct IH as [[H1 H2] | (t & c & H1 & H2 & u & H3 & H4)].
      * left. split; [exact H1|]. rewrite forallb_app, H2. simpl. rewrite E. reflexivity.
      * right. exists t, c. repeat split; try assumption.
        exists (u ++ [x]). split.
        -- rewrite H3. rewrite <- app_assoc. reflexivity.
        -- rewrite forallb_app, H4. simpl. rewrite E. reflexivity.
    + rewrite (rstrip_by_snoc _ _ _ E). right. exists s, x. repeat split; try assumption.
      exists []. split; reflexivity.
Qed.

Lemma rstrip_by_idem (p : codepoint -> bool) (s : pystr) :
  rstrip_by p (rstrip_by p s) = rstrip_by p s.
Proof.
  destruct (rstrip_by_cases p s) as [[H _] | (t & c & H & Hc & _)]; rewrite H.
  - reflexivity.
  - apply rstrip_by_snoc. exact Hc.
Qed.

Lemma rstrip_by_cons (p : codepoint -> bool) (c : codepoint) (s : pystr) :
  p c = false -> rstrip_by p (c :: s) = c :: rstrip_by p s.
Proof.
  intro H. induction s as [|x s IH] using rev_ind.
  - unfold rstrip_by. simpl. rewrite H. reflexivity.
  - change (c :: s ++ [x]) with ((c :: s) ++ [x]).
    destruct (p x) eqn:E.
    + rewrite !(rstrip_by_snoc_drop _ _ _ E). exact IH.
    + rewrite !(rstrip_by_snoc _ _ _ E). reflexivity.
Qed.

(** A stripped text neither starts nor ends with a stripped character. *)
Definition trimmed (p : codepoint -> bool) (s : pystr) : Prop :=
  drop_while p s = s /\ rstrip_by p s = s.

Lemma strip_by_trimmed (p : codepoint -> bool) (s : pystr) : trimmed p (strip_by p s).
Proof.
  unfold trimmed, strip_by, lstrip_by. split; [|apply rstrip_by_idem].
  destruct (drop_while p s) as [|c t] eqn:E; [reflexivity|].
  assert (Hc : p c = false).
  { clear -E. induction s as [|x s IH]; simpl in E; [discriminate|].
    destruct (p x) eqn:Ex; [auto|]. injection E as -> _. exact Ex. }
  rewrite (rstrip_by_cons _ _ _ Hc). simpl. rewrite Hc. reflexivity.
Qed.

Lemma strip_by_of_trimmed (p : codepoint -> bool) (s : pystr) :
  trimmed p s -> strip_by p s = s.
Proof. intros [H1 H2]. unfold strip_by, lstrip_by. rewrite H1. exact H2. Qed.

Lemma trimmed_weaken (p q : codepoint -> bool) (s : pystr) :
  (forall c, In c s -> q c = true -> p c = true) -> trimmed p s -> trimmed q s.
Proof.
  intros Hpq [H1 H2]. split.
  - destruct s as [|c t]; [reflexivity|]. simpl in *.
    destruct (q c) eqn:E; [|reflexivity].
    rewrite (Hpq c (or_introl eq_refl) E) in H1.
    exfalso. destruct (drop_while_suffix p t) as [pre Hpre].
    rewrite H1 in Hpre. apply (f_equal (@List.length _)) in Hpre.
    rewrite length_app in Hpre. simpl in Hpre. lia.
  - destruct (rstrip_by_cases p s) as [[H3 H4] | (t & c & H3 & Hc & u & H5 & H6)].
    + rewrite H2 in H3. subst s. reflexivity.
    + rewrite H2 in H3. subst s. apply rstrip_by_snoc.
      destruct (q c) eqn:E; [|reflexivity].
      rewrite (Hpq c) in Hc; [discriminate| |exact E].
      apply in_or_app. right. left. reflexivity.
Qed.

Lemma forallb_drop_while (q p : codepoint -> bool) (s : pystr) :
  forallb q s = true -> forallb q (drop_while p s) = true.
Proof.
  induction s as [|c s IH]; simpl; [auto|].
  intro H. apply andb_true_iff in H. destruct H as [H1 H2].
  destruct (p c); [auto|]. simpl. rewrite H1, H2. reflexivity.
Qed.

Lemma forallb_rev (q : codepoint -> bool) (s : pystr) :
  forallb q (rev s) = forallb q s.
Proof.
  induction s as [|c s IH]; simpl; [reflexivity|].
  rewrite forallb_app, IH. simpl. rewrite andb_true_r. apply andb_comm.
Qed.

Lemma forallb_strip_by (q p : codepoint -> bool) (s : pystr) :
  forallb q s = true -> forallb q (strip_by p s) = true.
Proof.
  intro H. unfold strip_by, rstrip_by, lstrip_by.
  rewrite forallb_rev. apply forallb_drop_while. rewrite forallb_rev.
  apply forallb_drop_while. exact H.
Qed.

End PyFacts.

(** * Facts about the regular expressions *)

Module ReFacts.
Import Py Re PyFacts.

Lemma repeat_then_suffix (p : codepoint -> bool) (k : pystr -> option pystr)
  (s rest : pystr) :
  (forall t r, k t = Some r -> exists pre, t = pre ++ r) ->
  repeat_then p k s = Some rest -> exists pre, s = pre ++ rest.
Proof.
  intro Hk. induction s as [|c s IH]; intro H; simpl in H.
  - exact (Hk _ _ H).
  - destruct (p c); [|exact (Hk _ _ H)].
    destruct (repeat_then p k s) as [r|]; [|exact (Hk _ _ H)].
    injection H as ->. destruct (IH eq_refl) as [pre ->].
    exists (c :: pre). reflexivity.
Qed.

Lemma match_atoms_suffix (la : option cclass) (atoms : list atom) (s rest : pystr) :
  match_atoms la atoms s = Some rest -> exists pre, s = pre ++ rest.
Proof.
  revert s rest. induction atoms as [|a atoms IH]; intros s rest H; simpl in H.
  - destruct (lookahead_ok la s); [|discriminate].
    injection H as <-. exists []. reflexivity.
  - destruct (a_q a).
    + destruct s as [|c s']; [discriminate|].
      destruct (cls_match (a_cls a) c); [|discriminate].
      destruct (IH _ _ H) as [pre ->]. exists (c :: pre). reflexivity.
    + destruct s as [|c s']; [exact (IH _ _ H)|].
      destruct (cls_match (a_cls a) c); [|exact (IH _ _ H)].
      destruct (match_atoms la atoms s') as [r|] eqn:E; [|exact (IH _ _ H)].
      injection H as ->. destruct (IH _ _ E) as [pre ->].
      exists (c :: pre). reflexivity.
    + exact (repeat_then_suffix _ _ _ _ IH H).
    + destruct s as [|c s']; [discriminate|].
      destruct (cls_match (a_cls a) c); [|discriminate].
      destruct (repeat_then_suffix _ _ _ _ IH H) as [pre ->].
      exists (c :: pre). reflexivity.
Qed.

Lemma sub_from_skip (p : pattern) (repl : pystr) (k : nat) (s : pystr) :
  sub_from p repl k s = sub_from p repl 0 (skipn k s).
Proof.
  revert s. induction k as [|k IH]; intros s; [reflexivity|].
  destruct s as [|c s']; [reflexivity|]. simpl. apply IH.
Qed.

(** One step of the scan. *)
Lemma sub_cons (p : pattern) (repl : pystr) (c : codepoint) (s : pystr) :
  sub p repl (c :: s) =
  match match_atoms (p_lookahead p) (p_atoms p) (c :: s) with
  | Some rest =>
      if (List.length rest <=? List.length s)%nat
      then repl ++ sub p repl rest
      else c :: sub p repl s
  | None => c :: sub p repl s
  end.
Proof.
  unfold sub at 1. cbn [sub_from]. unfold match_len.
  destruct (match_atoms (p_lookahead p) (p_atoms p) (c :: s)) as [rest|] eqn:E; [|reflexivity].
  destruct (match_atoms_suffix _ _ _ _ E) as [pre Hpre].
  assert (Hlen : List.length (c :: s) = (List.length pre + List.length rest)%nat)
    by (rewrite Hpre, length_app; reflexivity).
  remember (List.length (c :: s) - List.length rest)%nat as n eqn:Hn.
  cbn [List.length] in Hlen, Hn.
  destruct (Nat.leb_spec (List.length rest) (List.length s)) as [Hle|Hgt].
  - destruct n as [|n]; [lia|].
    rewrite sub_from_skip. f_equal. unfold sub. f_equal.
    destruct pre as [|x pre]; [cbn [List.length] in Hlen; lia|].
    injection Hpre as _ ->. cbn [List.length] in Hlen.
    replace n with (List.length pre) by lia.
    rewrite skipn_app, skipn_all, Nat.sub_diag. reflexivity.
  - destruct n as [|n]; [reflexivity|lia].
Qed.

Lemma sub_nil (p : pattern) (repl : pystr) : sub p repl [] = [].
Proof. reflexivity. Qed.

(** A class that the pattern must meet. *)
Definition mandatory (k : cclass) (atoms : list atom) : Prop :=
  exists a, In a atoms /\ a_cls a = k /\ (a_q a = One \/ a_q a = Plus).

Definition avoids (k : cclass) (s : pystr) : bool :=
  forallb (fun c => negb (cls_match k c)) s.

Lemma avoids_drop_while (k : cclass) (p : codepoint -> bool) (s : pystr) :
  avoids k s = true -> avoids k (drop_while p s) = true.
Proof. apply forallb_drop_while. Qed.

Lemma avoids_tail (k : cclass) (c : codepoint) (s : pystr) :
  avoids k (c :: s) = true -> avoids k s = true.
Proof. unfold avoids. simpl. intro H. apply andb_true_iff in H. apply H. Qed.

Lemma repeat_then_none (k : cclass) (p : codepoint -> bool)
  (f : pystr -> option pystr) (s : pystr) :
  (forall t, avoids k t = true -> f t = None) ->
  avoids k s = true -> repeat_then p f s = None.
Proof.
  intro Hf. induction s as [|c s IH]; intro Hs; simpl.
  - exact (Hf _ Hs).
  - destruct (p c); [|exact (Hf _ Hs)].
    rewrite (IH (avoids_tail _ _ _ Hs)). exact (Hf _ Hs).
Qed.

Lemma match_atoms_avoids (k : cclass) (la : option cclass) (atoms : list atom) (s : pystr) :
  mandatory k atoms -> avoids k s = true -> match_atoms la atoms s = None.
Proof.
  intros (a & Hin & Hk & Hq). revert s.
  induction atoms as [|b atoms IH]; intros s Hs; [destruct Hin|].
  destruct Hin as [->|Hin].
  - simpl. rewrite Hk.
    destruct s as [|c s'].
    + destruct Hq as [-> | ->]; reflexivity.
    + simpl in Hs. apply andb_true_iff in Hs. destruct Hs as [Hc _].
      apply negb_true_iff in Hc. rewrite Hc. destruct Hq as [-> | ->]; reflexivity.
  - simpl. destruct (a_q b).
    + destruct s as [|c s']; [reflexivity|].
      destruct (cls_match (a_cls b) c); [|reflexivity].
      apply (IH Hin). exact (avoids_tail _ _ _ Hs).
    + destruct s as [|c s']; [apply (IH Hin); assumption|].
      rewrite (IH Hin _ (avoids_tail _ _ _ Hs)), (IH Hin _ Hs).
      destruct (cls_match (a_cls b) c); reflexivity.
    + apply (repeat_then_none k); [exact (IH Hin)|exact Hs].
    + destruct s as [|c s']; [reflexivity|].
      destruct (cls_match (a_cls b) c); [|reflexivity].
      apply (repeat_then_none k); [exact (IH Hin)|exact (avoids_tail _ _ _ Hs)].
Qed.

(** A text without any character of a class the pattern must meet is left
    as it is. *)
Lemma sub_avoids (k : cclass) (p : pattern) (repl s : pystr) :
  mandatory k (p_atoms p) -> avoids k s = true -> sub p repl s = s.
Proof.
  intros Hm. induction s as [|c s IH]; intro Hs; [reflexivity|].
  rewrite sub_cons, (match_atoms_avoids k _ _ _ Hm Hs).
  rewrite IH; [reflexivity|exact (avoids_tail _ _ _ Hs)].
Qed.

Lemma sub_anchored_avoids (k : cclass) (p : pattern) (repl s : pystr) :
  mandatory k (p_atoms p) -> avoids k s = true -> sub_anchored p repl s = s.
Proof.
  intros Hm Hs. unfold sub_anchored, match_len.
  rewrite (match_atoms_avoids k _ _ _ Hm Hs). reflexivity.
Qed.

(** ** Patterns of one repeated class *)

Lemma repeat_then_all (p : codepoint -> bool) (k : pystr -> option pystr) (s : pystr) :
  (forall t, k t = Some t) -> repeat_then p k s = Some (drop_while p s).
Proof.
  intro Hk. induction s as [|c s IH]; simpl; [apply Hk|].
  destruct (p c); [rewrite IH; reflexivity|apply Hk].
Qed.

Lemma length_drop_while (p : codepoint -> bool) (s : pystr) :
  List.length (drop_while p s) <= List.length s.
Proof.
  destruct (drop_while_suffix p s) as [pre Hpre].
  rewrite Hpre at 2. rewrite length_app. lia.
Qed.

Lemma sub_plus_cons (k : cclass) (repl : pystr) (c : codepoint) (s : pystr) :
  sub (pat [plus k]) repl (c :: s) =
  if cls_match k c then repl ++ sub (pat [plus k]) repl (drop_while (cls_match k) s)
  else c :: sub (pat [plus k]) repl s.
Proof.
  rewrite sub_cons. cbn [pat p_atoms p_lookahead match_atoms plus a_cls a_q].
  destruct (cls_match k c); [|reflexivity].
  rewrite repeat_then_all by reflexivity.
  pose proof (length_drop_while (cls_match k) s) as H. apply Nat.leb_le in H.
  rewrite H. reflexivity.
Qed.

(** Induction on a text along its suffixes. *)
Lemma suffix_ind (P : pystr -> Prop) :
  (forall s, (forall t, List.length t < List.length s -> P t) -> P s) ->
  forall s, P s.
Proof.
  intros H s. remember (List.length s) as n eqn:Hn.
  revert s Hn. induction n as [n IH] using lt_wf_ind.
  intros s ->. apply H. intros t Ht. exact (IH _ Ht t eq_refl).
Qed.

(** When the replacement is outside the class, no character of the class
    is left. *)
Lemma sub_plus_avoids (k : cclass) (x : codepoint) (s : pystr) :
  cls_match k x = false -> avoids k (sub (pat [plus k]) [x] s) = true.
Proof.
  intro Hx. induction s as [s IH] using suffix_ind.
  destruct s as [|c s]; [reflexivity|].
  rewrite sub_plus_cons. destruct (cls_match k c) eqn:E.
  - simpl. rewrite Hx. simpl. apply IH. simpl.
    pose proof (length_drop_while (cls_match k) s). lia.
  - simpl. rewrite E. simpl. apply IH. simpl. lia.
Qed.

(** Every character of the class is [x] and stands alone. *)
Fixpoint single (k : cclass) (x : codepoint) (s : pystr) : bool :=
  match s with
  | [] => true
  | c :: s' =>
      (if cls_match k c
       then cp_eqb c x && match s' with d :: _ => negb (cls_match k d) | [] => true end
       else true)
      && single k x s'
  end.

Lemma single_sub_id (k : cclass) (x : codepoint) (s : pystr) :
  single k x s = true -> sub (pat [plus k]) [x] s = s.
Proof.
  induction s as [|c s IH]; intro H; [reflexivity|].
  rewrite sub_plus_cons. simpl in H. apply andb_true_iff in H. destruct H as [H1 H2].
  destruct (cls_match k c).
  - apply andb_true_iff in H1. destruct H1 as [H1 H3]. apply cp_eqb_eq in H1. subst c.
    destruct s as [|d s]; [reflexivity|].
    apply negb_true_iff in H3. rewrite (drop_while_head _ _ _ H3).
    rewrite (IH H2). reflexivity.
  - rewrite (IH H2). reflexivity.
Qed.

Lemma drop_while_not_head (p : codepoint -> bool) (s : pystr) :
  match drop_while p s with d :: _ => negb (p d) | [] => true end = true.
Proof.
  induction s as [|c s IH]; simpl; [reflexivity|].
  destruct (p c) eqn:E; [exact IH|]. rewrite E. reflexivity.
Qed.

Lemma sub_plus_head (k : cclass) (x : codepoint) (s : pystr) :
  match s with d :: _ => negb (cls_match k d) | [] => true end = true ->
  match sub (pat [plus k]) [x] s with d :: _ => negb (cls_match k d) | [] => true end = true.
Proof.
  destruct s as [|d s]; [reflexivity|]. intro H.
  rewrite sub_plus_cons. apply negb_true_iff in H. rewrite H. simpl. rewrite H. reflexivity.
Qed.

Lemma sub_plus_single (k : cclass) (x : codepoint) (s : pystr) :
  cls_match k x = true -> single k x (sub (pat [plus k]) [x] s) = true.
Proof.
  intro Hx. induction s as [s IH] using suffix_ind.
  destruct s as [|c s]; [reflexivity|].
  rewrite sub_plus_cons. destruct (cls_match k c) eqn:E.
  - simpl. rewrite Hx, cp_eqb_refl. simpl.
    rewrite (sub_plus_head k x _ (drop_while_not_head _ s)). simpl.
    apply IH. simpl. pose proof (length_drop_while (cls_match k) s). lia.
  - simpl. rewrite E. simpl. apply IH. simpl. lia.
Qed.

Lemma single_tail (k : cclass) (x c : codepoint) (s : pystr) :
  single k x (c :: s) = true -> single k x s = true.
Proof. simpl. intro H. apply andb_true_iff in H. apply H. Qed.

Lemma single_drop_while (k : cclass) (x : codepoint) (p : codepoint -> bool) (s : pystr) :
  single k x s = true -> single k x (drop_while p s) = true.
Proof.
  induction s as [|c s IH]; intro H; [reflexivity|]. simpl.
  destruct (p c); [apply IH; exact (single_tail _ _ _ _ H)| exact H].
Qed.

Lemma single_app_l (k : cclass) (x : codepoint) (s t : pystr) :
  single k x (s ++ t) = true -> single k x s = true.
Proof.
  induction s as [|c s IH]; intro H; [reflexivity|].
  simpl in *. apply andb_true_iff in H. destruct H as [H1 H2].
  rewrite (IH H2), andb_true_r.
  destruct (cls_match k c); [|reflexivity].
  apply andb_true_iff in H1. destruct H1 as [-> H1]. simpl.
  destruct s as [|d s]; [reflexivity|exact H1].
Qed.

Lemma single_rstrip_by (k : cclass) (x : codepoint) (p : codepoint -> bool) (s : pystr) :
  single k x s = true -> single k x (rstrip_by p s) = true.
Proof.
  intro H. destruct (rstrip_by_cases p s) as [[-> _] | (t & c & -> & _ & u & Hs & _)].
  - reflexivity.
  - apply (single_app_l k x _ u). rewrite <- app_assoc. simpl. rewrite <- Hs. exact H.
Qed.

Lemma single_strip_by (k : cclass) (x : codepoint) (p : codepoint -> bool) (s : pystr) :
  single k x s = true -> single k x (strip_by p s) = true.
Proof.
  intro H. unfold strip_by, lstrip_by. apply single_rstrip_by, single_drop_while, H.
Qed.

End ReFacts.

(** * Facts about characters, and texts that differ by a map on letters *)

Module CharFacts.
Import Py Re Ext PyFacts ReFacts.
Local Open Scope N_scope.

Definition below (n : nat) : list N := map N.of_nat (seq 0 n).

(** A property of code points that holds below [n] by computation. *)
Lemma below_forall (n : nat) (P : codepoint -> bool) :
  forallb P (below n) = true -> forall c, c < N.of_nat n -> P c = true.
Proof.
  intros H c Hc. rewrite forallb_forall in H. apply H.
  unfold below. apply in_map_iff. exists (N.to_nat c). split; [apply N2Nat.id|].
  apply in_seq. lia.
Qed.

Lemma key_char_ascii (c : codepoint) : is_key_char c = true -> c < 128.
Proof.
  unfold is_key_char, is_ascii_lower, is_ascii_digit, in_range, cp_eqb.
  intro H. apply orb_true_iff in H. destruct H as [H|H].
  - apply orb_true_iff in H. destruct H as [H|H];
      apply andb_true_iff in H; destruct H as [_ H]; apply N.leb_le in H; lia.
  - apply N.eqb_eq in H. lia.
Qed.

(** A property of the characters of keys, checked on the 128 ASCII
    characters. *)
Lemma key_char_check (Q : codepoint -> bool) :
  forallb (fun c => implb (is_key_char c) (Q c)) (below 128) = true ->
  forall c, is_key_char c = true -> Q c = true.
Proof.
  intros H c Hc.
  pose proof (below_forall 128 _ H c (key_char_ascii c Hc)) as H'.
  simpl in H'. rewrite Hc in H'. exact H'.
Qed.

Definition key_text (s : pystr) : bool := forallb is_key_char s.

Lemma key_text_forall (Q : codepoint -> bool) (s : pystr) :
  (forall c, is_key_char c = true -> Q c = true) ->
  key_text s = true -> forallb Q s = true.
Proof.
  intros HQ H. unfold key_text in H. rewrite forallb_forall in *.
  intros c Hc. apply HQ, H, Hc.
Qed.

Lemma key_text_ascii (s : pystr) : key_text s = true -> forallb is_ascii s = true.
Proof.
  apply key_text_forall. apply key_char_check. vm_compute. reflexivity.
Qed.

Lemma key_text_lower (s : pystr) : key_text s = true -> map ascii_lower s = s.
Proof.
  intro H. rewrite <- (map_id s) at 2. apply map_ext_in. intros c Hc.
  unfold key_text in H. rewrite forallb_forall in H. specialize (H c Hc).
  apply cp_eqb_eq. revert c H Hc. intros c H _. revert c H.
  apply key_char_check. vm_compute. reflexivity.
Qed.

(** A class that matches no character of a key. *)
Definition off_keys (k : cclass) : Prop :=
  forall c, is_key_char c = true -> cls_match k c = false.

Lemma off_keys_check (k : cclass) :
  forallb (fun c => implb (is_key_char c) (negb (cls_match k c))) (below 128) = true ->
  off_keys k.
Proof.
  intros H c Hc. apply negb_true_iff. revert c Hc. apply key_char_check. exact H.
Qed.

Lemma key_text_avoids (k : cclass) (s : pystr) :
  off_keys k -> key_text s = true -> avoids k s = true.
Proof.
  intros Hk. apply key_text_forall. intros c Hc. rewrite (Hk c Hc). reflexivity.
Qed.

Lemma avoids_not_key (s : pystr) : avoids CNotKey s = key_text s.
Proof.
  unfold avoids, key_text. induction s as [|c s IH]; [reflexivity|].
  cbn [forallb]. rewrite IH. simpl. rewrite negb_involutive. reflexivity.
Qed.

(** ** Replacing a string that does not occur *)

Lemma replace_absent (x : codepoint) (old new s : pystr) :
  forallb (fun c => negb (cp_eqb x c)) s = true -> str_replace (x :: old) new s = s.
Proof.
  unfold str_replace. induction s as [|c s IH]; intro H; [reflexivity|].
  simpl in H. apply andb_true_iff in H. destruct H as [H1 H2].
  apply negb_true_iff in H1. cbn [replace_from startswith]. rewrite H1. simpl.
  rewrite (IH H2). reflexivity.
Qed.

Lemma key_text_replace (x : codepoint) (old new s : pystr) :
  is_key_char x = false -> key_text s = true -> str_replace (x :: old) new s = s.
Proof.
  intros Hx H. apply replace_absent. revert H. apply key_text_forall.
  intros c Hc. apply negb_true_iff. destruct (cp_eqb x c) eqn:E; [|reflexivity].
  apply cp_eqb_eq in E. subst c. congruence.
Qed.

(** ** Maps on letters

    [f] changes only letters (ASCII letters and the code points 192 to
    255) into letters. *)

Definition wordish (c : codepoint) : bool :=
  (is_ascii_upper c || is_ascii_lower c || in_range 192 255 c)%bool.

Definition letter_map (f : codepoint -> codepoint) : Prop :=
  forall c, f c = c \/ (wordish c = true /\ wordish (f c) = true).

(** A class or a predicate that holds of no letter. *)
Definition off_letters (p : codepoint -> bool) : Prop :=
  forall c, wordish c = true -> p c = false.

Lemma wordish_below (c : codepoint) : wordish c = true -> c < 256.
Proof.
  unfold wordish, is_ascii_upper, is_ascii_lower, in_range. intro H.
  repeat (apply orb_true_iff in H; destruct H as [H|H]);
    apply andb_true_iff in H; destruct H as [_ H]; apply N.leb_le in H; lia.
Qed.

Lemma off_letters_check (p : codepoint -> bool) :
  forallb (fun c => implb (wordish c) (negb (p c))) (below 256) = true ->
  off_letters p.
Proof.
  intros H c Hc. pose proof (below_forall 256 _ H c (wordish_below c Hc)) as H'.
  simpl in H'. rewrite Hc in H'. apply negb_true_iff. exact H'.
Qed.

Lemma letter_map_stable (f : codepoint -> codepoint) (p : codepoint -> bool) :
  letter_map f -> off_letters p -> forall c, p (f c) = p c.
Proof.
  intros Hf Hp c. destruct (Hf c) as [-> | [H1 H2]]; [reflexivity|].
  rewrite (Hp _ H1), (Hp _ H2). reflexivity.
Qed.

Lemma letter_map_compose (f g : codepoint -> codepoint) :
  letter_map f -> letter_map g -> letter_map (fun c => f (g c)).
Proof.
  intros Hf Hg c. destruct (Hg c) as [-> | [H1 H2]]; [apply Hf|].
  destruct (Hf (g c)) as [-> | [H3 H4]]; right; auto.
Qed.

Lemma ascii_lower_letter_map : letter_map ascii_lower.
Proof.
  intro c. unfold ascii_lower. destruct (is_ascii_upper c) eqn:E; [right|left; reflexivity].
  assert (Hc : c < 128).
  { unfold is_ascii_upper, in_range in E. apply andb_true_iff in E.
    destruct E as [_ E]. apply N.leb_le in E. lia. }
  revert E. generalize dependent c.
  assert (H : forall c, c < 128 ->
            implb (is_ascii_upper c) (wordish c && wordish (c + 32)) = true).
  { apply (below_forall 128). vm_compute. reflexivity. }
  intros c Hc E. specialize (H c Hc). rewrite E in H. simpl in H.
  apply andb_true_iff in H. exact H.
Qed.

Lemma latin1_base_high (c : codepoint) : 256 <= c -> latin1_base c = c.
Proof.
  intro Hc. unfold latin1_base, in_range, cp_eqb.
  repeat match goal with
  | |- context [N.leb ?a c && N.leb c ?b] =>
      replace (N.leb c b) with false by (symmetry; apply N.leb_gt; lia);
      rewrite andb_false_r
  | |- context [N.eqb c ?b] =>
      replace (N.eqb c b) with false by (symmetry; apply N.eqb_neq; lia)
  end.
  reflexivity.
Qed.

Lemma latin1_base_letter_map : letter_map latin1_base.
Proof.
  intro c. destruct (N.lt_ge_cases c 256) as [Hc|Hc]; [|left; apply latin1_base_high, Hc].
  assert (H : forall c, c < 256 ->
            (cp_eqb (latin1_base c) c || (wordish c && wordish (latin1_base c)))%bool = true).
  { apply (below_forall 256). vm_compute. reflexivity. }
  specialize (H c Hc). apply orb_true_iff in H. destruct H as [H|H].
  - left. apply cp_eqb_eq. exact H.
  - right. apply andb_true_iff in H. exact H.
Qed.

Section Maps.
Variable f : codepoint -> codepoint.

Lemma drop_while_map (p : codepoint -> bool) (s : pystr) :
  (forall c, p (f c) = p c) -> drop_while p (map f s) = map f (drop_while p s).
Proof.
  intro Hp. induction s as [|c s IH]; simpl; [reflexivity|].
  rewrite Hp. destruct (p c); [exact IH|reflexivity].
Qed.

Lemma strip_by_map (p : codepoint -> bool) (s : pystr) :
  (forall c, p (f c) = p c) -> strip_by p (map f s) = map f (strip_by p s).
Proof.
  intro Hp. unfold strip_by, rstrip_by, lstrip_by.
  rewrite (drop_while_map p s Hp), <- map_rev, (drop_while_map p _ Hp), map_rev.
  reflexivity.
Qed.

(** [f] neither produces nor changes the characters of [old]. *)
Definition keeps (old : pystr) : Prop :=
  forall x c, In x old -> cp_eqb x (f c) = cp_eqb x c.

Lemma startswith_map (old s : pystr) :
  keeps old -> startswith old (map f s) = startswith old s.
Proof.
  revert s. induction old as [|x old IH]; intros s Hk; [reflexivity|].
  destruct s as [|c s]; [reflexivity|]. simpl.
  rewrite (Hk x c (or_introl eq_refl)), IH; [reflexivity|].
  intros y d Hy. apply Hk. right. exact Hy.
Qed.

Lemma replace_from_map (old new : pystr) (k : nat) (s : pystr) :
  keeps old -> map f new = new ->
  replace_from old new k (map f s) = map f (replace_from old new k s).
Proof.
  intros Hk Hn. revert k. induction s as [|c s IH]; intro k; [reflexivity|].
  destruct k as [|k]; [|simpl; apply IH].
  cbn [map replace_from]. change (f c :: map f s) with (map f (c :: s)).
  rewrite (startswith_map old (c :: s) Hk).
  destruct (startswith old (c :: s)).
  - rewrite map_app, Hn, IH. reflexivity.
  - cbn [map]. rewrite IH. reflexivity.
Qed.

Lemma str_replace_map (old new s : pystr) :
  keeps old -> map f new = new ->
  str_replace old new (map f s) = map f (str_replace old new s).
Proof.
  intros Hk Hn. unfold str_replace. destruct old; [reflexivity|].
  apply replace_from_map; assumption.
Qed.

Definition stable (k : cclass) : Prop := forall c, cls_match k (f c) = cls_match k c.

Lemma lookahead_ok_map (la : option cclass) (s : pystr) :
  match la with Some k => stable k | None => True end ->
  lookahead_ok la (map f s) = lookahead_ok la s.
Proof.
  intro H. unfold lookahead_ok. destruct la as [k|]; [|reflexivity].
  destruct s as [|c s]; [reflexivity|]. simpl. apply H.
Qed.

Lemma repeat_then_map (p : codepoint -> bool) (k : pystr -> option pystr) (s : pystr) :
  (forall c, p (f c) = p c) ->
  (forall t, k (map f t) = option_map (map f) (k t)) ->
  repeat_then p k (map f s) = option_map (map f) (repeat_then p k s).
Proof.
  intros Hp Hk. induction s as [|c s IH]; [apply (Hk [])|].
  cbn [map repeat_then]. rewrite Hp. destruct (p c); [|apply (Hk (c :: s))].
  rewrite IH. destruct (repeat_then p k s); [reflexivity|apply (Hk (c :: s))].
Qed.

Lemma match_atoms_map (la : option cclass) (atoms : list atom) (s : pystr) :
  match la with Some k => stable k | None => True end ->
  Forall (fun a => stable (a_cls a)) atoms ->
  match_atoms la atoms (map f s) = option_map (map f) (match_atoms la atoms s).
Proof.
  intros Hl H. revert s. induction H as [|a atoms Ha _ IH]; intro s.
  - cbn [match_atoms]. rewrite (lookahead_ok_map la s Hl).
    destruct (lookahead_ok la s); reflexivity.
  - cbn [match_atoms]. destruct (a_q a).
    + destruct s as [|c s]; [reflexivity|]. cbn [map]. rewrite Ha.
      destruct (cls_match (a_cls a) c); [apply IH|reflexivity].
    + destruct s as [|c s]; [apply (IH [])|]. cbn [map]. rewrite Ha.
      destruct (cls_match (a_cls a) c); [|apply (IH (c :: s))].
      rewrite IH. destruct (match_atoms la atoms s); [reflexivity|apply (IH (c :: s))].
    + apply repeat_then_map; [exact Ha|exact IH].
    + destruct s as [|c s]; [reflexivity|]. cbn [map]. rewrite Ha.
      destruct (cls_match (a_cls a) c); [|reflexivity].
      apply repeat_then_map; [exact Ha|exact IH].
Qed.

Definition stable_pattern (p : pattern) : Prop :=
  Forall (fun a => stable (a_cls a)) (p_atoms p)
  /\ match p_lookahead p with Some k => stable k | None => True end.

Lemma match_len_map (p : pattern) (s : pystr) :
  stable_pattern p -> match_len p (map f s) = match_len p s.
Proof.
  intros [Ha Hl]. unfold match_len. rewrite (match_atoms_map _ _ s Hl Ha).
  destruct (match_atoms (p_lookahead p) (p_atoms p) s) as [rest|]; [|reflexivity].
  simpl. rewrite !length_map. reflexivity.
Qed.

Lemma sub_from_map (p : pattern) (repl : pystr) (k : nat) (s : pystr) :
  stable_pattern p -> map f repl = repl ->
  sub_from p repl k (map f s) = map f (sub_from p repl k s).
Proof.
  intros Hp Hr. revert k. induction s as [|c s IH]; intro k; [reflexivity|].
  destruct k as [|k]; [|simpl; apply IH].
  cbn [map sub_from]. change (f c :: map f s) with (map f (c :: s)).
  rewrite (match_len_map p (c :: s) Hp).
  destruct (match_len p (c :: s)) as [[|n]|].
  - cbn [map]. rewrite IH. reflexivity.
  - rewrite map_app, Hr, IH. reflexivity.
  - cbn [map]. rewrite IH. reflexivity.
Qed.

Lemma sub_map (p : pattern) (repl s : pystr) :
  stable_pattern p -> map f repl = repl ->
  sub p repl (map f s) = map f (sub p repl s).
Proof. apply sub_from_map. Qed.

End Maps.

(** What a letter map does to the classes and strings of the cleaners. *)
Section LetterMaps.
Variable f : codepoint -> codepoint.
Hypothesis Hf : letter_map f.

Lemma letter_map_keeps (old : pystr) :
  forallb (fun x => negb (wordish x)) old = true -> keeps f old.
Proof.
  intros H x c Hx. rewrite forallb_forall in H. specialize (H x Hx).
  apply negb_true_iff in H.
  destruct (Hf c) as [-> | [H1 H2]]; [reflexivity|].
  destruct (cp_eqb x (f c)) eqn:E1.
  - apply cp_eqb_eq in E1. subst x. congruence.
  - destruct (cp_eqb x c) eqn:E2; [|reflexivity].
    apply cp_eqb_eq in E2. subst x. congruence.
Qed.

Lemma letter_map_stable_cls (k : cclass) :
  off_letters (cls_match k) -> stable f k.
Proof. intros Hk c. apply letter_map_stable; assumption. Qed.

End LetterMaps.

End CharFacts.

(** * Header keys *)

Module KeyFacts.
Import Py Re Val Ext PyFacts ReFacts CharFacts.
Local Open Scope N_scope.

Lemma sub_plus_forallb (q : codepoint -> bool) (k : cclass) (x : codepoint) (s : pystr) :
  q x = true -> forallb q s = true -> forallb q (sub (pat [plus k]) [x] s) = true.
Proof.
  intro Hx. induction s as [s IH] using suffix_ind.
  destruct s as [|c s]; [reflexivity|]. intro H.
  simpl in H. apply andb_true_iff in H. destruct H as [H1 H2].
  rewrite sub_plus_cons. destruct (cls_match k c).
  - simpl. rewrite Hx. simpl. apply IH.
    + simpl. pose proof (length_drop_while (cls_match k) s). lia.
    + apply forallb_drop_while. exact H2.
  - simpl. rewrite H1. simpl. apply IH; [simpl; lia|exact H2].
Qed.

(** The last three steps of both [normalize_header]: what is not a
    lower-case letter, a digit or a blank becomes a blank, blanks are
    collapsed, the ends are stripped. *)
Definition squash (s : pystr) : pystr := sub (pat [plus CNotKey]) [32] s.
Definition collapse (s : pystr) : pystr := sub (pat [plus CSpace]) [32] s.
Definition key_form (s : pystr) : pystr := str_strip (collapse (squash s)).

(** A key: lower-case letters, digits and single blanks, none at the ends. *)
Record is_key (o : pystr) : Prop := IsKey {
  key_chars : key_text o = true;
  key_single : single CSpace 32 o = true;
  key_trimmed : trimmed py_isspace o
}.

Lemma is_key_nil : is_key [].
Proof. split; [reflexivity|reflexivity|split; reflexivity]. Qed.

Lemma key_form_is_key (s : pystr) : is_key (key_form s).
Proof.
  unfold key_form, str_strip. split.
  - apply forallb_strip_by. apply sub_plus_forallb; [reflexivity|].
    rewrite <- avoids_not_key. apply sub_plus_avoids. reflexivity.
  - apply single_strip_by. apply sub_plus_single. reflexivity.
  - apply strip_by_trimmed.
Qed.

Lemma mandatory_here (k : cclass) (q : quant) (atoms : list atom) :
  q = One \/ q = Plus -> mandatory k (Atom k q :: atoms).
Proof. intro H. exists (Atom k q). split; [left; reflexivity|]. split; [reflexivity|exact H]. Qed.

Lemma mandatory_later (k : cclass) (a : atom) (atoms : list atom) :
  mandatory k atoms -> mandatory k (a :: atoms).
Proof. intros (b & H1 & H2). exists b. split; [right; exact H1|exact H2]. Qed.

Lemma squash_key (o : pystr) : key_text o = true -> squash o = o.
Proof.
  intro H. apply (sub_avoids CNotKey).
  - apply mandatory_here. right. reflexivity.
  - rewrite avoids_not_key. exact H.
Qed.

Lemma key_form_fixed (o : pystr) : is_key o -> key_form o = o.
Proof.
  intros [H1 H2 H3]. unfold key_form. rewrite (squash_key o H1).
  unfold collapse. rewrite (single_sub_id _ _ _ H2).
  apply strip_by_of_trimmed. exact H3.
Qed.

Lemma is_key_strip (o : pystr) : is_key o -> str_strip o = o.
Proof. intros [_ _ H]. apply strip_by_of_trimmed. exact H. Qed.

Lemma is_key_collapse (o : pystr) : is_key o -> collapse o = o.
Proof. intros [_ H _]. apply single_sub_id. exact H. Qed.

Section WithRuntime.
Context {R : Runtime}.

(** Lower-casing, decomposing and unmarking leave a key as it is. *)
Lemma is_key_unmarked (o : pystr) :
  key_text o = true ->
  filter (fun ch => negb (combining ch)) (nfkd (str_lower o)) = o.
Proof.
  intro H. pose proof (key_text_ascii o H) as Ha.
  rewrite (str_lower_ascii o Ha), (key_text_lower o H), (nfkd_ascii o Ha).
  clear H. induction o as [|c o IH]; [reflexivity|].
  simpl in Ha. apply andb_true_iff in Ha. destruct Ha as [Hc Ha].
  simpl. rewrite (combining_ascii c Hc). simpl. rewrite (IH Ha). reflexivity.
Qed.

Lemma acc_normalize_header_key (v : pyval) : is_key (Accreditation.normalize_header v).
Proof.
  unfold Accreditation.normalize_header. destruct (is_none v); [apply is_key_nil|].
  apply key_form_is_key.
Qed.

Lemma acc_normalize_header_fixed (o : pystr) :
  is_key o -> Accreditation.normalize_header (PScalar (SStr o)) = o.
Proof.
  intro H. unfold Accreditation.normalize_header. cbn [is_none py_str].
  rewrite (is_key_strip o H), (is_key_unmarked o (key_chars o H)).
  unfold Accreditation.NL. rewrite (key_text_replace 10 [] _ o eq_refl (key_chars o H)).
  apply (key_form_fixed o H).
Qed.

Lemma off_keys_char (x : codepoint) : is_key_char x = false -> off_keys (CChar x).
Proof.
  intros Hx c Hc. simpl. destruct (cp_eqb c x) eqn:E; [|reflexivity].
  apply cp_eqb_eq in E. subst c. congruence.
Qed.

Lemma permits_clean_text_key (o : pystr) :
  is_key o -> Permits.clean_text (PScalar (SStr o)) = match o with [] => None | _ => Some o end.
Proof.
  intro H. pose proof (key_chars o H) as Hk.
  unfold Permits.clean_text. cbn [is_none is_nan_float orb py_str].
  rewrite (is_key_strip o H).
  destruct o as [|c o]; [reflexivity|]. set (s := c :: o) in *.
  unfold Permits.CR, Permits.NL. cbn [app].
  rewrite (key_text_replace 13 [10] [10] s eq_refl Hk).
  rewrite (key_text_replace 13 [] [10] s eq_refl Hk).
  rewrite (sub_avoids (CSet [10] false) _ _ s);
    [|apply mandatory_here; right; reflexivity
     |apply key_text_avoids; [apply off_keys_check; vm_compute; reflexivity|exact Hk]].
  change (sub (pat [plus CSpace]) Permits.SP s) with (collapse s).
  rewrite (is_key_collapse s H).
  assert (Hcomma : avoids (CChar Permits.COMMA) s = true)
    by (apply key_text_avoids; [apply off_keys_char; reflexivity|exact Hk]).
  assert (Hapos : avoids (CChar Permits.APOS) s = true)
    by (apply key_text_avoids; [apply off_keys_char; reflexivity|exact Hk]).
  assert (Hquote : avoids (CChar Permits.QUOTE) s = true)
    by (apply key_text_avoids; [apply off_keys_char; reflexivity|exact Hk]).
  rewrite (sub_avoids (CChar Permits.COMMA) _ _ s);
    [|apply mandatory_here; left; reflexivity|exact Hcomma].
  rewrite (sub_avoids (CChar Permits.COMMA) _ _ s);
    [|apply mandatory_later, mandatory_here; left; reflexivity|exact Hcomma].
  rewrite (sub_avoids (CChar Permits.COMMA) _ _ s);
    [|apply mandatory_here; left; reflexivity|exact Hcomma].
  rewrite (sub_avoids (CChar Permits.APOS) _ _ s);
    [|apply mandatory_here; left; reflexivity|exact Hapos].
  rewrite (sub_avoids (CChar Permits.QUOTE) _ _ s);
    [|apply mandatory_here; left; reflexivity|exact Hquote].
  rewrite (sub_avoids (CChar Permits.APOS) _ _ s);
    [|apply mandatory_here; left; reflexivity|exact Hapos].
  rewrite (sub_avoids (CChar Permits.QUOTE) _ _ s);
    [|apply mandatory_here; left; reflexivity|exact Hquote].
  unfold str_strip_chars. rewrite strip_by_of_trimmed; [reflexivity|].
  apply (trimmed_weaken py_isspace); [|exact (key_trimmed s H)].
  intros d Hd Hm. unfold key_text in Hk. rewrite forallb_forall in Hk.
  specialize (Hk d Hd). revert d Hk Hd Hm. intros d Hk _. revert d Hk.
  assert (Q : forall d, is_key_char d = true ->
              implb (mem_cp [32; Permits.COMMA; Permits.QUOTE; Permits.APOS] d) (py_isspace d) = true)
    by (apply key_char_check; vm_compute; reflexivity).
  intros d Hk Hm. specialize (Q d Hk). rewrite Hm in Q. exact Q.
Qed.

Lemma permits_normalize_header_key (v : pyval) : is_key (Permits.normalize_header v).
Proof.
  unfold Permits.normalize_header.
  destruct (Permits.clean_text v) as [[|c t]|]; try apply is_key_nil.
  apply key_form_is_key.
Qed.

Lemma permits_normalize_header_fixed (o : pystr) :
  is_key o -> Permits.normalize_header (PScalar (SStr o)) = o.
Proof.
  intro H. unfold Permits.normalize_header. rewrite (permits_clean_text_key o H).
  destruct o as [|c o]; [reflexivity|].
  rewrite (is_key_unmarked _ (key_chars _ H)).
  rewrite (key_text_replace 186 [] [] _ eq_refl (key_chars _ H)).
  apply (key_form_fixed _ H).
Qed.

End WithRuntime.
End KeyFacts.

(** * Labels that differ in letter case or in diacritics *)

Module FoldFacts.
Import Py Re Val Ext Notions PyFacts ReFacts CharFacts KeyFacts.
Local Open Scope N_scope.

Lemma off_letters_space : off_letters py_isspace.
Proof. apply off_letters_check. vm_compute. reflexivity. Qed.

Lemma off_letters_mem (cs : pystr) :
  forallb (fun x => negb (wordish x)) cs = true -> off_letters (mem_cp cs).
Proof.
  intros H c Hc. unfold mem_cp. destruct (existsb (cp_eqb c) cs) eqn:E; [|reflexivity].
  apply existsb_exists in E. destruct E as (x & Hx & Hcx). apply cp_eqb_eq in Hcx. subst x.
  rewrite forallb_forall in H. specialize (H c Hx). rewrite Hc in H. discriminate.
Qed.

Lemma off_letters_cls_char (x : codepoint) :
  wordish x = false -> off_letters (cls_match (CChar x)).
Proof.
  intros Hx c Hc. simpl. destruct (cp_eqb c x) eqn:E; [|reflexivity].
  apply cp_eqb_eq in E. subst c. congruence.
Qed.

Lemma off_letters_cls_set (cs : pystr) (sp : bool) :
  forallb (fun x => negb (wordish x)) cs = true -> off_letters (cls_match (CSet cs sp)).
Proof.
  intros H c Hc. simpl. rewrite (off_letters_mem cs H c Hc), (off_letters_space c Hc).
  destruct sp; reflexivity.
Qed.

Section LetterMap.
Context {R : Runtime}.
Variable f : codepoint -> codepoint.
Hypothesis Hf : letter_map f.

Lemma letter_map_fix (c : codepoint) : wordish c = false -> f c = c.
Proof. intro H. destruct (Hf c) as [E | [E _]]; [exact E|congruence]. Qed.

Lemma letter_map_fix_str (s : pystr) :
  forallb (fun x => negb (wordish x)) s = true -> map f s = s.
Proof.
  induction s as [|c s IH]; intro H; [reflexivity|].
  simpl in H. apply andb_true_iff in H. destruct H as [H1 H2].
  apply negb_true_iff in H1. simpl. rewrite (letter_map_fix c H1), (IH H2). reflexivity.
Qed.

Lemma str_strip_map (s : pystr) : str_strip (map f s) = map f (str_strip s).
Proof.
  apply strip_by_map. apply letter_map_stable; [exact Hf|exact off_letters_space].
Qed.

(** A substitution whose classes hold of no letter and whose replacement
    has no letter goes through the map. *)
Lemma sub_letter_map (p : pattern) (repl s : pystr) :
  Forall (fun a => off_letters (cls_match (a_cls a))) (p_atoms p) ->
  match p_lookahead p with Some k => off_letters (cls_match k) | None => True end ->
  forallb (fun x => negb (wordish x)) repl = true ->
  sub p repl (map f s) = map f (sub p repl s).
Proof.
  intros Ha Hl Hr. apply sub_map.
  - split.
    + eapply Forall_impl; [|exact Ha]. intros a H. apply letter_map_stable_cls; assumption.
    + destruct (p_lookahead p); [apply letter_map_stable_cls; assumption|exact I].
  - apply letter_map_fix_str. exact Hr.
Qed.

Lemma replace_letter_map (old new s : pystr) :
  forallb (fun x => negb (wordish x)) old = true ->
  forallb (fun x => negb (wordish x)) new = true ->
  str_replace old new (map f s) = map f (str_replace old new s).
Proof.
  intros Ho Hn. apply str_replace_map.
  - apply letter_map_keeps; assumption.
  - apply letter_map_fix_str. exact Hn.
Qed.

Ltac off_letters_atoms :=
  repeat first
    [ apply Forall_nil
    | apply Forall_cons
    | exact off_letters_space
    | apply off_letters_cls_char; reflexivity
    | apply off_letters_cls_set; reflexivity
    | exact I
    | reflexivity ].

Lemma permits_clean_text_map (s : pystr) :
  Permits.clean_text (PScalar (SStr (map f s)))
  = option_map (map f) (Permits.clean_text (PScalar (SStr s))).
Proof.
  unfold Permits.clean_text. cbn [is_none is_nan_float orb py_str].
  rewrite str_strip_map.
  destruct (str_strip s) as [|c t]; [reflexivity|].
  set (u := c :: t). change (map f u) with (f c :: map f t).
  cbv beta iota. change (f c :: map f t) with (map f u).
  rewrite !replace_letter_map by reflexivity.
  repeat (rewrite sub_letter_map by off_letters_atoms).
  unfold str_strip_chars. rewrite strip_by_map
    by (apply letter_map_stable; [exact Hf|apply off_letters_mem; reflexivity]).
  match goal with |- context [strip_by ?p ?x] => destruct (strip_by p x) end; reflexivity.
Qed.

(** Lower-casing, decomposing and unmarking do not see [f]. *)
Hypothesis Hunmark :
  forall t, filter (fun ch => negb (combining ch)) (nfkd (str_lower (map f t)))
            = filter (fun ch => negb (combining ch)) (nfkd (str_lower t)).

Lemma acc_normalize_header_map (s : pystr) :
  Accreditation.normalize_header (PScalar (SStr (map f s)))
  = Accreditation.normalize_header (PScalar (SStr s)).
Proof.
  unfold Accreditation.normalize_header. cbn [is_none py_str].
  rewrite str_strip_map, Hunmark. reflexivity.
Qed.

Lemma permits_normalize_header_map (s : pystr) :
  Permits.normalize_header (PScalar (SStr (map f s)))
  = Permits.normalize_header (PScalar (SStr s)).
Proof.
  unfold Permits.normalize_header. rewrite permits_clean_text_map.
  destruct (Permits.clean_text (PScalar (SStr s))) as [[|c t]|]; try reflexivity.
  cbn [option_map]. change (map f (c :: t)) with (f c :: map f t).
  cbv beta iota. change (f c :: map f t) with (map f (c :: t)).
  rewrite Hunmark. reflexivity.
Qed.

End LetterMap.

Section WithRuntime.
Context {R : Runtime}.

Lemma unmark_ascii_lower (t : pystr) :
  filter (fun ch => negb (combining ch)) (nfkd (str_lower (map ascii_lower t)))
  = filter (fun ch => negb (combining ch)) (nfkd (str_lower t)).
Proof. rewrite str_lower_ascii_case. reflexivity. Qed.

Lemma acc_normalize_header_fold (s : pystr) :
  Accreditation.normalize_header (PScalar (SStr (map fold_letter s)))
  = Accreditation.normalize_header (PScalar (SStr s)).
Proof.
  unfold fold_letter. rewrite <- (map_map latin1_base ascii_lower).
  rewrite (acc_normalize_header_map ascii_lower ascii_lower_letter_map unmark_ascii_lower).
  apply (acc_normalize_header_map latin1_base latin1_base_letter_map unmark_latin1_base).
Qed.

Lemma permits_normalize_header_fold (s : pystr) :
  Permits.normalize_header (PScalar (SStr (map fold_letter s)))
  = Permits.normalize_header (PScalar (SStr s)).
Proof.
  unfold fold_letter. rewrite <- (map_map latin1_base ascii_lower).
  rewrite (permits_normalize_header_map ascii_lower ascii_lower_letter_map unmark_ascii_lower).
  apply (permits_normalize_header_map latin1_base latin1_base_letter_map unmark_latin1_base).
Qed.

End WithRuntime.
End FoldFacts.
(** * The runtime to compute with satisfies what is assumed of a runtime *)

Module ReferenceFacts.
Import Py Val Ext Reference PyFacts CharFacts.
Local Open Scope N_scope.

(** A property of all code points: checked below 256, proved above. *)
Lemma all_codepoints (P : codepoint -> bool) :
  forallb P (below 256) = true ->
  (forall c, 256 <= c -> P c = true) ->
  forall c, P c = true.
Proof.
  intros H1 H2 c. destruct (N.lt_ge_cases c 256) as [Hc|Hc].
  - exact (below_forall 256 P H1 c Hc).
  - exact (H2 c Hc).
Qed.

Ltac high_codepoint Hc :=
  repeat match goal with
  | |- context [N.leb ?a ?c && N.leb ?c ?b] =>
      replace (N.leb c b) with false by (symmetry; apply N.leb_gt; lia);
      rewrite andb_false_r
  | |- context [N.eqb ?c ?b] =>
      replace (N.eqb c b) with false by (symmetry; apply N.eqb_neq; lia)
  end.

Lemma ascii_lower_high (c : codepoint) : 256 <= c -> ascii_lower c = c.
Proof.
  intro Hc. unfold ascii_lower, is_ascii_upper, in_range. high_codepoint Hc. reflexivity.
Qed.

Lemma lower_cp_high (c : codepoint) : 256 <= c -> lower_cp c = c.
Proof.
  intro Hc. unfold lower_cp, is_ascii_upper, is_latin1_upper, in_range, cp_eqb.
  high_codepoint Hc. reflexivity.
Qed.

Lemma lower_cp_ascii (c : codepoint) : is_ascii c = true -> lower_cp c = ascii_lower c.
Proof.
  intro Hc. apply N.ltb_lt in Hc. apply cp_eqb_eq. revert c Hc.
  apply (below_forall 128). vm_compute. reflexivity.
Qed.

Lemma lower_cp_ascii_lower (c : codepoint) : lower_cp (ascii_lower c) = lower_cp c.
Proof.
  apply cp_eqb_eq. revert c. apply all_codepoints; [vm_compute; reflexivity|].
  intros c Hc. rewrite (ascii_lower_high c Hc). apply cp_eqb_refl.
Qed.

Lemma decompose_ascii (c : codepoint) : is_ascii c = true -> decompose c = [c].
Proof.
  intro Hc. apply N.ltb_lt in Hc. apply str_eqb_eq. revert c Hc.
  apply (below_forall 128). vm_compute. reflexivity.
Qed.

Lemma is_mark_ascii (c : codepoint) : is_ascii c = true -> is_mark c = false.
Proof.
  intro Hc. apply N.ltb_lt in Hc. apply negb_true_iff. revert c Hc.
  apply (below_forall 128). vm_compute. reflexivity.
Qed.

Definition unmarked (c : codepoint) : pystr :=
  filter (fun ch => negb (is_mark ch)) (decompose (lower_cp c)).

Lemma unmarked_latin1_base (c : codepoint) : unmarked (latin1_base c) = unmarked c.
Proof.
  apply str_eqb_eq. revert c. apply all_codepoints; [vm_compute; reflexivity|].
  intros c Hc. rewrite (latin1_base_high c Hc). apply str_eqb_refl.
Qed.

Lemma filter_flat_map {A B : Type} (p : B -> bool) (g : A -> list B) (s : list A) :
  filter p (flat_map g s) = flat_map (fun c => filter p (g c)) s.
Proof.
  induction s as [|c s IH]; [reflexivity|].
  simpl. rewrite filter_app, IH. reflexivity.
Qed.

Lemma unmark_reference (s : pystr) :
  filter (fun ch => negb (is_mark ch)) (flat_map decompose (map lower_cp s))
  = flat_map unmarked s.
Proof.
  rewrite filter_flat_map. induction s as [|c s IH]; [reflexivity|].
  simpl. rewrite IH. reflexivity.
Qed.

(** Reading a date nn/nn/yyyy: the digits of each number, then the
    date. *)
Definition two_digits_of (a : N) : bool :=
  match zero_pad 2 a with
  | [d1; d2] =>
      (is_ascii_digit d1 && is_ascii_digit d2 && negb (cp_eqb d1 47) && negb (cp_eqb d2 47)
       && N.eqb (PyFloat.digits_value [d1; d2]) a)%bool
  | _ => false
  end.

Definition four_digits_of (y : N) : bool :=
  match zero_pad 4 y with
  | [d1; d2; d3; d4] =>
      (forallb is_ascii_digit [d1; d2; d3; d4]
       && N.eqb (PyFloat.digits_value [d1; d2; d3; d4]) y)%bool
  | _ => false
  end.

Lemma two_digits_of_month (a : N) : 1 <= a <= 12 -> two_digits_of a = true.
Proof.
  intro Ha.
  assert (H : forall a, a < 13 -> implb (in_range 1 12 a) (two_digits_of a) = true)
    by (apply (below_forall 13); vm_compute; reflexivity).
  specialize (H a ltac:(lia)).
  replace (in_range 1 12 a) with true in H; [exact H|].
  symmetry. unfold in_range. apply andb_true_iff. split; apply N.leb_le; lia.
Qed.

Lemma four_digits_of_year (y : N) : 1678 <= y <= 2261 -> four_digits_of y = true.
Proof.
  intro Hy.
  assert (H : forall y, y < 2262 -> implb (in_range 1678 2261 y) (four_digits_of y) = true)
    by (apply (below_forall 2262); vm_compute; reflexivity).
  specialize (H y ltac:(lia)).
  replace (in_range 1678 2261 y) with true in H; [exact H|].
  symmetry. unfold in_range. apply andb_true_iff. split; apply N.leb_le; lia.
Qed.

Lemma read_slashed_spec (dayfirst : bool) (a b y : N) :
  1 <= a <= 12 -> 1 <= b <= 12 -> 1678 <= y <= 2261 ->
  read_slashed dayfirst (slashed_date a b y)
  = SDatetime (if dayfirst then midnight y b a else midnight y a b).
Proof.
  intros Ha Hb Hy.
  pose proof (two_digits_of_month a Ha) as Ea.
  pose proof (two_digits_of_month b Hb) as Eb.
  pose proof (four_digits_of_year y Hy) as Ey.
  unfold slashed_date, two_digits_of, four_digits_of in *.
  destruct (zero_pad 2 a) as [|a1 [|a2 [|]]]; try discriminate.
  destruct (zero_pad 2 b) as [|b1 [|b2 [|]]]; try discriminate.
  destruct (zero_pad 4 y) as [|y1 [|y2 [|y3 [|y4 [|]]]]]; try discriminate.
  do 4 (apply andb_true_iff in Ea; destruct Ea as [Ea ?]).
  do 4 (apply andb_true_iff in Eb; destruct Eb as [Eb ?]).
  apply andb_true_iff in Ey. destruct Ey as [Ey1 Ey2].
  cbn [app]. unfold read_slashed.
  assert (Ed : forallb is_ascii_digit [a1; a2; b1; b2; y1; y2; y3; y4] = true).
  { cbn [forallb] in *. rewrite Ea, Eb, Ey1.
    repeat match goal with H : is_ascii_digit _ = true |- _ => rewrite H; clear H end.
    reflexivity. }
  rewrite Ed.
  repeat match goal with H : N.eqb _ _ = true |- _ => apply N.eqb_eq in H; rewrite H end.
  assert (Ra : in_range 1 12 a = true)
    by (unfold in_range; apply andb_true_iff; split; apply N.leb_le; lia).
  assert (Rb : in_range 1 12 b = true)
    by (unfold in_range; apply andb_true_iff; split; apply N.leb_le; lia).
  assert (Da : in_range 1 28 a = true)
    by (unfold in_range; apply andb_true_iff; split; apply N.leb_le; lia).
  assert (Db : in_range 1 28 b = true)
    by (unfold in_range; apply andb_true_iff; split; apply N.leb_le; lia).
  assert (Ry : in_range 1678 2261 y = true)
    by (unfold in_range; apply andb_true_iff; split; apply N.leb_le; lia).
  assert (La : (12 <? a) = false) by (apply N.ltb_ge; lia).
  assert (Lb : (12 <? b) = false) by (apply N.ltb_ge; lia).
  destruct dayfirst; cbv beta iota zeta.
  - rewrite Lb, Rb, Da, Ry. reflexivity.
  - rewrite La, Ra, Db, Ry. reflexivity.
Qed.

End ReferenceFacts.

Module ReferenceRuntime.
Import Py Val Ext Reference PyFacts CharFacts ReferenceFacts.

#[export] Program Instance reference : Runtime := {
  str_lower := map lower_cp;
  str_upper := flat_map upper_cp;
  nfkd := flat_map decompose;
  combining := is_mark;
  unicode_alnum := is_alnum_latin1;
  unicode_decimal := fun _ => None;
  float_repr := float_str;
  series_str := fun _ => lit "Series";
  to_datetime := read_datetime;
  excel_columns := name_columns 0
}.
Next Obligation.
  apply map_ext_in. intros c Hc. apply lower_cp_ascii.
  rewrite forallb_forall in H. exact (H c Hc).
Qed.
Next Obligation.
  rewrite map_map. apply map_ext. exact lower_cp_ascii_lower.
Qed.
Next Obligation.
  induction s as [|c s IH]; [reflexivity|].
  simpl in H. apply andb_true_iff in H. destruct H as [Hc Hs].
  simpl. rewrite (decompose_ascii c Hc), (IH Hs). reflexivity.
Qed.
Next Obligation.
  apply is_mark_ascii. assumption.
Qed.
Next Obligation.
  rewrite !unmark_reference. rewrite flat_map_concat_map, map_map, <- flat_map_concat_map.
  apply flat_map_ext. exact unmarked_latin1_base.
Qed.
Next Obligation.
  unfold read_datetime. rewrite read_slashed_spec by lia. reflexivity.
Qed.

End ReferenceRuntime.

(** * The value coercers *)

Module CoercerFacts.
Import Py Re Val Ext PyFacts ReFacts CharFacts KeyFacts.

Definition raises_only {A : Type} (classes : list exn_class) (m : result A) : Prop :=
  forall e, m = Raise e -> existsb (exn_class_eqb (exn_cls e)) classes = true.

Lemma try_except_total {A : Type} (body : result A) (classes : list exn_class) (a : A) :
  raises_only classes body -> exists r, try_except body classes (Ok a) = Ok r.
Proof.
  intro H. unfold try_except. destruct body as [x|e]; [exists x; reflexivity|].
  rewrite (H e eq_refl). exists a. reflexivity.
Qed.

Lemma float_of_int_raises (z : Z) :
  raises_only [TypeError; ValueError; OverflowError] (PyFloat.float_of_int z).
Proof.
  intros e. unfold PyFloat.float_of_int.
  destruct (PyFloat.is_finite _); [discriminate|].
  intro H. injection H as <-. reflexivity.
Qed.

Lemma float_of_str_raises (decimal : codepoint -> option N) (s : pystr) :
  raises_only [TypeError; ValueError; OverflowError] (PyFloat.float_of_str decimal s).
Proof.
  intros e. unfold PyFloat.float_of_str.
  destruct (PyFloat.drop_underscores _ _) as [u|]; [|intro H; injection H as <-; reflexivity].
  destruct (match u with 45%N :: r => _ | 43%N :: r => _ | _ => _ end) as [neg body].
  destruct (PyFloat.unsigned_float neg body); [discriminate|].
  intro H. injection H as <-. reflexivity.
Qed.

Lemma round_to_int_raises (f : spec_float) :
  raises_only [TypeError; ValueError; OverflowError] (PyFloat.round_to_int f).
Proof.
  intros e. destruct f; simpl; try discriminate; intro H; injection H as <-; reflexivity.
Qed.

Section WithRuntime.
Context {R : Runtime}.

Lemma py_float_raises (v : pyval) :
  raises_only [TypeError; ValueError; OverflowError] (py_float v).
Proof.
  destruct v as [[| b | z | f | s | d |] | xs]; simpl;
    try (intros e H; injection H as <-; reflexivity);
    try apply float_of_int_raises; try apply float_of_str_raises.
  intros e H. discriminate.
Qed.

(** [to_int] returns for every scalar: what [float] and [round] raise is
    caught. *)
Lemma to_int_total (x : scalar) : exists r, Accreditation.to_int (PScalar x) = Ok r.
Proof.
  unfold Accreditation.to_int, Accreditation.none_or_na.
  destruct (is_none (PScalar x)) eqn:En; [exists None; reflexivity|].
  cbn [isna_truth bind]. destruct (scalar_isna x); [exists None; reflexivity|].
  apply try_except_total. intros e.
  destruct (py_float (PScalar x)) as [f|e'] eqn:Ef; cbn [bind].
  - destruct (PyFloat.round_to_int f) as [n|e''] eqn:Er; cbn [bind]; [discriminate|].
    intro H. injection H as <-. exact (round_to_int_raises f _ Er).
  - intro H. injection H as <-. exact (py_float_raises _ _ Ef).
Qed.

(** C1 (the defect): a numeric cell with an integer too large for a float
    makes [parse_decimal] raise OverflowError: the branch for numbers
    converts outside any [try], where [to_int] and [to_float] catch the
    error. *)
Theorem parse_decimal_raises_on_large_int :
  Permits.parse_decimal (PScalar (SInt (10 ^ 400))) = Raise (Exn OverflowError []).
Proof. vm_compute. reflexivity. Qed.

(** C4 (the defect): for a float cell the branch for numbers returns the
    rounded value as it is, so negative zero is not normalized there,
    whereas the same number written as text is. *)
Theorem parse_decimal_keeps_negative_zero :
  Permits.parse_decimal (PScalar (SFloat PyFloat.neg_zero)) = Ok (Some PyFloat.neg_zero)
  /\ Permits.parse_decimal (PScalar (SStr (lit "-0.0"))) = Ok (Some PyFloat.pos_zero).
Proof. split; vm_compute; reflexivity. Qed.

(** The two examples of the specification for decimals written as text;
    1234.5 is 5429388417957888 * 2^-42. *)
Lemma parse_decimal_examples :
  Permits.parse_decimal (PScalar (SStr (lit "1.234,50")))
  = Ok (Some (S754_finite false 5429388417957888 (-42)))
  /\ Permits.parse_decimal (PScalar (SStr (lit "  "))) = Ok None.
Proof. split; vm_compute; reflexivity. Qed.

(** The float cell -0.001 (4611686018427388 * 2^-62, negated) rounds to
    negative zero. *)
Lemma parse_decimal_small_negative :
  Permits.parse_decimal
    (PScalar (SFloat (S754_finite true 4611686018427388 (-62)))) = Ok (Some PyFloat.neg_zero).
Proof. vm_compute. reflexivity. Qed.

(** C5 (the defect): [format_date] calls [to_datetime] without
    [dayfirst], so 05/03/2024 is read as the third of May; [parse_date]
    sets it and reads the fifth of March. *)
Theorem format_date_reads_month_first :
  Accreditation.format_date (PScalar (SStr (lit "05/03/2024"))) = Ok (Some (lit "2024-05-03"))
  /\ Permits.parse_date (PScalar (SStr (lit "05/03/2024"))) = Ok (Some (lit "2024-03-05")).
Proof.
  change (lit "05/03/2024") with (slashed_date 5 3 2024).
  unfold Accreditation.format_date, Permits.parse_date.
  cbn [Accreditation.none_or_na is_none is_nan_float orb isna_truth scalar_isna bind].
  rewrite !to_datetime_slashed by lia.
  split; reflexivity.
Qed.

(** C7 (the defect): the cleaner of the permits script leaves two commas
    where three stood, and removes them only when it is applied again. *)
Theorem permits_clean_text_not_idempotent :
  Permits.clean_text (PScalar (SStr (lit "a,,,b"))) = Some (lit "a,,b")
  /\ Permits.clean_text (PScalar (SStr (lit "a,,b"))) = Some (lit "a, b").
Proof. split; vm_compute; reflexivity. Qed.

End WithRuntime.
End CoercerFacts.

(** * The text cleaners and the header keys *)

Module CleanerFacts.
Import Py Re Val Ext Notions PyFacts ReFacts CharFacts KeyFacts FoldFacts.
Local Open Scope N_scope.

Lemma drop_while_snoc (p : codepoint -> bool) (s : pystr) (c : codepoint) :
  p c = false -> drop_while p (s ++ [c]) = drop_while p s ++ [c].
Proof.
  intro H. induction s as [|x s IH]; simpl.
  - rewrite H. reflexivity.
  - destruct (p x); [exact IH|reflexivity].
Qed.

Lemma sub_plus_snoc (k : cclass) (x c : codepoint) (s : pystr) :
  cls_match k c = false ->
  sub (pat [plus k]) [x] (s ++ [c]) = sub (pat [plus k]) [x] s ++ [c].
Proof.
  intro Hc. induction s as [s IH] using suffix_ind.
  destruct s as [|d s].
  - simpl app. rewrite sub_plus_cons, Hc. reflexivity.
  - change ((d :: s) ++ [c]) with (d :: (s ++ [c])).
    rewrite !sub_plus_cons. destruct (cls_match k d).
    + rewrite (drop_while_snoc _ s c Hc), IH; [reflexivity|].
      cbn [List.length]. pose proof (length_drop_while (cls_match k) s). lia.
    + rewrite IH by (cbn [List.length]; lia). reflexivity.
Qed.

(** Collapsing the blanks of a stripped text leaves it stripped. *)
Lemma collapse_trimmed (s : pystr) :
  trimmed py_isspace s -> trimmed py_isspace (collapse s).
Proof.
  intros [H1 H2]. unfold collapse.
  destruct (rstrip_by_cases py_isspace s) as [[E _] | (t & c & E & Hc & _)];
    rewrite H2 in E; subst s.
  - split; reflexivity.
  - rewrite (sub_plus_snoc CSpace 32 c t Hc). split; [|apply rstrip_by_snoc; exact Hc].
    destruct t as [|d t].
    + simpl. simpl in Hc. rewrite Hc. reflexivity.
    + change ((d :: t) ++ [c]) with (d :: (t ++ [c])) in H1.
      assert (Hd : py_isspace d = false).
      { destruct (py_isspace d) eqn:E; [|reflexivity]. exfalso.
        simpl in H1. rewrite E in H1.
        destruct (drop_while_suffix py_isspace (t ++ [c])) as [pre Hpre].
        rewrite H1 in Hpre. apply (f_equal (@List.length _)) in Hpre.
        rewrite !length_app in Hpre. cbn [List.length] in Hpre.
        rewrite ?length_app in Hpre. cbn [List.length] in Hpre. lia. }
      rewrite sub_plus_cons. simpl cls_match. rewrite Hd. simpl. rewrite Hd. reflexivity.
Qed.

Lemma collapse_nonempty (c : codepoint) (s : pystr) : collapse (c :: s) <> [].
Proof.
  unfold collapse. rewrite sub_plus_cons. destruct (cls_match CSpace c); discriminate.
Qed.

Section WithRuntime.
Context {R : Runtime}.

(** The cleaner of the accreditation script is idempotent: what it returns
    for any value, it returns again for that text, and None for None. *)
Lemma acc_clean_text_idempotent (v : pyval) (s : pystr) :
  Accreditation.clean_text v = Ok (Some s) ->
  Accreditation.clean_text (PScalar (SStr s)) = Ok (Some s).
Proof.
  unfold Accreditation.clean_text.
  destruct (Accreditation.none_or_na v) as [[|]|e]; cbn [bind]; try discriminate.
  destruct (str_strip (py_str v)) as [|c t] eqn:E; [discriminate|].
  intro H. injection H as <-.
  change (sub (pat [plus CSpace]) Accreditation.SP (c :: t)) with (collapse (c :: t)).
  assert (Ht : trimmed py_isspace (collapse (c :: t))).
  { apply collapse_trimmed. rewrite <- E. apply strip_by_trimmed. }
  cbn [Accreditation.none_or_na is_none isna_truth scalar_isna bind py_str].
  unfold str_strip. rewrite (strip_by_of_trimmed _ _ Ht).
  destruct (collapse (c :: t)) as [|d u] eqn:Ec; [exfalso; exact (collapse_nonempty c t Ec)|].
  f_equal. f_equal. rewrite <- Ec.
  apply single_sub_id. apply sub_plus_single. reflexivity.
Qed.

Lemma acc_clean_text_none : Accreditation.clean_text (PScalar SNone) = Ok None.
Proof. reflexivity. Qed.

(** C8: header normalization is idempotent in both scripts, and two labels
    that differ only in the case or in the diacritics of their letters
    have the same key; so have Institucioni and INSTITUCIONI. *)
Theorem normalize_header_idempotent_insensitive :
  (forall v : pyval,
     Accreditation.normalize_header (PScalar (SStr (Accreditation.normalize_header v)))
     = Accreditation.normalize_header v)
  /\ (forall v : pyval,
        Permits.normalize_header (PScalar (SStr (Permits.normalize_header v)))
        = Permits.normalize_header v)
  /\ (forall x y : pystr, same_letters x y ->
        Accreditation.normalize_header (PScalar (SStr x))
        = Accreditation.normalize_header (PScalar (SStr y)))
  /\ (forall x y : pystr, same_letters x y ->
        Permits.normalize_header (PScalar (SStr x))
        = Permits.normalize_header (PScalar (SStr y)))
  /\ Accreditation.normalize_header (PScalar (SStr (lit "Institucioni")))
     = Accreditation.normalize_header (PScalar (SStr (lit "INSTITUCIONI")))
  /\ Permits.normalize_header (PScalar (SStr (lit "Institucioni")))
     = Permits.normalize_header (PScalar (SStr (lit "INSTITUCIONI"))).
Proof.
  assert (Ha : forall x y : pystr, same_letters x y ->
             Accreditation.normalize_header (PScalar (SStr x))
             = Accreditation.normalize_header (PScalar (SStr y))).
  { intros x y H. rewrite <- (acc_normalize_header_fold x), <- (acc_normalize_header_fold y).
    unfold same_letters in H. rewrite H. reflexivity. }
  assert (Hp : forall x y : pystr, same_letters x y ->
             Permits.normalize_header (PScalar (SStr x))
             = Permits.normalize_header (PScalar (SStr y))).
  { intros x y H.
    rewrite <- (permits_normalize_header_fold x), <- (permits_normalize_header_fold y).
    unfold same_letters in H. rewrite H. reflexivity. }
  repeat split.
  - intro v. apply acc_normalize_header_fixed, acc_normalize_header_key.
  - intro v. apply permits_normalize_header_fixed, permits_normalize_header_key.
  - exact Ha.
  - exact Hp.
  - apply Ha. reflexivity.
  - apply Hp. reflexivity.
Qed.

(** The key of both spellings is the text institucioni. *)
Lemma normalize_header_institucioni :
  Accreditation.normalize_header (PScalar (SStr (lit "INSTITUCIONI"))) = lit "institucioni"
  /\ Permits.normalize_header (PScalar (SStr (lit "INSTITUCIONI"))) = lit "institucioni".
Proof.
  assert (K : is_key (lit "institucioni"))
    by (split; [reflexivity|reflexivity|split; reflexivity]).
  split.
  - rewrite <- (acc_normalize_header_fold (lit "INSTITUCIONI")).
    exact (acc_normalize_header_fixed _ K).
  - rewrite <- (permits_normalize_header_fold (lit "INSTITUCIONI")).
    exact (permits_normalize_header_fixed _ K).
Qed.

End WithRuntime.

(** With the runtime to compute with: the label of the accreditation
    workbook with and without its diacritics, in either case. *)
Lemma normalize_header_same_letters_witness :
  Accreditation.normalize_header (R := ReferenceRuntime.reference)
    (PScalar (SStr (lit "I AKREDITUAR DERI M" ++ [203])))
  = Accreditation.normalize_header (R := ReferenceRuntime.reference)
      (PScalar (SStr (lit "i akredituar deri me"))).
Proof.
  apply (proj1 (proj2 (proj2 (normalize_header_idempotent_insensitive (R := ReferenceRuntime.reference))))).
  reflexivity.
Defined.

End CleanerFacts.

(** * Frames *)

Module FrameFacts.
Import Py Val Ext PyFacts.

Lemma index_from_fst {A : Type} (i : nat) (xs : list A) :
  map fst (Accreditation.index_from i xs) = seq i (List.length xs).
Proof.
  revert i. induction xs as [|x xs IH]; intro i; [reflexivity|].
  simpl. rewrite IH. reflexivity.
Qed.

Lemma index_from_in {A : Type} (i k : nat) (x : A) (xs : list A) :
  In (k, x) (Accreditation.index_from i xs) <-> i <= k /\ nth_error xs (k - i) = Some x.
Proof.
  revert i. induction xs as [|y xs IH]; intro i; simpl.
  - split; [intros []|]. intros [_ H]. destruct (k - i); discriminate.
  - rewrite IH. split.
    + intros [H | [H1 H2]].
      * injection H as -> ->. split; [lia|]. rewrite Nat.sub_diag. reflexivity.
      * split; [lia|]. replace (k - i) with (S (k - S i)) by lia. exact H2.
    + intros [H1 H2]. destruct (k - i) as [|n] eqn:E.
      * left. injection H2 as ->. f_equal. lia.
      * right. split; [lia|]. replace (k - S i) with n by lia. exact H2.
Qed.

Lemma permits_index_from_eq {A : Type} (i : nat) (xs : list A) :
  Permits.index_from i xs = Accreditation.index_from i xs.
Proof.
  revert i. induction xs as [|x xs IH]; intro i; [reflexivity|].
  simpl. rewrite IH. reflexivity.
Qed.

(** In a frame whose index has no repetition a label names one row. *)
Lemma unique_row {A : Type} (rows : list (nat * A)) (i : nat) (a b : A) :
  NoDup (map fst rows) -> In (i, a) rows -> In (i, b) rows -> a = b.
Proof.
  induction rows as [|[j x] rows IH]; intros Hnd Ha Hb; [destruct Ha|].
  simpl in Hnd. inversion Hnd as [|? ? Hnotin Hnd']. subst.
  destruct Ha as [Ha|Ha], Hb as [Hb|Hb].
  - congruence.
  - injection Ha as -> ->. exfalso. apply Hnotin.
    apply in_map_iff. exists (i, b). split; [reflexivity|exact Hb].
  - injection Hb as -> ->. exfalso. apply Hnotin.
    apply in_map_iff. exists (i, a). split; [reflexivity|exact Ha].
  - exact (IH Hnd' Ha Hb).
Qed.

Lemma filter_fst_sub {A : Type} (p : nat * A -> bool) (rows : list (nat * A)) (i : nat) :
  In i (map fst (filter p rows)) -> In i (map fst rows).
Proof.
  intro H. apply in_map_iff in H. destruct H as ([j x] & Hj & Hin).
  apply filter_In in Hin. apply in_map_iff. exists (j, x). split; [exact Hj|apply Hin].
Qed.

Lemma dict_get_here {V : Type} (k : pystr) (v : V) (d : dict V) :
  dict_get ((k, v) :: d) k = Some v.
Proof. simpl. rewrite str_eqb_refl. reflexivity. Qed.

(** The keys of a record after [d[k] = v]. *)
Definition keys_set (ks : list pystr) (k : pystr) : list pystr :=
  if existsb (fun k' => str_eqb k' k) ks then ks else ks ++ [k].

Lemma dict_set_keys {V : Type} (d : dict V) (k : pystr) (v : V) :
  dict_keys (dict_set d k v) = keys_set (dict_keys d) k.
Proof.
  unfold keys_set, dict_keys. induction d as [|[k' v'] d IH]; [reflexivity|].
  simpl. destruct (str_eqb k' k); [reflexivity|].
  simpl. rewrite IH. destruct (existsb _ (map fst d)); reflexivity.
Qed.

Lemma skipn_index_from {A : Type} (n k : nat) (xs : list A) :
  skipn n (Accreditation.index_from k xs) = Accreditation.index_from (k + n) (skipn n xs).
Proof.
  revert k xs. induction n as [|n IH]; intros k xs.
  - rewrite Nat.add_0_r. reflexivity.
  - destruct xs as [|x xs]; [reflexivity|]. cbn [Accreditation.index_from skipn].
    rewrite IH. f_equal. lia.
Qed.

Lemma nth_error_skipn {A : Type} (n m : nat) (xs : list A) :
  nth_error (skipn n xs) m = nth_error xs (n + m).
Proof.
  revert xs. induction n as [|n IH]; intros xs; [reflexivity|].
  destruct xs as [|x xs]; [destruct m; reflexivity|]. simpl. apply IH.
Qed.

Lemma NoDup_filter_fst {A : Type} (p : nat * A -> bool) (rows : list (nat * A)) :
  NoDup (map fst rows) -> NoDup (map fst (filter p rows)).
Proof.
  induction rows as [|[j x] rows IH]; intro H; [constructor|].
  simpl in H. inversion H as [|? ? Hnotin Hnd]. subst. cbn [filter].
  destruct (p (j, x)); [|exact (IH Hnd)].
  cbn [map fst]. constructor; [|exact (IH Hnd)].
  intro Hin. apply Hnotin. exact (filter_fst_sub p rows j Hin).
Qed.

(** A cell of a whole row that is blank is missing, wherever it is read. *)
Lemma blank_row_nth (cells : list scalar) (j : nat) :
  forallb scalar_isna cells = true -> scalar_isna (nth j cells Accreditation.NaN) = true.
Proof.
  intro H. destruct (nth_in_or_default j cells Accreditation.NaN) as [Hin | ->].
  - rewrite forallb_forall in H. apply H. exact Hin.
  - reflexivity.
Qed.

End FrameFacts.

(** * The accreditation pipeline *)

Module AccreditationFacts.
Import Py Val Ext PyFacts FrameFacts.
Import Accreditation Notions.

Section WithRuntime.
Context {R : Runtime}.

(** What a record is made of. *)
Lemma build_record_inv (row : list (pystr * scalar)) (rec : record) :
  build_record row = Ok rec ->
  dict_keys rec = ACCREDITED_FIELD_ORDER
  /\ (exists v t, attr (lit "programme_sq") row = Ok v /\ clean_text (PScalar v) = Ok t
                  /\ dict_get rec (lit "programme_sq") = Some (j_text t))
  /\ (exists v t, attr (lit "programme_en") row = Ok v /\ clean_text (PScalar v) = Ok t
                  /\ dict_get rec (lit "programme_en") = Some (j_text t)).
Proof.
  unfold build_record. intro H.
  repeat match type of H with
  | bind (bind ?a ?f) _ = Ok _ =>
      let v := fresh "v" in let t := fresh "t" in
      let Ev := fresh "Ev" in let Et := fresh "Et" in
      destruct a as [v|] eqn:Ev; cbn [bind] in H; [|discriminate];
      destruct (f v) as [t|] eqn:Et; cbn [bind] in H; [|discriminate]
  end.
  injection H as <-. split; [reflexivity|]. split.
  - exists v1, t1. repeat split; assumption || reflexivity.
  - exists v2, t2. repeat split; assumption || reflexivity.
Qed.

(** Where the records come from. *)
Lemma acc_records_of_inv (rows : list frame_row) (recs : list (nat * record)) :
  records_of rows = Ok recs ->
  forall i rec, In (i, rec) recs ->
    exists row, In (i, row) rows /\ build_record row = Ok rec
      /\ (j_falsy (dict_get rec (lit "programme_sq"))
          && j_falsy (dict_get rec (lit "programme_en")))%bool = false.
Proof.
  revert recs. induction rows as [|[j row] rows IH]; intros recs H i rec Hin.
  - injection H as <-. destruct Hin.
  - cbn [records_of] in H.
    destruct (build_record row) as [r|] eqn:Eb; cbn [bind] in H; [|discriminate].
    destruct (records_of rows) as [tail|] eqn:Et; cbn [bind] in H; [|discriminate].
    destruct (j_falsy (dict_get r (lit "programme_sq"))
              && j_falsy (dict_get r (lit "programme_en")))%bool eqn:Ef;
      injection H as <-.
    + destruct (IH tail eq_refl i rec Hin) as (row' & H1 & H2).
      exists row'. split; [right; exact H1|exact H2].
    + destruct Hin as [Hin|Hin].
      * injection Hin as <- <-. exists row. split; [left; reflexivity|]. split; assumption.
      * destruct (IH tail eq_refl i rec Hin) as (row' & H1 & H2).
        exists row'. split; [right; exact H1|exact H2].
Qed.

(** ** Forward fill *)

(** [row'] is [row] with some cells labelled [field] changed. *)
Definition same_but (field : pystr) (row row' : list (pystr * scalar)) : Prop :=
  Forall2 (fun c c' => fst c' = fst c /\ (str_eqb (fst c) field = false -> c' = c)) row row'.

Lemma same_but_refl (field : pystr) (row : list (pystr * scalar)) : same_but field row row.
Proof. induction row; constructor; auto. Qed.

Lemma same_but_labels (field : pystr) (row row' : list (pystr * scalar)) :
  same_but field row row' -> map fst row' = map fst row.
Proof.
  induction 1 as [|c c' row row' [H1 _] _ IH]; [reflexivity|].
  simpl. rewrite H1, IH. reflexivity.
Qed.

Lemma ffill_row_same_but (field : pystr) (above row : list (pystr * scalar)) :
  List.length above = List.length row -> same_but field row (ffill_row field above row).
Proof.
  revert above. induction row as [|c row IH]; intros [|a above] H; try discriminate.
  - constructor.
  - unfold ffill_row. cbn [combine map]. constructor.
    + destruct (str_eqb (fst c) field) eqn:E; cbn [andb].
      * destruct (scalar_isna (snd c) && negb (scalar_isna (snd a)))%bool;
          split; try reflexivity; intro; discriminate.
      * split; reflexivity.
    + apply IH. simpl in H. lia.
Qed.

(** The rows of a frame have the labels [labels]. *)
Definition rectangular (labels : list pystr) (rows : list frame_row) : Prop :=
  Forall (fun r => map fst (snd r) = labels) rows.

Lemma ffill_from_spec (field : pystr) (labels : list pystr) (rows : list frame_row)
  (above : list (pystr * scalar)) :
  rectangular labels rows -> map fst above = labels ->
  Forall2 (fun r r' => fst r' = fst r /\ same_but field (snd r) (snd r'))
          rows (ffill_from field above rows).
Proof.
  intro Hr. revert above. induction Hr as [|[i row] rows Hrow _ IH]; intros above Ha.
  - constructor.
  - cbn [ffill_from]. simpl in Hrow.
    assert (Hs : same_but field row (ffill_row field above row)).
    { apply ffill_row_same_but. rewrite <- (length_map fst above), <- (length_map fst row).
      rewrite Ha, Hrow. reflexivity. }
    constructor; [split; [reflexivity|exact Hs]|].
    apply IH. rewrite (same_but_labels _ _ _ Hs). exact Hrow.
Qed.

Lemma ffill_spec (field : pystr) (labels : list pystr) (rows : list frame_row) :
  rectangular labels rows ->
  Forall2 (fun r r' => fst r' = fst r /\ same_but field (snd r) (snd r'))
          rows (ffill field rows).
Proof.
  intro Hr. destruct rows as [|[i row] rows]; [constructor|].
  cbn [ffill]. inversion_clear Hr as [|? ? Hrow Hrest].
  constructor; [split; [reflexivity|apply same_but_refl]|].
  apply (ffill_from_spec field labels); assumption.
Qed.

Lemma Forall2_in_r {A B : Type} (P : A -> B -> Prop) (xs : list A) (ys : list B) (y : B) :
  Forall2 P xs ys -> In y ys -> exists x, In x xs /\ P x y.
Proof.
  induction 1 as [|x y' xs ys Hxy _ IH]; intro Hin; [destruct Hin|].
  destruct Hin as [->|Hin].
  - exists x. split; [left; reflexivity|exact Hxy].
  - destruct (IH Hin) as (x' & H1 & H2). exists x'. split; [right; exact H1|exact H2].
Qed.

Lemma Forall2_fst {A : Type} (P : A -> A -> Prop) (xs ys : list (nat * A)) :
  Forall2 (fun r r' => fst r' = fst r /\ P (snd r) (snd r')) xs ys ->
  map fst ys = map fst xs.
Proof.
  induction 1 as [|x y xs ys [H _] _ IH]; [reflexivity|].
  simpl. rewrite H, IH. reflexivity.
Qed.

Lemma same_but_attr (field f : pystr) (row row' : list (pystr * scalar)) :
  same_but field row row' -> str_eqb f field = false -> attr f row' = attr f row.
Proof.
  intros H Hf. induction H as [|[l v] [l' v'] row row' [H1 H2] _ IH]; [reflexivity|].
  simpl in H1. subst l'. cbn [attr]. destruct (str_eqb l f) eqn:E.
  - apply str_eqb_eq in E. subst l. simpl in H2. specialize (H2 Hf). congruence.
  - exact IH.
Qed.

Lemma same_but_cells (field : pystr) (subset : list pystr) (row row' : list (pystr * scalar)) :
  same_but field row row' ->
  existsb (fun f => str_eqb f field) subset = false ->
  filter (in_subset subset) row' = filter (in_subset subset) row.
Proof.
  intros H Hs. induction H as [|c c' row row' [H1 H2] _ IH]; [reflexivity|].
  cbn [filter].
  assert (Ein : in_subset subset c' = in_subset subset c)
    by (unfold in_subset; rewrite H1; reflexivity).
  rewrite Ein, IH.
  destruct (in_subset subset c) eqn:E; [|reflexivity].
  f_equal. apply H2.
  destruct (str_eqb (fst c) field) eqn:Ec; [|reflexivity].
  apply str_eqb_eq in Ec. unfold in_subset in E. rewrite Ec in E. exfalso.
  apply existsb_exists in E. destruct E as (f & Hf & Hff).
  apply str_eqb_eq in Hff. subst f.
  assert (existsb (fun f => str_eqb f field) subset = true)
    by (apply existsb_exists; exists field; split; [exact Hf|apply str_eqb_refl]).
  congruence.
Qed.

(** ** The frame that reaches the loop *)

Lemma kept_rows_eq (labels : list scalar) (data : list (list scalar)) :
  kept_rows labels data
  = dropna_any [lit "institution"]
      (dropna_all [lit "programme_sq"; lit "programme_en"] (filled labels data)).
Proof. reflexivity. Qed.

Lemma selected_rectangular (labels : list scalar) (data : list (list scalar)) :
  rectangular (map fst (select ACCREDITED_FIELD_ORDER (map renamed labels)))
              (selected labels data).
Proof.
  unfold rectangular, selected. apply Forall_forall. intros [i row] Hin.
  apply index_from_in in Hin. destruct Hin as [_ Hin].
  apply nth_error_In in Hin. apply in_map_iff in Hin. destruct Hin as (cells & <- & _).
  unfold select_row. simpl. rewrite map_map. reflexivity.
Qed.

Lemma filled_spec (labels : list scalar) (data : list (list scalar)) :
  Forall2 (fun r r' => fst r' = fst r /\ same_but (lit "institution") (snd r) (snd r'))
          (selected labels data) (filled labels data).
Proof. apply (ffill_spec _ _ _ (selected_rectangular labels data)). Qed.

Lemma filled_index (labels : list scalar) (data : list (list scalar)) :
  NoDup (map fst (filled labels data)).
Proof.
  rewrite (Forall2_fst _ _ _ (filled_spec labels data)).
  unfold selected. rewrite index_from_fst. apply seq_NoDup.
Qed.

(** A record comes from a row of the filled frame that passed both
    [dropna]. *)
Lemma acc_parse_indexed_inv (wb : workbook) (labels : list scalar) (data : list (list scalar))
  (recs : list (nat * record)) :
  load_accredited_dataframe wb = Ok (labels, data) ->
  parse_indexed wb = Ok recs ->
  forall i rec, In (i, rec) recs ->
    exists row, In (i, row) (filled labels data)
      /\ forallb (fun c => scalar_isna (snd c))
           (filter (in_subset [lit "programme_sq"; lit "programme_en"]) row) = false
      /\ existsb (fun c => scalar_isna (snd c))
           (filter (in_subset [lit "institution"]) row) = false
      /\ build_record row = Ok rec
      /\ (j_falsy (dict_get rec (lit "programme_sq"))
          && j_falsy (dict_get rec (lit "programme_en")))%bool = false.
Proof.
  intros Hl H i rec Hin. unfold parse_indexed in H. rewrite Hl in H. cbn [bind] in H.
  destruct (negb (existsb _ labels)); [discriminate|].
  destruct (filter _ ACCREDITED_FIELD_ORDER); [|discriminate].
  destruct (acc_records_of_inv _ _ H i rec Hin) as (row & Hrow & Hb & Hf).
  exists row. rewrite kept_rows_eq in Hrow.
  unfold dropna_any, dropna_all in Hrow.
  apply filter_In in Hrow. destruct Hrow as [Hrow Hany].
  apply filter_In in Hrow. destruct Hrow as [Hrow Hall].
  apply negb_true_iff in Hany, Hall. simpl in Hany, Hall.
  repeat split; assumption.
Qed.

End WithRuntime.
End AccreditationFacts.

(** * The permits pipeline *)

Module PermitsFacts.
Import Py Val Ext PyFacts FrameFacts.
Import Permits Notions.

Section WithRuntime.
Context {R : Runtime}.

(** ** The header row *)

Lemma find_header_from_none (idx : nat) (rows : list (list scalar)) :
  forallb (fun row => negb (is_header_row row)) rows = true ->
  find_header_from idx rows = Raise header_not_found.
Proof.
  revert idx. induction rows as [|row rows IH]; intros idx H; [reflexivity|].
  simpl in H. apply andb_true_iff in H. destruct H as [H1 H2].
  apply negb_true_iff in H1. cbn [find_header_from]. rewrite H1. apply IH. exact H2.
Qed.

Lemma find_header_from_some (idx h : nat) (rows : list (list scalar)) :
  find_header_from idx rows = Ok h ->
  idx <= h /\ is_header_row (nth (h - idx) rows []) = true.
Proof.
  revert idx. induction rows as [|row rows IH]; intros idx H; [discriminate|].
  cbn [find_header_from] in H. destruct (is_header_row row) eqn:E.
  - injection H as <-. rewrite Nat.sub_diag. split; [lia|exact E].
  - destruct (IH _ H) as [H1 H2]. split; [lia|].
    replace (h - idx) with (S (h - S idx)) by lia. exact H2.
Qed.

Lemma header_row_nonempty (row : list scalar) :
  is_header_row row = true -> exists c rest, row = c :: rest.
Proof. destruct row as [|c rest]; [discriminate|]. intros _. exists c, rest. reflexivity. Qed.

(** The first column of the header row is kept under the label #, whatever
    its cell holds. *)
Lemma header_columns_first (c : scalar) (rest : list scalar) :
  exists cols, header_columns 0 (c :: rest) = (HASH, 0) :: cols.
Proof. cbn [header_columns]. eexists. reflexivity. Qed.

Lemma renamed_hash : renamed HASH = lit "permit_number".
Proof. reflexivity. Qed.

Lemma load_dataframe_inv (wb : workbook) (data : list frame_row) (h : nat)
  (columns : list pystr) (positions : list nat) :
  load_dataframe wb = Ok (data, h, columns, positions) ->
  let cols := header_columns 0 (nth h (wb_rows wb) []) in
  find_header_row (wb_rows wb) = Ok h
  /\ columns = map fst cols /\ positions = map snd cols
  /\ NoDup (map fst data)
  /\ forall i row, In (i, row) data ->
       exists cells, nth_error (wb_rows wb) i = Some cells /\ h < i
                     /\ row = data_row cols cells /\ all_na row = false.
Proof.
  unfold load_dataframe. intro H.
  destruct (find_header_row (wb_rows wb)) as [h'|] eqn:Eh; cbn [bind] in H; [|discriminate].
  remember (skipn (S h') (index_from 0 (wb_rows wb))) as below eqn:Eb.
  rewrite permits_index_from_eq, skipn_index_from in Eb. cbn [Nat.add] in Eb.
  injection H as <- <- <- <-. cbv zeta. subst below.
  set (g := fun ir : nat * list scalar =>
              (fst ir, map (fun lj : pystr * nat => (fst lj, nth (snd lj) (snd ir) NaN))
                           (header_columns 0 (nth h' (wb_rows wb) [])))).
  repeat split; try reflexivity.
  - unfold dropna_all. apply NoDup_filter_fst.
    rewrite map_map. change (fun x => fst (g x)) with (fun x : nat * list scalar => fst x).
    rewrite index_from_fst. apply seq_NoDup.
  - intros i row Hin. unfold dropna_all in Hin. apply filter_In in Hin.
    destruct Hin as [Hin Hna]. apply negb_true_iff in Hna. cbn [snd] in Hna.
    apply in_map_iff in Hin. destruct Hin as ([j cells] & E & Hin).
    unfold g in E. cbn [fst snd] in E. injection E as -> <-. exists cells.
    apply index_from_in in Hin. destruct Hin as [Hle Hin].
    rewrite nth_error_skipn in Hin. replace (S h' + (i - S h')) with i in Hin by lia.
    repeat split; [exact Hin|lia|exact Hna].
Qed.

(** ** The records *)

Definition is_url_field (field : pystr) : bool :=
  str_in [lit "document_url"; lit "situation_url"] field.

Lemma build_field_keys (row : list (pystr * scalar)) (rec rec' : record) (field : pystr) :
  build_field row rec field = Ok rec' ->
  dict_keys rec' = if is_url_field field then dict_keys rec
                   else keys_set (dict_keys rec) field.
Proof.
  unfold build_field, is_url_field.
  destruct (str_in [lit "document_url"; lit "situation_url"] field).
  { intro H. injection H as <-. reflexivity. }
  destruct (str_in TEXT_FIELDS field).
  { destruct (str_eqb field (lit "destination"));
      [|destruct (str_eqb field (lit "neighbourhood"));
        [|destruct (str_eqb field (lit "document_reference"))]];
      intro H; injection H as <-; apply dict_set_keys. }
  destruct (str_in NUMERIC_FIELDS field).
  { destruct (parse_decimal _); cbn [bind]; [|discriminate].
    intro H. injection H as <-. apply dict_set_keys. }
  destruct (str_in DATE_FIELDS field).
  { destruct (parse_date _); cbn [bind]; [|discriminate].
    intro H. injection H as <-. apply dict_set_keys. }
  intro H. injection H as <-. apply dict_set_keys.
Qed.

Fixpoint keys_after (ks : list pystr) (fields : list pystr) : list pystr :=
  match fields with
  | [] => ks
  | f :: rest => keys_after (if is_url_field f then ks else keys_set ks f) rest
  end.

Lemma build_fields_keys (row : list (pystr * scalar)) (fields : list pystr)
  (rec rec' : record) :
  build_fields row rec fields = Ok rec' ->
  dict_keys rec' = keys_after (dict_keys rec) fields.
Proof.
  revert rec. induction fields as [|f fields IH]; intros rec H.
  - injection H as <-. reflexivity.
  - cbn [build_fields] in H.
    destruct (build_field row rec f) as [r|] eqn:E; cbn [bind] in H; [|discriminate].
    rewrite (IH _ H). cbn [keys_after]. rewrite (build_field_keys _ _ _ _ E). reflexivity.
Qed.

(** [build_record] fills the fourteen fields that are read from the row,
    in the order of FIELD_ORDER. *)
Lemma build_record_keys (row : list (pystr * scalar)) (flag : bool) (rec : record) :
  build_record row flag = Ok rec ->
  dict_keys rec = firstn 14 FIELD_ORDER.
Proof.
  unfold build_record.
  destruct (build_fields row [] FIELD_ORDER) as [r|] eqn:E; cbn [bind]; [|discriminate].
  apply build_fields_keys in E.
  assert (Hk : dict_keys r = firstn 14 FIELD_ORDER) by (rewrite E; reflexivity).
  destruct (flag && j_falsy (dict_get r (lit "destination")) && _)%bool.
  - destruct (normalize_destination _) as [[|x t]|]; intro H; injection H as <-;
      try exact Hk.
    rewrite dict_set_keys, Hk. reflexivity.
  - intro H. injection H as <-. exact Hk.
Qed.

(** Where the records come from, and their keys. *)
Lemma permits_records_of_inv (sheet : pystr -> result ws_cell) (pdf_col situation_col : option Z)
  (destination_present : bool) (rows : list frame_row) (recs : list (nat * record)) :
  records_of sheet pdf_col situation_col destination_present rows = Ok recs ->
  forall i rec, In (i, rec) recs ->
    exists row, In (i, row) rows /\ all_na row = false
      /\ blank (clean_text (row_get row (lit "permit_number"))) = false
      /\ dict_keys rec = FIELD_ORDER.
Proof.
  revert recs. induction rows as [|[j row] rows IH]; intros recs H i rec Hin.
  - injection H as <-. destruct Hin.
  - cbn [records_of] in H.
    destruct (all_na row) eqn:Ena.
    { destruct (IH _ H i rec Hin) as (row' & H1 & H2). exists row'. split; [right|]; assumption. }
    destruct (blank (clean_text (row_get row (lit "permit_number")))) eqn:Ebl.
    { destruct (IH _ H i rec Hin) as (row' & H1 & H2). exists row'. split; [right|]; assumption. }
    destruct (build_record row (negb destination_present)) as [r|] eqn:Er;
      cbn [bind] in H; [|discriminate].
    destruct (extract_hyperlink sheet pdf_col _) as [doc|]; cbn [bind] in H; [|discriminate].
    destruct (extract_hyperlink sheet situation_col _) as [sit|]; cbn [bind] in H; [|discriminate].
    destruct (records_of sheet pdf_col situation_col destination_present rows) as [tail|] eqn:Et;
      cbn [bind] in H; [|discriminate].
    injection H as <-. destruct Hin as [Hin|Hin].
    + injection Hin as <- <-. exists row. repeat split; try assumption; [left; reflexivity|].
      rewrite !dict_set_keys, (build_record_keys _ _ _ Er). reflexivity.
    + destruct (IH _ eq_refl i rec Hin) as (row' & H1 & H2).
      exists row'. split; [right|]; assumption.
Qed.

Lemma permits_parse_indexed_inv (wb : workbook) (h : nat) (columns : list pystr)
  (recs : list (nat * record)) :
  parse_indexed wb = Ok (h, columns, recs) ->
  let cols := header_columns 0 (nth h (wb_rows wb) []) in
  find_header_row (wb_rows wb) = Ok h
  /\ columns = map fst cols
  /\ forall i rec, In (i, rec) recs ->
       exists cells, nth_error (wb_rows wb) i = Some cells /\ h < i
         /\ all_na (renamed_row cols cells) = false
         /\ blank (clean_text (row_get (renamed_row cols cells) (lit "permit_number"))) = false
         /\ dict_keys rec = FIELD_ORDER.
Proof.
  unfold parse_indexed. intro H.
  destruct (load_dataframe wb) as [[[[data h'] columns'] positions]|] eqn:El;
    cbn [bind] in H; [|discriminate].
  destruct (records_of _ _ _ _ _) as [recs'|] eqn:Er; cbn [bind] in H; [|discriminate].
  injection H as <- <- <-.
  destruct (load_dataframe_inv _ _ _ _ _ El) as (Hh & Hc & _ & _ & Hrows).
  cbv zeta. repeat split; try assumption.
  intros i rec Hin.
  destruct (permits_records_of_inv _ _ _ _ _ _ Er i rec Hin) as (row & Hrow & Hna & Hbl & Hk).
  apply in_map_iff in Hrow. destruct Hrow as ([j drow] & E & Hd).
  cbn [fst snd] in E. injection E as -> <-.
  destruct (Hrows _ _ Hd) as (cells & Hc1 & Hc2 & Hc3 & _).
  exists cells. subst drow. repeat split; assumption.
Qed.

End WithRuntime.
End PermitsFacts.

(** * The properties of the two pipelines *)

Module PipelineFacts.
Import Py Val Ext Notions PyFacts FrameFacts.

Lemma blank_falsy (t : option pystr) : blank t = true -> j_falsy (Some (j_text t)) = true.
Proof. destruct t as [[|c s]|]; simpl; intro H; try reflexivity; discriminate. Qed.

Section WithRuntime.
Context {R : Runtime}.

(** C2: every record of [parse_accredited_programmes] has the nine keys of
    ACCREDITED_FIELD_ORDER and every record of [parse_workbook] the sixteen
    keys of FIELD_ORDER, document_url and situation_url among them, in that
    order, whatever the columns of the sheet. *)
Theorem record_completeness :
  (forall (wb : Accreditation.workbook) (recs : list record),
     Accreditation.parse_accredited_programmes wb = Ok recs ->
     Forall (fun rec => dict_keys rec = Accreditation.ACCREDITED_FIELD_ORDER) recs)
  /\ (forall (wb : Permits.workbook) (name : pystr) (res : Permits.WorkbookParseResult),
        Permits.parse_workbook wb name = Ok res ->
        Forall (fun rec => dict_keys rec = Permits.FIELD_ORDER) (Permits.records res))
  /\ List.length Accreditation.ACCREDITED_FIELD_ORDER = 9
  /\ List.length Permits.FIELD_ORDER = 16
  /\ In (lit "document_url") Permits.FIELD_ORDER
  /\ In (lit "situation_url") Permits.FIELD_ORDER.
Proof.
  repeat split; try reflexivity.
  - intros wb recs H. unfold Accreditation.parse_accredited_programmes in H.
    destruct (Accreditation.parse_indexed wb) as [irecs|] eqn:E; cbn [bind] in H; [|discriminate].
    injection H as <-. apply Forall_forall. intros rec Hin.
    apply in_map_iff in Hin. destruct Hin as ([i r] & <- & Hin).
    unfold Accreditation.parse_indexed in E.
    destruct (Accreditation.load_accredited_dataframe wb) as [[labels data]|];
      cbn [bind] in E; [|discriminate].
    destruct (negb _); [discriminate|].
    destruct (filter _ Accreditation.ACCREDITED_FIELD_ORDER); [|discriminate].
    destruct (AccreditationFacts.acc_records_of_inv _ _ E i r Hin) as (row & _ & Hb & _).
    exact (proj1 (AccreditationFacts.build_record_inv _ _ Hb)).
  - intros wb name res H. unfold Permits.parse_workbook in H.
    destruct (Permits.parse_indexed wb) as [[[h columns] recs]|] eqn:E;
      cbn [bind] in H; [|discriminate].
    destruct (Permits.extract_year _ _); cbn [bind] in H; [|discriminate].
    injection H as <-. cbn [Permits.records]. apply Forall_forall. intros rec Hin.
    apply in_map_iff in Hin. destruct Hin as ([i r] & <- & Hin).
    destruct (PermitsFacts.permits_parse_indexed_inv _ _ _ _ E) as (_ & _ & Hrecs).
    destruct (Hrecs i r Hin) as (cells & _ & _ & _ & _ & Hk). exact Hk.
  - right. right. right. right. right. right. right. right. right. right. right. right.
    right. right. left. reflexivity.
  - right. right. right. right. right. right. right. right. right. right. right. right.
    right. right. right. left. reflexivity.
Qed.

(** C3: a row below the header row that is blank in all its columns, or
    whose identifying field is blank once cleaned (both programme names;
    the permit number), gives no record: its index is the index of no
    record.  The records of [parse_accredited_programmes] and of
    [parse_workbook] are those of [parse_indexed], without the indices. *)
Theorem drop_rule :
  (forall (wb : Accreditation.workbook) labels data recs,
     Accreditation.load_accredited_dataframe wb = Ok (labels, data) ->
     Accreditation.parse_indexed wb = Ok recs ->
     forall i cells, nth_error data i = Some cells ->
       let row := Accreditation.select_row
                    (Accreditation.select Accreditation.ACCREDITED_FIELD_ORDER
                       (map Accreditation.renamed labels)) cells in
       forallb scalar_isna cells = true
       \/ (exists vs ts ve te,
             Accreditation.attr (lit "programme_sq") row = Ok vs
             /\ Accreditation.clean_text (PScalar vs) = Ok ts /\ blank ts = true
             /\ Accreditation.attr (lit "programme_en") row = Ok ve
             /\ Accreditation.clean_text (PScalar ve) = Ok te /\ blank te = true) ->
       ~ In i (map fst recs))
  /\ (forall (wb : Permits.workbook) h columns recs,
        Permits.parse_indexed wb = Ok (h, columns, recs) ->
        forall i cells, nth_error (Permits.wb_rows wb) i = Some cells -> h < i ->
          let row := renamed_row
                       (Permits.header_columns 0 (nth h (Permits.wb_rows wb) [])) cells in
          forallb scalar_isna cells = true
          \/ blank (Permits.clean_text (Permits.row_get row (lit "permit_number"))) = true ->
          ~ In i (map fst recs)).
Proof.
  split.
  - intros wb labels data recs Hl Hp i cells Hc row Hblank Hin.
    apply in_map_iff in Hin. destruct Hin as ([j rec] & Hj & Hin). simpl in Hj. subst j.
    destruct (AccreditationFacts.acc_parse_indexed_inv wb labels data recs Hl Hp i rec Hin)
      as (row' & Hrow' & Hall & _ & Hb & Hf).
    destruct (AccreditationFacts.Forall2_in_r _ _ _ _
                (AccreditationFacts.filled_spec labels data) Hrow')
      as ([i' r] & Hsel & Hi & Hsame).
    cbn [fst snd] in Hi, Hsame. subst i'.
    assert (Hr : r = row).
    { assert (Hsel' : In (i, row) (selected labels data)).
      { unfold selected. apply index_from_in. split; [lia|].
        rewrite Nat.sub_0_r. apply map_nth_error. exact Hc. }
      refine (unique_row _ i r row _ Hsel Hsel').
      unfold selected. rewrite index_from_fst. apply seq_NoDup. }
    subst r. destruct Hblank as [Hblank | (vs & ts & ve & te & H1 & H2 & H3 & H4 & H5 & H6)].
    + rewrite (AccreditationFacts.same_but_cells (lit "institution")
                 [lit "programme_sq"; lit "programme_en"] _ _ Hsame eq_refl) in Hall.
      assert (Hna : forallb (fun c => scalar_isna (snd c)) row = true).
      { unfold row, Accreditation.select_row. apply forallb_forall. intros c Hcin.
        apply in_map_iff in Hcin. destruct Hcin as (fj & <- & _). cbn [snd].
        apply blank_row_nth. exact Hblank. }
      rewrite forallb_forall in Hna.
      assert (forallb (fun c => scalar_isna (snd c))
                (filter (Accreditation.in_subset [lit "programme_sq"; lit "programme_en"]) row)
              = true).
      { apply forallb_forall. intros c Hcin. apply filter_In in Hcin. apply Hna, Hcin. }
      congruence.
    + destruct (AccreditationFacts.build_record_inv _ _ Hb)
        as (_ & (vs' & ts' & E1 & E2 & E3) & (ve' & te' & E4 & E5 & E6)).
      rewrite (AccreditationFacts.same_but_attr (lit "institution") (lit "programme_sq")
                 _ _ Hsame eq_refl) in E1.
      rewrite (AccreditationFacts.same_but_attr (lit "institution") (lit "programme_en")
                 _ _ Hsame eq_refl) in E4.
      rewrite H1 in E1. injection E1 as <-. rewrite H2 in E2. injection E2 as <-.
      rewrite H4 in E4. injection E4 as <-. rewrite H5 in E5. injection E5 as <-.
      rewrite E3, E6, (blank_falsy _ H3), (blank_falsy _ H6) in Hf. discriminate.
  - intros wb h columns recs Hp i cells Hc Hlt row Hblank Hin.
    apply in_map_iff in Hin. destruct Hin as ([j rec] & Hj & Hin). simpl in Hj. subst j.
    destruct (PermitsFacts.permits_parse_indexed_inv _ _ _ _ Hp) as (_ & _ & Hrecs).
    destruct (Hrecs i rec Hin) as (cells' & Hc' & _ & Hna & Hbl & _).
    rewrite Hc in Hc'. injection Hc' as <-. fold row in Hna, Hbl.
    destruct Hblank as [Hblank|Hblank]; [|congruence].
    assert (Permits.all_na row = true); [|congruence].
    unfold Permits.all_na, row, renamed_row, data_row.
    apply forallb_forall. intros c Hcin.
    apply in_map_iff in Hcin. destruct Hcin as (d & <- & Hd).
    apply in_map_iff in Hd. destruct Hd as (lj & <- & _). cbn [snd].
    apply blank_row_nth. exact Hblank.
Qed.

Lemma indexed_records :
  (forall (wb : Accreditation.workbook) recs,
     Accreditation.parse_indexed wb = Ok recs ->
     Accreditation.parse_accredited_programmes wb = Ok (map snd recs))
  /\ (forall (wb : Permits.workbook) name res,
        Permits.parse_workbook wb name = Ok res ->
        exists h recs, Permits.parse_indexed wb = Ok (h, Permits.columns res, recs)
                       /\ Permits.records res = map snd recs).
Proof.
  split.
  - intros wb recs H. unfold Accreditation.parse_accredited_programmes. rewrite H. reflexivity.
  - intros wb name res H. unfold Permits.parse_workbook in H.
    destruct (Permits.parse_indexed wb) as [[[h columns] recs]|]; cbn [bind] in H; [|discriminate].
    destruct (Permits.extract_year _ _); cbn [bind] in H; [|discriminate].
    injection H as <-. exists h, recs. split; reflexivity.
Qed.

(** C10: a row whose institution is still missing after the forward fill
    gives no record, whatever its programme names. *)
Theorem null_institution_rows_dropped :
  forall (wb : Accreditation.workbook) labels data recs,
    Accreditation.load_accredited_dataframe wb = Ok (labels, data) ->
    Accreditation.parse_indexed wb = Ok recs ->
    forall i row, In (i, row) (filled labels data) ->
      (exists c, In c row /\ fst c = lit "institution" /\ scalar_isna (snd c) = true) ->
      ~ In i (map fst recs).
Proof.
  intros wb labels data recs Hl Hp i row Hrow (c & Hc & Hlabel & Hna) Hin.
  apply in_map_iff in Hin. destruct Hin as ([j rec] & Hj & Hin). simpl in Hj. subst j.
  destruct (AccreditationFacts.acc_parse_indexed_inv wb labels data recs Hl Hp i rec Hin)
    as (row' & Hrow' & _ & Hany & _).
  assert (row' = row)
    by exact (unique_row _ i row' row (AccreditationFacts.filled_index labels data) Hrow' Hrow).
  subst row'.
  assert (existsb (fun c => scalar_isna (snd c))
            (filter (Accreditation.in_subset [lit "institution"]) row) = true); [|congruence].
  apply existsb_exists. exists c. split; [|exact Hna].
  apply filter_In. split; [exact Hc|].
  unfold Accreditation.in_subset. rewrite Hlabel. reflexivity.
Qed.

(** ** Structural failures *)

Lemma acc_clean_text_scalar (c : scalar) : exists t, Accreditation.clean_text (PScalar c) = Ok t.
Proof.
  unfold Accreditation.clean_text, Accreditation.none_or_na.
  destruct (is_none (PScalar c)); cbn [isna_truth bind]; [eexists; reflexivity|].
  destruct (scalar_isna c); [eexists; reflexivity|].
  destruct (str_strip _); eexists; reflexivity.
Qed.

Lemma acc_find_header_none (idx : nat) (rows : list (list scalar)) :
  forallb (fun row => negb (marks_header row)) rows = true ->
  (Accreditation.find_header_from idx rows = Ok None
   \/ exists e, Accreditation.find_header_from idx rows = Raise e)
  /\ (forallb (fun row => negb (Nat.eqb (List.length row) 0)) rows = true ->
      Accreditation.find_header_from idx rows = Ok None).
Proof.
  revert idx. induction rows as [|row rows IH]; intros idx H.
  - split; [left|intros _]; reflexivity.
  - simpl in H. apply andb_true_iff in H. destruct H as [H1 H2].
    apply negb_true_iff in H1. destruct (IH (S idx) H2) as [IH1 IH2].
    cbn [Accreditation.find_header_from].
    destruct row as [|c row]; [split; [right; eexists; reflexivity|discriminate]|].
    cbn [Accreditation.first_cell_of bind]. unfold marks_header in H1.
    destruct (acc_clean_text_scalar c) as [t Ht]. rewrite Ht in *. cbn [bind].
    assert (E : match t with
                | Some (x :: u) =>
                    if str_contains (lit "institucioni") (str_lower (x :: u))
                    then Ok (Some idx) else Accreditation.find_header_from (S idx) rows
                | _ => Accreditation.find_header_from (S idx) rows
                end = Accreditation.find_header_from (S idx) rows).
    { destruct t as [[|x u]|]; try reflexivity. rewrite H1. reflexivity. }
    rewrite E. split; [exact IH1|]. intro Hne. apply IH2.
    simpl in Hne. exact Hne.
Qed.

(** C6: when no row passes the test for the header row, locating it
    raises (a ValueError that says so) and so does parsing, in both
    scripts; and when no column of the accreditation sheet resolves to the
    institution, parsing raises a ValueError that names the institution
    column.  Nothing is returned in either case. *)
Theorem structural_failures_raise :
  (forall frame : list (list scalar),
     forallb (fun row => negb (Permits.is_header_row row)) frame = true ->
     Permits.find_header_row frame = Raise Permits.header_not_found)
  /\ (forall (wb : Permits.workbook) (name : pystr),
        forallb (fun row => negb (Permits.is_header_row row)) (Permits.wb_rows wb) = true ->
        Permits.parse_workbook wb name = Raise Permits.header_not_found)
  /\ (forall wb : Accreditation.workbook,
        forallb (fun row => negb (marks_header row)) (Accreditation.wb_rows wb) = true ->
        (exists e, Accreditation.parse_accredited_programmes wb = Raise e)
        /\ (forallb (fun row => negb (Nat.eqb (List.length row) 0)) (Accreditation.wb_rows wb)
            = true ->
            Accreditation.parse_accredited_programmes wb
            = Raise (Accreditation.header_not_found (Accreditation.wb_name wb))))
  /\ (forall (wb : Accreditation.workbook) labels data,
        Accreditation.load_accredited_dataframe wb = Ok (labels, data) ->
        (forall c, In c labels -> Accreditation.rename_target c <> Some (lit "institution")) ->
        Accreditation.parse_accredited_programmes wb
        = Raise (Accreditation.no_institution (Accreditation.wb_name wb))).
Proof.
  repeat split.
  - intros frame H. apply PermitsFacts.find_header_from_none. exact H.
  - intros wb name H. unfold Permits.parse_workbook, Permits.parse_indexed,
      Permits.load_dataframe, Permits.find_header_row.
    rewrite (PermitsFacts.find_header_from_none 0 _ H). reflexivity.
  - destruct (acc_find_header_none 0 _ H) as [[E | [e E]] _];
      unfold Accreditation.parse_accredited_programmes, Accreditation.parse_indexed,
        Accreditation.load_accredited_dataframe; rewrite E; eexists; reflexivity.
  - intro Hne. destruct (acc_find_header_none 0 _ H) as [_ E].
    unfold Accreditation.parse_accredited_programmes, Accreditation.parse_indexed,
      Accreditation.load_accredited_dataframe. rewrite (E Hne). reflexivity.
  - intros wb labels data Hl Hno.
    unfold Accreditation.parse_accredited_programmes, Accreditation.parse_indexed.
    rewrite Hl. cbn [bind].
    assert (E : existsb (fun c => match Accreditation.rename_target c with
                                  | Some t => str_eqb t (lit "institution")
                                  | None => false
                                  end) labels = false).
    { destruct (existsb _ labels) eqn:E; [|reflexivity]. exfalso.
      apply existsb_exists in E. destruct E as (c & Hc & Ht).
      destruct (Accreditation.rename_target c) as [t|] eqn:Et; [|discriminate].
      apply str_eqb_eq in Ht. subst t. exact (Hno c Hc Et). }
    rewrite E. reflexivity.
Qed.

(** ** Column 0 *)

Lemma header_map_program_number (k : pystr) :
  match dict_get Accreditation.ACCREDITED_HEADER_MAP k with
  | Some (x :: t) => Some (x :: t)
  | _ => None
  end = Some (lit "program_number") <-> k = lit "nr".
Proof.
  split.
  - unfold Accreditation.ACCREDITED_HEADER_MAP. cbn [dict_get].
    repeat match goal with
    | |- context [str_eqb ?a k] =>
        let E := fresh "E" in destruct (str_eqb a k) eqn:E;
        [ first [ intros _; symmetry; apply str_eqb_eq; exact E
                | vm_compute; discriminate ] | ]
    end.
    discriminate.
  - intros ->. vm_compute. reflexivity.
Qed.

(** C9, as the code has it: in the permits script the first column of the
    header row is kept under the label # and renamed to permit_number,
    whatever its cell holds, and the first cell of every row of the frame
    is the cell of column 0; in the accreditation script no column is
    special: a column, the first one too, resolves to program_number
    exactly when its normalized label is nr. *)
Theorem column_zero_mapping :
  (forall (wb : Permits.workbook) data h columns positions,
     Permits.load_dataframe wb = Ok (data, h, columns, positions) ->
     (exists cs ps, columns = Permits.HASH :: cs /\ positions = 0 :: ps)
     /\ Permits.renamed Permits.HASH = lit "permit_number"
     /\ forall i row, In (i, row) data ->
          exists cells rest,
            nth_error (Permits.wb_rows wb) i = Some cells
            /\ row = (Permits.HASH, nth 0 cells Permits.NaN) :: rest)
  /\ (forall c : scalar,
        Accreditation.rename_target c = Some (lit "program_number")
        <-> Accreditation.normalize_header (PScalar c) = lit "nr").
Proof.
  split.
  - intros wb data h columns positions Hl.
    destruct (PermitsFacts.load_dataframe_inv _ _ _ _ _ Hl) as (Hh & Hc & Hp & _ & Hrows).
    destruct (PermitsFacts.find_header_from_some _ _ _ Hh) as [_ Hrow].
    rewrite Nat.sub_0_r in Hrow.
    destruct (PermitsFacts.header_row_nonempty _ Hrow) as (c & rest & Ehead).
    rewrite Ehead in *.
    destruct (PermitsFacts.header_columns_first c rest) as [cols Ecols].
    rewrite Ecols in *. repeat split.
    + exists (map fst cols), (map snd cols). subst. split; reflexivity.
    + intros i row Hin. destruct (Hrows i row Hin) as (cells & H1 & _ & H2 & _).
      exists cells. eexists. split; [exact H1|]. rewrite H2. reflexivity.
  - intro c. apply header_map_program_number.
Qed.

End WithRuntime.

(** ** The properties on the two workbooks *)

Import Samples.

Lemma accreditation_sample_parsed :
  Accreditation.parse_indexed (R := ReferenceRuntime.reference) accreditation_workbook
  = Ok accreditation_records.
Proof. vm_compute. reflexivity. Qed.

Lemma permits_sample_parsed :
  Permits.parse_indexed (R := ReferenceRuntime.reference) permits_workbook
  = Ok (1%nat, permits_columns, permits_records).
Proof. vm_compute. reflexivity. Qed.

Lemma permits_sample_result :
  Permits.parse_workbook (R := ReferenceRuntime.reference) permits_workbook
    (lit "building-permits-2024.xlsx")
  = Ok permits_result.
Proof. vm_compute. reflexivity. Qed.


Lemma record_completeness_witness :
  Forall (fun rec => dict_keys rec = Permits.FIELD_ORDER) (Permits.records permits_result).
Proof.
  apply (proj1 (proj2 (record_completeness (R := ReferenceRuntime.reference)))
           permits_workbook (lit "building-permits-2024.xlsx") permits_result).
  vm_compute. reflexivity.
Defined.

(** The row of blanks of the permits sheet (index 3) gives no record. *)
Lemma drop_rule_witness : ~ In 3 (map fst permits_records).
Proof.
  apply (proj2 (drop_rule (R := ReferenceRuntime.reference))
           permits_workbook 1 permits_columns permits_records
           permits_sample_parsed 3 (nth 3 permits_rows [])).
  - reflexivity.
  - lia.
  - left. reflexivity.
Defined.

(** The first programme of the accreditation sheet (index 0 below the
    header) has both names and no institution above it: no record. *)
Lemma null_institution_witness : ~ In 0 (map fst accreditation_records).
Proof.
  apply (null_institution_rows_dropped (R := ReferenceRuntime.reference)
           accreditation_workbook
           (@excel_columns ReferenceRuntime.reference (nth 1 accreditation_rows []))
           (skipn 2 accreditation_rows) accreditation_records
           eq_refl accreditation_sample_parsed 0
           [ (lit "institution", empty); (lit "program_number", number 1);
             (lit "programme_sq", text "Histori"); (lit "programme_en", text "History");
             (lit "campus", text "Peje"); (lit "level", text "BA"); (lit "ects", number 180);
             (lit "quota", number 30); (lit "accredited_until", empty) ]).
  - left. vm_compute. reflexivity.
  - exists (lit "institution", empty). split; [left; reflexivity|]. split; reflexivity.
Defined.

(** A sheet without header row. *)
Lemma structural_failures_witness :
  Permits.find_header_row (R := ReferenceRuntime.reference)
    [ [ text "Lista e lejeve" ]; [ text "1/24"; text "05/03/2024" ] ]
  = Raise Permits.header_not_found.
Proof.
  apply (proj1 (structural_failures_raise (R := ReferenceRuntime.reference))).
  vm_compute. reflexivity.
Defined.

(** C9 fails for the accreditation script: the first column of the header
    row of the sample is renamed to institution, not to program_number,
    which is the second column. *)
Lemma accreditation_column_zero_is_institution :
  map (Accreditation.renamed (R := ReferenceRuntime.reference))
      (firstn 2 (nth 1 accreditation_rows []))
  = [ SStr (lit "institution"); SStr (lit "program_number") ]
  /\ SStr (lit "institution") <> SStr (lit "program_number").
Proof. split; [vm_compute; reflexivity|discriminate]. Qed.

(** The frame of the permits sample: its first column is labelled #. *)
Lemma column_zero_witness :
  (exists cs ps, permits_columns = Permits.HASH :: cs /\ [0; 1; 2; 3; 4; 5; 6] = 0 :: ps).
Proof.
  refine (proj1 (proj1 (column_zero_mapping (R := ReferenceRuntime.reference))
           permits_workbook _ 1 permits_columns [0; 1; 2; 3; 4; 5; 6] _)).
  vm_compute. reflexivity.
Defined.

End PipelineFacts.

(** * Further facts: the examples of the specification, dates *)

Module ExampleFacts.
Import Py Re Val Ext Notions PyFacts CharFacts KeyFacts FoldFacts FrameFacts.
Local Open Scope N_scope.

Section WithRuntime.
Context {R : Runtime}.

(** When no other column is renamed to permit_number, the permit number of
    a row is the cell of column 0. *)
Lemma permit_number_is_column_zero (cols : list (pystr * nat)) (cells : list scalar) :
  filter (fun c => str_eqb (Permits.renamed (fst c)) (lit "permit_number")) cols
  = [(Permits.HASH, 0%nat)] ->
  Permits.row_get (renamed_row cols cells) (lit "permit_number")
  = PScalar (nth 0 cells Permits.NaN).
Proof.
  intro H. unfold Permits.row_get, renamed_row, data_row.
  assert (E : filter (fun c : pystr * scalar => str_eqb (fst c) (lit "permit_number"))
                (map (fun c : pystr * scalar => (Permits.renamed (fst c), snd c))
                   (map (fun lj : pystr * nat => (fst lj, nth (snd lj) cells Permits.NaN)) cols))
              = map (fun lj : pystr * nat =>
                       (Permits.renamed (fst lj), nth (snd lj) cells Permits.NaN))
                  (filter (fun c => str_eqb (Permits.renamed (fst c)) (lit "permit_number")) cols)).
  { clear H. induction cols as [|lj cols IH]; [reflexivity|].
    cbn [map filter fst snd]. rewrite IH.
    destruct (str_eqb (Permits.renamed (fst lj)) (lit "permit_number")); reflexivity. }
  rewrite E, H. reflexivity.
Qed.

(** Example 3 of the specification: the headers Lagjia and Lagja both
    resolve to neighbourhood. *)
Lemma header_to_field_lagjia :
  Permits.header_to_field (lit "Lagjia") = Some (lit "neighbourhood")
  /\ Permits.header_to_field (lit "Lagja") = Some (lit "neighbourhood").
Proof.
  assert (K1 : is_key (lit "lagjia")) by (split; [reflexivity|reflexivity|split; reflexivity]).
  assert (K2 : is_key (lit "lagja")) by (split; [reflexivity|reflexivity|split; reflexivity]).
  unfold Permits.header_to_field. split.
  - rewrite <- (permits_normalize_header_fold (lit "Lagjia")).
    change (map fold_letter (lit "Lagjia")) with (lit "lagjia").
    rewrite (permits_normalize_header_fixed _ K1). reflexivity.
  - rewrite <- (permits_normalize_header_fold (lit "Lagja")).
    change (map fold_letter (lit "Lagja")) with (lit "lagja").
    rewrite (permits_normalize_header_fixed _ K2). reflexivity.
Qed.

(** What the two date coercers return is the ISO form of a date. *)
Lemma parse_date_iso (v : pyval) (s : pystr) :
  Permits.parse_date v = Ok (Some s) -> exists d, s = date_isoformat d.
Proof.
  unfold Permits.parse_date. destruct (is_none v || is_nan_float v)%bool; [discriminate|].
  destruct (to_datetime true v) as [ts|]; cbn [bind]; [|discriminate].
  destruct (isna_truth ts) as [[|]|]; cbn [bind]; try discriminate.
  destruct ts as [[| | | | |d|]|]; cbn [timestamp_isoformat bind builtin_error];
    try discriminate.
  intro H. injection H as <-. exists d. reflexivity.
Qed.

Lemma format_date_iso (v : pyval) (s : pystr) :
  Accreditation.format_date v = Ok (Some s) -> exists d, s = date_isoformat d.
Proof.
  unfold Accreditation.format_date.
  destruct (Accreditation.none_or_na v) as [[|]|]; cbn [bind]; try discriminate.
  destruct (to_datetime false v) as [ts|]; cbn [bind]; [|discriminate].
  destruct (isna_truth ts) as [[|]|]; cbn [bind]; try discriminate.
  destruct ts as [[| | | | |d|]|]; cbn [timestamp_isoformat bind builtin_error];
    try discriminate.
  intro H. injection H as <-. exists d. reflexivity.
Qed.

End WithRuntime.

(** The ISO form of a date of the calendar: four digits, a dash, two
    digits, a dash, two digits. *)
Definition iso_shaped (s : pystr) : bool :=
  match s with
  | [y1; y2; y3; y4; 45; m1; m2; 45; d1; d2] =>
      forallb is_ascii_digit [y1; y2; y3; y4; m1; m2; d1; d2]
  | _ => false
  end.

Lemma zero_pad_4_digits (y : N) :
  y < 10000 ->
  exists a b c d, zero_pad 4 y = [a; b; c; d] /\ forallb is_ascii_digit [a; b; c; d] = true.
Proof.
  intro Hy.
  assert (H : forall y, y < 10000 ->
            match zero_pad 4 y with
            | [a; b; c; d] => forallb is_ascii_digit [a; b; c; d]
            | _ => false
            end = true)
    by (apply (below_forall 10000); vm_compute; reflexivity).
  specialize (H y Hy).
  destruct (zero_pad 4 y) as [|a [|b [|c [|d [|]]]]]; try discriminate.
  exists a, b, c, d. split; [reflexivity|exact H].
Qed.

Lemma zero_pad_2_digits (m : N) :
  m < 100 -> exists a b, zero_pad 2 m = [a; b] /\ forallb is_ascii_digit [a; b] = true.
Proof.
  intro Hm.
  assert (H : forall m, m < 100 ->
            match zero_pad 2 m with
            | [a; b] => forallb is_ascii_digit [a; b]
            | _ => false
            end = true)
    by (apply (below_forall 100); vm_compute; reflexivity).
  specialize (H m Hm).
  destruct (zero_pad 2 m) as [|a [|b [|]]]; try discriminate.
  exists a, b. split; [reflexivity|exact H].
Qed.

Lemma date_isoformat_shape (d : datetime) :
  (0 <= dt_year d < 10000)%Z -> (0 <= dt_month d < 100)%Z -> (0 <= dt_day d < 100)%Z ->
  iso_shaped (date_isoformat d) = true.
Proof.
  intros Hy Hm Hd. unfold date_isoformat, two_digits.
  destruct (zero_pad_4_digits (Z.to_N (dt_year d)) ltac:(lia)) as (y1 & y2 & y3 & y4 & -> & Ey).
  destruct (zero_pad_2_digits (Z.to_N (dt_month d)) ltac:(lia)) as (m1 & m2 & -> & Em).
  destruct (zero_pad_2_digits (Z.to_N (dt_day d)) ltac:(lia)) as (d1 & d2 & -> & Ed).
  cbn [app iso_shaped forallb] in *.
  repeat (apply andb_true_iff in Ey; destruct Ey as [? Ey]).
  repeat (apply andb_true_iff in Em; destruct Em as [? Em]).
  repeat (apply andb_true_iff in Ed; destruct Ed as [? Ed]).
  repeat match goal with H : is_ascii_digit _ = true |- _ => rewrite H; clear H end.
  reflexivity.
Qed.

(** Example 5 of the specification, with the runtime to compute with: the
    em dash becomes a dash between blanks and the words get a capital. *)
Lemma normalize_destination_example :
  Permits.normalize_destination (R := ReferenceRuntime.reference)
    (PScalar (SStr (lit "banesa " ++ [8212] ++ lit " afariste")))
  = Some (lit "Banesa - Afariste").
Proof. vm_compute. reflexivity. Qed.

End ExampleFacts.

(** * The names of the columns *)

Module ColumnFacts.
Import Py Val Ext Notions PyFacts.
Local Open Scope Z_scope.

Lemma column_letter_loop_value (fuel : nat) (idx : Z) (acc : pystr) :
  0 <= idx < Z.of_nat fuel ->
  fold_left (fun a c => a * 26 + (Z.of_N c - 64)) (Permits.column_letter_loop fuel idx acc) 0
  = fold_left (fun a c => a * 26 + (Z.of_N c - 64)) acc (idx + 1).
Proof.
  revert idx acc. induction fuel as [|fuel IH]; intros idx acc H; [lia|].
  cbn [Permits.column_letter_loop].
  destruct (Z.leb_spec 0 idx) as [_|Hn]; [|lia].
  assert (Hm := Z.mod_pos_bound idx 26 ltac:(lia)).
  assert (Hd := Z.div_mod idx 26 ltac:(lia)).
  destruct (Z.lt_ge_cases idx 26) as [Hs|Hl].
  - assert (E : idx / 26 = 0) by (apply Z.div_small; lia).
    rewrite E. replace (idx mod 26) with idx by lia.
    change (0 - 1) with (-1).
    destruct fuel as [|fuel]; cbn [Permits.column_letter_loop];
      try change (0 <=? -1) with false; cbn [fold_left]; f_equal; rewrite Z2N.id by lia; lia.
  - assert (Hq : 1 <= idx / 26) by (apply Z.div_le_lower_bound; lia).
    assert (Hq' : idx / 26 <= idx) by (apply Z.div_le_upper_bound; lia).
    rewrite IH by lia. cbn [fold_left]. f_equal. rewrite Z2N.id by lia. lia.
Qed.

Lemma column_letter_loop_upper (fuel : nat) (idx : Z) (acc : pystr) :
  forallb is_ascii_upper acc = true ->
  forallb is_ascii_upper (Permits.column_letter_loop fuel idx acc) = true.
Proof.
  revert idx acc. induction fuel as [|fuel IH]; intros idx acc H; [exact H|].
  cbn [Permits.column_letter_loop].
  destruct (Z.leb_spec 0 idx) as [Hp|_]; [|exact H].
  apply IH. cbn [forallb]. rewrite H, andb_true_r.
  assert (Hm := Z.mod_pos_bound idx 26 ltac:(lia)).
  unfold is_ascii_upper, in_range. apply andb_true_iff. split; apply N.leb_le; lia.
Qed.

(** X1: [excel_column_letter] refuses a negative index and gives every
    other one a name made of capital letters, of which it is the index
    again: two columns never have the same name.  The first names are
    A, Z, AA, ZZ, AAA. *)
Theorem excel_column_letter_names :
  (forall p : positive,
     Permits.excel_column_letter (Z.neg p)
     = Raise (Exn ValueError (lit "Column index must be non-negative")))
  /\ (forall n : N, exists name,
        Permits.excel_column_letter (Z.of_N n) = Ok name
        /\ name <> []
        /\ forallb is_ascii_upper name = true
        /\ column_index name = Z.of_N n)
  /\ map Permits.excel_column_letter [0; 25; 26; 701; 702]
     = map Ok [lit "A"; lit "Z"; lit "AA"; lit "ZZ"; lit "AAA"].
Proof.
  split; [intro p; reflexivity|]. split; [|vm_compute; reflexivity].
  intro n. unfold Permits.excel_column_letter.
  destruct (Z.ltb_spec (Z.of_N n) 0) as [H|_]; [lia|].
  eexists. split; [reflexivity|].
  assert (V : column_index (Permits.column_letter_loop (S (Z.to_nat (Z.of_N n))) (Z.of_N n) [])
              = Z.of_N n).
  { unfold column_index. rewrite column_letter_loop_value by lia. cbn [fold_left]. lia. }
  split; [|split; [apply column_letter_loop_upper; reflexivity|exact V]].
  intro E. rewrite E in V. unfold column_index in V. cbn in V. lia.
Qed.

End ColumnFacts.

(** * What the cleaners return *)

Module ShapeFacts.
Import Py Re Val Ext Notions PyFacts ReFacts CharFacts KeyFacts CleanerFacts.
Local Open Scope N_scope.

Lemma length_rstrip_by (p : codepoint -> bool) (s : pystr) :
  (List.length (rstrip_by p s) <= List.length s)%nat.
Proof.
  unfold rstrip_by. rewrite length_rev.
  pose proof (length_drop_while p (rev s)) as H. rewrite length_rev in H. exact H.
Qed.

Lemma trimmed_ends (p : codepoint -> bool) (s : pystr) : trimmed p s -> ends_free p s.
Proof.
  intros [H1 H2]. split.
  - intros c t ->. destruct (p c) eqn:E; [|reflexivity]. exfalso.
    simpl in H1. rewrite E in H1.
    pose proof (length_drop_while p t) as L. rewrite H1 in L. cbn [List.length] in L. lia.
  - intros t c ->. destruct (p c) eqn:E; [|reflexivity]. exfalso.
    rewrite (rstrip_by_snoc_drop p t c E) in H2.
    pose proof (length_rstrip_by p t) as L. rewrite H2, length_app in L.
    cbn [List.length] in L. lia.
Qed.

Lemma single_blanks_only (s : pystr) : single CSpace 32 s = true -> blanks_only s.
Proof.
  induction s as [|c s IH]; intros H d Hd Hs; [destruct Hd|].
  cbn [single] in H. apply andb_true_iff in H. destruct H as [H1 H2].
  destruct Hd as [<-|Hd]; [|exact (IH H2 d Hd Hs)].
  cbn [cls_match] in H1. rewrite Hs in H1. apply andb_true_iff in H1.
  apply cp_eqb_eq, H1.
Qed.

Lemma single_no_double_blank (s : pystr) : single CSpace 32 s = true -> no_double_blank s.
Proof.
  unfold no_double_blank. induction s as [|c s IH]; intro H; [reflexivity|].
  cbn [single] in H. apply andb_true_iff in H. destruct H as [H1 H2].
  cbn [str_contains]. rewrite (IH H2), orb_false_r.
  cbn [startswith]. destruct (cp_eqb 32 c) eqn:Ec; [|reflexivity].
  apply cp_eqb_eq in Ec. subst c. cbn [cls_match] in H1.
  change (py_isspace 32) with true in H1. cbn [andb cp_eqb] in H1.
  destruct s as [|d s]; [reflexivity|].
  destruct (cp_eqb 32 d) eqn:Ed; [|reflexivity].
  apply cp_eqb_eq in Ed. subst d. discriminate H1.
Qed.

Lemma sub_from_forallb (q : codepoint -> bool) (p : pattern) (repl : pystr) (k : nat)
  (s : pystr) :
  forallb q repl = true -> forallb q s = true -> forallb q (sub_from p repl k s) = true.
Proof.
  intro Hr. revert k. induction s as [|c s IH]; intros k H; [reflexivity|].
  cbn [forallb] in H. apply andb_true_iff in H. destruct H as [Hc Hs].
  cbn [sub_from]. destruct k as [|k]; [|apply IH, Hs].
  destruct (match_len p (c :: s)) as [[|n]|].
  - cbn [forallb]. rewrite Hc. apply IH, Hs.
  - rewrite forallb_app, Hr. apply IH, Hs.
  - cbn [forallb]. rewrite Hc. apply IH, Hs.
Qed.

Lemma sub_forallb (q : codepoint -> bool) (p : pattern) (repl s : pystr) :
  forallb q repl = true -> forallb q s = true -> forallb q (sub p repl s) = true.
Proof. apply sub_from_forallb. Qed.

(** The blanks of a text whose white space is collapsed. *)
Definition plain_blank (c : codepoint) : bool := implb (py_isspace c) (cp_eqb c 32).

Lemma single_plain_blank (s : pystr) :
  single CSpace 32 s = true -> forallb plain_blank s = true.
Proof.
  intro H. apply forallb_forall. intros c Hc. unfold plain_blank.
  destruct (py_isspace c) eqn:E; [|reflexivity]. cbn [implb].
  apply cp_eqb_eq. exact (single_blanks_only s H c Hc E).
Qed.

Lemma plain_blank_blanks_only (s : pystr) : forallb plain_blank s = true -> blanks_only s.
Proof.
  intros H c Hc Hs. rewrite forallb_forall in H. specialize (H c Hc).
  unfold plain_blank in H. rewrite Hs in H. apply cp_eqb_eq, H.
Qed.

Section WithRuntime.
Context {R : Runtime}.

(** X6: what both [normalize_header] return is made of lower-case
    letters, digits and blanks only, neither starts nor ends with a blank
    and has no two blanks in a row. *)
Theorem normalize_header_alphabet (v : pyval) :
  (forallb is_key_char (Accreditation.normalize_header v) = true
   /\ ends_free py_isspace (Accreditation.normalize_header v)
   /\ no_double_blank (Accreditation.normalize_header v))
  /\ (forallb is_key_char (Permits.normalize_header v) = true
      /\ ends_free py_isspace (Permits.normalize_header v)
      /\ no_double_blank (Permits.normalize_header v)).
Proof.
  pose proof (acc_normalize_header_key v) as [A1 A2 A3].
  pose proof (permits_normalize_header_key v) as [P1 P2 P3].
  repeat split;
    try apply single_no_double_blank; try assumption;
    try (apply trimmed_ends; assumption).
Qed.

(** X7: a text that the cleaner of the accreditation script returns is not
    empty, neither starts nor ends with white space, and its white space
    is made of single blanks. *)
Theorem acc_clean_text_shape (v : pyval) (s : pystr) :
  Accreditation.clean_text v = Ok (Some s) ->
  s <> [] /\ ends_free py_isspace s /\ blanks_only s /\ no_double_blank s.
Proof.
  unfold Accreditation.clean_text.
  destruct (Accreditation.none_or_na v) as [[|]|e]; cbn [bind]; try discriminate.
  destruct (str_strip (py_str v)) as [|c t] eqn:E; [discriminate|].
  intro H. injection H as <-.
  change (sub (pat [plus CSpace]) Accreditation.SP (c :: t)) with (collapse (c :: t)).
  assert (Hs : single CSpace 32 (collapse (c :: t)) = true)
    by (apply sub_plus_single; reflexivity).
  split; [apply collapse_nonempty|].
  split; [apply trimmed_ends, collapse_trimmed; rewrite <- E; apply strip_by_trimmed|].
  split; [apply single_blanks_only, Hs|apply single_no_double_blank, Hs].
Qed.

(** X8: a text that the cleaner of the permits script returns is not
    empty, neither starts nor ends with a blank, a comma or a quote, and
    its white space is made of blanks: no line break is left. *)
Theorem permits_clean_text_shape (v : pyval) (s : pystr) :
  Permits.clean_text v = Some s ->
  s <> []
  /\ ends_free (mem_cp [32; Permits.COMMA; Permits.QUOTE; Permits.APOS]) s
  /\ blanks_only s.
Proof.
  unfold Permits.clean_text.
  destruct (is_none v || is_nan_float v)%bool; [discriminate|].
  destruct (str_strip (py_str v)) as [|c t]; [discriminate|].
  set (t0 := str_replace Permits.CR Permits.NL _).
  set (t1 := sub (pat [plus (CSet Permits.NL false)]) _ t0).
  set (t2 := sub (pat [plus CSpace]) Permits.SP t1).
  assert (H2 : forallb plain_blank t2 = true)
    by (apply single_plain_blank, sub_plus_single; reflexivity).
  clearbody t2. clear t0 t1.
  match goal with |- match str_strip_chars ?cs ?u with _ => _ end = _ -> _ =>
    assert (Hu : forallb plain_blank u = true)
      by (repeat (apply sub_forallb; [reflexivity|]); exact H2);
    pose proof (strip_by_trimmed (mem_cp cs) u) as Ht;
    pose proof (forallb_strip_by plain_blank (mem_cp cs) u Hu) as Hq;
    change (strip_by (mem_cp cs) u) with (str_strip_chars cs u) in Ht, Hq;
    destruct (str_strip_chars cs u) as [|d w]; [discriminate|]
  end.
  intro H. injection H as <-.
  split; [discriminate|]. split; [apply trimmed_ends, Ht|apply plain_blank_blanks_only, Hq].
Qed.

End WithRuntime.

End ShapeFacts.

(** * The texts the cleaner of the permits script keeps *)

Module TidyFacts.
Import Py Re Val Ext Notions PyFacts ReFacts CharFacts KeyFacts CleanerFacts ShapeFacts.
Local Open Scope N_scope.

Lemma ends_free_trimmed (p : codepoint -> bool) (s : pystr) : ends_free p s -> trimmed p s.
Proof.
  intros [H1 H2]. split.
  - destruct s as [|c t]; [reflexivity|]. apply drop_while_head. exact (H1 c t eq_refl).
  - induction s as [|c t _] using rev_ind; [reflexivity|].
    apply rstrip_by_snoc. exact (H2 t c eq_refl).
Qed.

Lemma blanks_single (s : pystr) :
  blanks_only s -> no_double_blank s -> single CSpace 32 s = true.
Proof.
  unfold no_double_blank. induction s as [|c s IH]; intros Hb Hd; [reflexivity|].
  cbn [str_contains] in Hd. apply orb_false_iff in Hd. destruct Hd as [Hd1 Hd2].
  cbn [single]. rewrite IH; [|intros d Hin; apply Hb; right; exact Hin|exact Hd2].
  rewrite andb_true_r. cbn [cls_match].
  destruct (py_isspace c) eqn:Ec; [|reflexivity].
  assert (c = 32) by (apply Hb; [left; reflexivity|exact Ec]). subst c.
  cbn [cp_eqb N.eqb Pos.eqb andb].
  destruct s as [|d s]; [reflexivity|].
  destruct (py_isspace d) eqn:Ed; [|reflexivity].
  assert (d = 32) by (apply Hb; [right; left; reflexivity|exact Ed]). subst d.
  discriminate Hd1.
Qed.

Lemma absent_avoids (x : codepoint) (cs : pystr) (s : pystr) :
  mem_cp cs x = true ->
  forallb (fun c => negb (mem_cp cs c)) s = true -> avoids (CChar x) s = true.
Proof.
  intros Hx H. unfold avoids. rewrite forallb_forall in *. intros c Hc.
  specialize (H c Hc). cbn [cls_match]. destruct (cp_eqb c x) eqn:E; [|reflexivity].
  apply cp_eqb_eq in E. subst c. rewrite Hx in H. discriminate H.
Qed.

Lemma blanks_only_absent (x : codepoint) (s : pystr) :
  py_isspace x = true -> x <> 32 -> blanks_only s ->
  forallb (fun c => negb (cp_eqb x c)) s = true.
Proof.
  intros Hx Hn Hb. apply forallb_forall. intros c Hc.
  destruct (cp_eqb x c) eqn:E; [|reflexivity].
  apply cp_eqb_eq in E. subst c. exfalso. apply Hn. apply Hb; assumption.
Qed.

Section WithRuntime.
Context {R : Runtime}.

Lemma permits_clean_text_tidy (s : pystr) :
  tidy s -> Permits.clean_text (PScalar (SStr s)) = Some s.
Proof.
  intros (Hne & He & Hb & Hd & Ha).
  pose proof (ends_free_trimmed _ _ He) as Ht.
  pose proof (blanks_single _ Hb Hd) as Hs.
  unfold Permits.clean_text. cbn [is_none is_nan_float orb py_str].
  unfold str_strip. rewrite (strip_by_of_trimmed _ _ Ht).
  destruct s as [|c o]; [contradiction|]. set (s := c :: o) in *.
  unfold Permits.CR, Permits.NL. cbn [app].
  rewrite (replace_absent 13 [10] [10] s)
    by (apply blanks_only_absent; [reflexivity|discriminate|exact Hb]).
  rewrite (replace_absent 13 [] [10] s)
    by (apply blanks_only_absent; [reflexivity|discriminate|exact Hb]).
  rewrite (sub_avoids (CSet [10] false) _ _ s);
    [|apply mandatory_here; right; reflexivity|].
  2:{ unfold avoids. apply forallb_forall. intros d Hin. cbn [cls_match mem_cp existsb].
      cbn [andb]. rewrite !orb_false_r.
      destruct (cp_eqb d 10) eqn:E; [|reflexivity].
      apply cp_eqb_eq in E. subst d. exfalso.
      assert (X : 10 = 32) by (apply Hb; [exact Hin|reflexivity]). discriminate X. }
  change Permits.SP with [32].
  rewrite (single_sub_id CSpace 32 s Hs).
  assert (Hcomma : avoids (CChar Permits.COMMA) s = true)
    by (apply (absent_avoids Permits.COMMA [Permits.COMMA; Permits.QUOTE; Permits.APOS] s eq_refl Ha)).
  assert (Hapos : avoids (CChar Permits.APOS) s = true)
    by (apply (absent_avoids Permits.APOS [Permits.COMMA; Permits.QUOTE; Permits.APOS] s eq_refl Ha)).
  assert (Hquote : avoids (CChar Permits.QUOTE) s = true)
    by (apply (absent_avoids Permits.QUOTE [Permits.COMMA; Permits.QUOTE; Permits.APOS] s eq_refl Ha)).
  rewrite (sub_avoids (CChar Permits.COMMA) _ _ s);
    [|apply mandatory_here; left; reflexivity|exact Hcomma].
  rewrite (sub_avoids (CChar Permits.COMMA) _ _ s);
    [|apply mandatory_later, mandatory_here; left; reflexivity|exact Hcomma].
  rewrite (sub_avoids (CChar Permits.COMMA) _ _ s);
    [|apply mandatory_here; left; reflexivity|exact Hcomma].
  rewrite (sub_avoids (CChar Permits.APOS) _ _ s);
    [|apply mandatory_here; left; reflexivity|exact Hapos].
  rewrite (sub_avoids (CChar Permits.QUOTE) _ _ s);
    [|apply mandatory_here; left; reflexivity|exact Hquote].
  rewrite (sub_avoids (CChar Permits.APOS) _ _ s);
    [|apply mandatory_here; left; reflexivity|exact Hapos].
  rewrite (sub_avoids (CChar Permits.QUOTE) _ _ s);
    [|apply mandatory_here; left; reflexivity|exact Hquote].
  unfold str_strip_chars. rewrite strip_by_of_trimmed; [reflexivity|].
  apply (trimmed_weaken py_isspace); [|exact Ht].
  intros d Hin Hm. rewrite forallb_forall in Ha. specialize (Ha d Hin).
  cbn [mem_cp existsb] in Hm, Ha. rewrite orb_false_r in Hm, Ha.
  destruct (cp_eqb d 32) eqn:E; [apply cp_eqb_eq in E; subst d; reflexivity|].
  cbn [orb] in Hm. rewrite Hm in Ha. discriminate Ha.
Qed.

(** X9: the cleaner of the permits script returns unchanged a text that is
    not empty, has no comma and no quote, and whose white space is made of
    single blanks inside it. *)
Theorem permits_clean_text_fixed (s : pystr) :
  tidy s -> Permits.clean_text (PScalar (SStr s)) = Some s.
Proof. apply permits_clean_text_tidy. Qed.

End WithRuntime.

(** A text is tidy when the checks for it compute to true. *)
Lemma tidy_check (s : pystr) :
  s <> [] -> trimmed py_isspace s -> single CSpace 32 s = true ->
  forallb (fun c => negb (mem_cp [Permits.COMMA; Permits.QUOTE; Permits.APOS] c)) s = true ->
  tidy s.
Proof.
  intros H1 H2 H3 H4. split; [exact H1|]. split; [apply trimmed_ends, H2|].
  split; [apply single_blanks_only, H3|]. split; [apply single_no_double_blank, H3|exact H4].
Qed.

End TidyFacts.

(** * The reference of the document *)

Module DocumentFacts.
Import Py Re Val Ext Notions PyFacts ReFacts CharFacts KeyFacts CleanerFacts ShapeFacts TidyFacts.
Local Open Scope N_scope.






Section WithRuntime.
Context {R : Runtime}.

(** X10: what [normalize_document_reference] returns is not empty and does
    not begin with a colon, a dash or a blank. *)
Theorem document_reference_shape (v : pyval) (s : pystr) :
  Permits.normalize_document_reference v = Some s ->
  exists c t, s = c :: t /\ mem_cp [Permits.COLON; Permits.DASH; 32] c = false.
Proof.
  unfold Permits.normalize_document_reference.
  destruct (Permits.clean_text v) as [[|x u]|]; try discriminate.
  unfold str_lstrip_chars, lstrip_by.
  match goal with |- match drop_while ?p ?u with _ => _ end = _ -> _ =>
    pose proof (drop_while_not_head p u) as H; destruct (drop_while p u) as [|c t]
  end; [discriminate|].
  intro E. injection E as <-. exists c, t. split; [reflexivity|].
  apply negb_true_iff, H.
Qed.


End WithRuntime.

End DocumentFacts.

(** * Integers *)

Module NumberFacts.
Import Py Val Ext Notions PyFacts CoercerFacts.
Local Open Scope Z_scope.

Lemma digits2_pos_bounds (m : positive) :
  2 ^ (Z.pos (digits2_pos m) - 1) <= Z.pos m < 2 ^ Z.pos (digits2_pos m).
Proof.
  induction m as [m IH|m IH|]; cbn [digits2_pos]; [| |cbn; lia];
    rewrite Pos2Z.inj_succ;
    replace (Z.succ (Z.pos (digits2_pos m)) - 1) with (Z.succ (Z.pos (digits2_pos m) - 1)) by lia;
    rewrite !Z.pow_succ_r by lia; lia.
Qed.

Lemma iter_xO_value (m k : positive) : Z.pos (Pos.iter xO m k) = Z.pos m * 2 ^ Z.pos k.
Proof.
  induction k as [|k IH] using Pos.peano_ind.
  - cbn. lia.
  - rewrite Pos.iter_succ, Pos2Z.inj_succ, Z.pow_succ_r by lia.
    rewrite Pos2Z.inj_xO, IH. lia.
Qed.

Lemma iter_xO_digits (m k : positive) :
  Z.pos (digits2_pos (Pos.iter xO m k)) = Z.pos (digits2_pos m) + Z.pos k.
Proof.
  induction k as [|k IH] using Pos.peano_ind.
  - cbn [Pos.iter digits2_pos]. lia.
  - rewrite Pos.iter_succ. cbn [digits2_pos]. rewrite !Pos2Z.inj_succ, IH. lia.
Qed.

(** A mantissa of 53 digits with an exponent between -52 and 0 is its own
    rounding. *)
Lemma binary_round_aux_exact (s : bool) (mz : positive) (ez : Z) :
  Z.pos (digits2_pos mz) = 53 -> -52 <= ez <= 0 ->
  binary_round_aux 53 1024 s (Z.pos mz) ez loc_Exact = S754_finite s mz ez.
Proof.
  intros Hd He. unfold binary_round_aux, shr_fexp, fexp, emin.
  cbn [Zdigits2 shr_record_of_loc]. rewrite Hd.
  replace (Z.max (53 + ez - 53) (3 - 1024 - 53) - ez) with 0 by lia.
  cbn [shr shr_m loc_of_shr_record round_nearest_even Zdigits2 shr_record_of_loc].
  rewrite Hd.
  replace (Z.max (53 + ez - 53) (3 - 1024 - 53) - ez) with 0 by lia.
  cbn [shr shr_m].
  destruct (Z.leb_spec ez (1024 - 53)) as [_|H]; [reflexivity|lia].
Qed.

Lemma binary_round_small (s : bool) (m : positive) :
  Z.pos m < 2 ^ 53 ->
  exists mz ez, binary_round 53 1024 s m 0 = S754_finite s mz ez
                /\ -52 <= ez <= 0 /\ Z.pos mz = Z.pos m * 2 ^ (- ez).
Proof.
  intro Hm. pose proof (digits2_pos_bounds m) as [Hlo Hhi].
  assert (Hd : Z.pos (digits2_pos m) <= 53).
  { destruct (Z.le_gt_cases (Z.pos (digits2_pos m)) 53) as [H|H]; [exact H|exfalso].
    assert (2 ^ 53 <= 2 ^ (Z.pos (digits2_pos m) - 1)) by (apply Z.pow_le_mono_r; lia).
    lia. }
  unfold binary_round, shl_align, fexp, emin.
  replace (Z.max (Z.pos (digits2_pos m) + 0 - 53) (3 - 1024 - 53) - 0)
    with (Z.pos (digits2_pos m) - 53) by lia.
  replace (Z.max (Z.pos (digits2_pos m) + 0 - 53) (3 - 1024 - 53))
    with (Z.pos (digits2_pos m) - 53) by lia.
  destruct (Z.pos (digits2_pos m) - 53) as [|p|p] eqn:E; [|lia|].
  - exists m, 0. rewrite binary_round_aux_exact by lia.
    split; [reflexivity|]. split; [lia|]. cbn. lia.
  - exists (Pos.iter xO m p), (Z.neg p).
    rewrite binary_round_aux_exact; [|rewrite iter_xO_digits; lia|lia].
    split; [reflexivity|]. split; [lia|]. rewrite iter_xO_value. reflexivity.
Qed.

Lemma round_to_int_scaled (s : bool) (m mz : positive) (ez : Z) :
  -52 <= ez <= 0 -> Z.pos mz = Z.pos m * 2 ^ (- ez) ->
  PyFloat.round_to_int (S754_finite s mz ez) = Ok (if s then Z.neg m else Z.pos m).
Proof.
  intros He Hv. unfold PyFloat.round_to_int.
  assert (Hp : 0 < 2 ^ (- ez)) by (apply Z.pow_pos_nonneg; lia).
  destruct (Z.leb_spec 0 ez) as [H0|H0].
  - assert (ez = 0) by lia. subst ez. change (2 ^ (- 0)) with 1 in Hv.
    rewrite Z.mul_1_r in Hv. injection Hv as ->.
    change (2 ^ 0) with 1. rewrite Z.mul_1_r. destruct s; reflexivity.
  - unfold PyFloat.round_half_even_ratio. rewrite Hv.
    rewrite Z.div_mul by lia. rewrite Z.mod_mul by lia.
    replace (2 * 0) with 0 by lia.
    destruct (Z.compare_spec 0 (2 ^ (- ez))) as [H|H|H]; try lia.
    destruct s; reflexivity.
Qed.

Section WithRuntime.
Context {R : Runtime}.

(** X13: [to_int] returns for every cell, and an integer cell below 2^53 in
    magnitude is returned as it is. *)
Theorem to_int_of_int :
  (forall x : scalar, exists n, Accreditation.to_int (PScalar x) = Ok n)
  /\ (forall z : Z,
        Z.abs z < 2 ^ 53 -> Accreditation.to_int (PScalar (SInt z)) = Ok (Some z)).
Proof.
  split; [exact to_int_total|].
  intros z Hz. unfold Accreditation.to_int.
  cbn [Accreditation.none_or_na is_none isna_truth scalar_isna bind py_float].
  unfold PyFloat.float_of_int, PyFloat.prec, PyFloat.emax, binary_normalize.
  destruct z as [|m|m].
  - reflexivity.
  - destruct (binary_round_small false m ltac:(lia)) as (mz & ez & -> & He & Hv).
    cbn [PyFloat.is_finite bind]. rewrite (round_to_int_scaled false m mz ez He Hv).
    reflexivity.
  - destruct (binary_round_small true m ltac:(lia)) as (mz & ez & -> & He & Hv).
    cbn [PyFloat.is_finite bind]. rewrite (round_to_int_scaled true m mz ez He Hv).
    reflexivity.
Qed.

End WithRuntime.

End NumberFacts.

(** * Decimals *)

Module DecimalFacts.
Import Py Val Ext Notions PyFacts CoercerFacts.
Local Open Scope py_scope.

Lemma rsplit1_cases (c : codepoint) (s : pystr) :
  (exists t, rsplit1 c s = [t] /\ str_count_char c s = 0)
  \/ (exists a b, rsplit1 c s = [a; b] /\ 0 < str_count_char c s).
Proof.
  unfold str_count_char. induction s as [|x s IH].
  - left. exists []. split; reflexivity.
  - cbn [rsplit1 filter]. rewrite (N.eqb_sym c x : cp_eqb c x = cp_eqb x c).
    destruct IH as [(t & -> & Hc) | (a & b & -> & Hc)].
    + destruct (cp_eqb x c).
      * right. exists [], t. split; [reflexivity|]. cbn [List.length]. lia.
      * left. exists (x :: t). split; [reflexivity|exact Hc].
    + right. exists (x :: a), b. split; [reflexivity|].
      destruct (cp_eqb x c); cbn [List.length]; lia.
Qed.

Lemma round_2_overflow (f : spec_float) (e : exn) :
  PyFloat.round_2 f = Raise e -> exn_cls e = OverflowError.
Proof.
  unfold PyFloat.round_2. destruct f as [| | |s m ex]; try discriminate.
  destruct (if Z.leb 0 ex then _ else _) as [|p|p]; try discriminate.
  destruct (PyFloat.is_finite _); [discriminate|].
  intro H. injection H as <-. reflexivity.
Qed.

Lemma float_of_int_overflow (z : Z) (e : exn) :
  PyFloat.float_of_int z = Raise e -> exn_cls e = OverflowError.
Proof.
  unfold PyFloat.float_of_int. destruct (PyFloat.is_finite _); [discriminate|].
  intro H. injection H as <-. reflexivity.
Qed.

Lemma float_of_str_value_error (decimal : codepoint -> option N) (s : pystr) (e : exn) :
  PyFloat.float_of_str decimal s = Raise e -> exn_cls e = ValueError.
Proof.
  unfold PyFloat.float_of_str.
  destruct (PyFloat.drop_underscores _ _) as [u|]; [|intro H; injection H as <-; reflexivity].
  destruct (match u with 45%N :: r => _ | 43%N :: r => _ | _ => _ end) as [neg body].
  destruct (PyFloat.unsigned_float neg body); [discriminate|].
  intro H. injection H as <-. reflexivity.
Qed.

Section WithRuntime.
Context {R : Runtime}.

(** The part of [parse_decimal] for what is not a number. *)
Lemma parse_decimal_text (v : pyval) :
  (is_none v || is_nan_float v)%bool = false -> Permits.is_number v = false ->
  (forall e, Permits.parse_decimal v = Raise e -> exn_cls e = OverflowError)
  /\ (forall f, Permits.parse_decimal v = Ok (Some f) -> f <> PyFloat.neg_zero).
Proof.
  intros Hn Hi. unfold Permits.parse_decimal. rewrite Hn, Hi.
  destruct (py_str v) as [|c t]; [split; intros; discriminate|].
  set (text := str_replace [Permits.COMMA] [Permits.DOT] _). clearbody text.
  assert (T : forall text' : pystr,
            let m :=
              (r <- try_except
                      (number <- PyFloat.float_of_str unicode_decimal text' ;; Ok (Some number))
                      [ValueError] (Ok None) ;;
               match r with
               | None => Ok None
               | Some number =>
                   rounded <- PyFloat.round_2 number ;;
                   let rounded := if PyFloat.float_eqb rounded PyFloat.neg_zero
                                  then PyFloat.pos_zero else rounded in
                   Ok (Some rounded)
               end)%py in
            (forall e, m = Raise e -> exn_cls e = OverflowError)
            /\ (forall f, m = Ok (Some f) -> f <> PyFloat.neg_zero)).
  { intro text'. cbv zeta.
    destruct (PyFloat.float_of_str unicode_decimal text') as [number|e0] eqn:Ef;
      cbn [bind try_except].
    - destruct (PyFloat.round_2 number) as [rounded|e1] eqn:Er; cbn [bind].
      + split; [intros; discriminate|]. intros f H. cbv zeta in H. injection H as <-.
        destruct rounded as [[|]| | |]; try (vm_compute; discriminate);
          destruct (PyFloat.float_eqb _ _); discriminate.
      + split; [|intros; discriminate]. intros e H. injection H as <-.
        exact (round_2_overflow _ _ Er).
    - rewrite (float_of_str_value_error _ _ _ Ef). cbn.
      split; intros; discriminate. }
  destruct (Nat.ltb 1 (str_count_char Permits.DOT text)) eqn:Ec.
  - destruct (rsplit1_cases Permits.DOT text) as [(t' & _ & Hc) | (a & b & -> & _)].
    + apply Nat.ltb_lt in Ec. lia.
    + cbn [Permits.unpack2 bind]. apply T.
  - cbn [bind]. apply T.
Qed.

(** X14: the only exception [parse_decimal] raises on a cell is
    OverflowError (a text that is not a number gives None, and splitting
    on the last dot never fails), and what it makes of a text is never the
    negative zero. *)
Theorem parse_decimal_exceptions :
  (forall (x : scalar) (e : exn),
     Permits.parse_decimal (PScalar x) = Raise e -> exn_cls e = OverflowError)
  /\ (forall (s : pystr) (f : spec_float),
        Permits.parse_decimal (PScalar (SStr s)) = Ok (Some f) -> f <> PyFloat.neg_zero).
Proof.
  split.
  - intros x e. destruct x as [| b | z | f | s | d |].
    + discriminate.
    + destruct b; vm_compute; discriminate.
    + unfold Permits.parse_decimal.
      cbn [is_none is_nan_float orb Permits.is_number py_float].
      destruct (PyFloat.float_of_int z) as [y|e0] eqn:Ef; cbn [bind].
      * destruct (PyFloat.round_2 y) as [r|e1] eqn:Er; cbn [bind]; [discriminate|].
        intro H. injection H as <-. exact (round_2_overflow _ _ Er).
      * intro H. injection H as <-. exact (float_of_int_overflow _ _ Ef).
    + unfold Permits.parse_decimal.
      cbn [is_none is_nan_float orb Permits.is_number py_float].
      destruct (PyFloat.is_nan f); [discriminate|]. cbn [bind].
      destruct (PyFloat.round_2 f) as [r|e1] eqn:Er; cbn [bind]; [discriminate|].
      intro H. injection H as <-. exact (round_2_overflow _ _ Er).
    + apply (parse_decimal_text (PScalar (SStr s))); reflexivity.
    + apply (parse_decimal_text (PScalar (SDatetime d))); reflexivity.
    + apply (parse_decimal_text (PScalar SNaT)); reflexivity.
  - intros s. apply (parse_decimal_text (PScalar (SStr s))); reflexivity.
Qed.

End WithRuntime.

End DecimalFacts.

(** * The fields of a permit *)

Module RecordFacts.
Import Py Val Ext Notions PyFacts FrameFacts.

Lemma dict_get_set_same {V : Type} (d : dict V) (k : pystr) (v : V) :
  dict_get (dict_set d k v) k = Some v.
Proof.
  induction d as [|[k' v'] d IH]; cbn [dict_set dict_get].
  - rewrite str_eqb_refl. reflexivity.
  - destruct (str_eqb k' k) eqn:E; cbn [dict_get]; rewrite E; [reflexivity|exact IH].
Qed.

Lemma dict_get_set_other {V : Type} (d : dict V) (k k' : pystr) (v : V) :
  str_eqb k k' = false -> dict_get (dict_set d k v) k' = dict_get d k'.
Proof.
  intro H. induction d as [|[k0 v0] d IH]; cbn [dict_set dict_get].
  - rewrite H. reflexivity.
  - destruct (str_eqb k0 k) eqn:E; cbn [dict_get].
    + apply str_eqb_eq in E. subst k0. rewrite H. reflexivity.
    + rewrite IH. reflexivity.
Qed.

Section WithRuntime.
Context {R : Runtime}.
Import Permits.

Lemma build_field_other (row : list (pystr * scalar)) (rec rec' : record) (g f : pystr) :
  build_field row rec g = Ok rec' -> str_eqb g f = false ->
  dict_get rec' f = dict_get rec f.
Proof.
  intros H Hf. unfold build_field in H.
  destruct (str_in [lit "document_url"; lit "situation_url"] g).
  { injection H as <-. reflexivity. }
  destruct (str_in TEXT_FIELDS g).
  { destruct (str_eqb g (lit "destination"));
      [|destruct (str_eqb g (lit "neighbourhood"));
        [|destruct (str_eqb g (lit "document_reference"))]];
      injection H as <-; apply dict_get_set_other, Hf. }
  destruct (str_in NUMERIC_FIELDS g).
  { destruct (parse_decimal _); cbn [bind] in H; [|discriminate].
    injection H as <-. apply dict_get_set_other, Hf. }
  destruct (str_in DATE_FIELDS g).
  { destruct (parse_date _); cbn [bind] in H; [|discriminate].
    injection H as <-. apply dict_get_set_other, Hf. }
  injection H as <-. apply dict_get_set_other, Hf.
Qed.

Lemma build_fields_other (row : list (pystr * scalar)) (fields : list pystr)
  (rec rec' : record) (f : pystr) :
  build_fields row rec fields = Ok rec' ->
  forallb (fun g => negb (str_eqb g f)) fields = true ->
  dict_get rec' f = dict_get rec f.
Proof.
  revert rec. induction fields as [|g fields IH]; intros rec H Hf.
  - injection H as <-. reflexivity.
  - cbn [build_fields] in H. cbn [forallb] in Hf. apply andb_true_iff in Hf.
    destruct Hf as [Hg Hf]. apply negb_true_iff in Hg.
    destruct (build_field row rec g) as [r|] eqn:E; cbn [bind] in H; [|discriminate].
    rewrite (IH _ H Hf). exact (build_field_other _ _ _ _ _ E Hg).
Qed.

Lemma build_fields_app (row : list (pystr * scalar)) (pre post : list pystr)
  (rec rec' : record) :
  build_fields row rec (pre ++ post) = Ok rec' ->
  exists r, build_fields row rec pre = Ok r /\ build_fields row r post = Ok rec'.
Proof.
  revert rec. induction pre as [|g pre IH]; intros rec H.
  - exists rec. split; [reflexivity|exact H].
  - cbn [app build_fields] in H |- *.
    destruct (build_field row rec g) as [r|]; cbn [bind] in H |- *; [|discriminate].
    exact (IH _ H).
Qed.

(** The permit number and the destination that the loop of [build_record]
    stores. *)
Lemma build_fields_values (row : list (pystr * scalar)) (rec : record) :
  build_fields row [] FIELD_ORDER = Ok rec ->
  dict_get rec (lit "permit_number")
  = Some (j_text (clean_text (row_get row (lit "permit_number"))))
  /\ dict_get rec (lit "destination")
     = Some (j_text (normalize_destination (row_get row (lit "destination")))).
Proof.
  intro H. split.
  - change FIELD_ORDER with ([lit "permit_number"] ++ skipn 1 FIELD_ORDER) in H.
    apply build_fields_app in H. destruct H as (r & H1 & H2).
    injection H1 as <-.
    rewrite (build_fields_other _ _ _ _ (lit "permit_number") H2) by reflexivity.
    apply dict_get_here.
  - change FIELD_ORDER with (firstn 12 FIELD_ORDER ++ [lit "destination"]
                             ++ skipn 13 FIELD_ORDER) in H.
    apply build_fields_app in H. destruct H as (r0 & _ & H).
    apply build_fields_app in H. destruct H as (r1 & H1 & H2).
    injection H1 as <-.
    rewrite (build_fields_other _ _ _ _ (lit "destination") H2) by reflexivity.
    apply dict_get_set_same.
Qed.

Lemma normalize_destination_nonempty (v : pyval) :
  normalize_destination v <> Some [].
Proof.
  unfold normalize_destination, normalize_inline_separators.
  destruct (clean_text v) as [[|c t]|]; try discriminate.
  destruct (str_strip_chars _ _); [discriminate|].
  destruct (smart_title_case _); discriminate.
Qed.

(** X15: [build_record] keeps the destination of the row when there is
    one; when there is none, it takes the comment of the row for it if it
    is asked to (the sheet has no column for the destination), and leaves
    it empty otherwise. *)
Theorem destination_rule (row : list (pystr * scalar)) (flag : bool) (rec : record) :
  build_record row flag = Ok rec ->
  let given := normalize_destination (row_get row (lit "destination")) in
  let commented :=
    match clean_text (row_get row (lit "comment")) with
    | Some c => normalize_destination (PScalar (SStr c))
    | None => None
    end in
  (forall d, given = Some d -> dict_get rec (lit "destination") = Some (JStr d))
  /\ (given = None ->
      dict_get rec (lit "destination") = Some (j_text (if flag then commented else None))).
Proof.
  unfold build_record. intro H.
  destruct (build_fields row [] FIELD_ORDER) as [r|] eqn:E; cbn [bind] in H; [|discriminate].
  destruct (build_fields_values _ _ E) as [_ Hd]. cbv zeta.
  pose proof (normalize_destination_nonempty (row_get row (lit "destination"))) as Hne.
  destruct (normalize_destination (row_get row (lit "destination"))) as [d|] eqn:Eg.
  - split; [|discriminate]. intros d' Ed. injection Ed as <-.
    rewrite Hd in H. destruct d as [|x t]; [contradiction|].
    cbn [j_text j_falsy] in H. rewrite andb_false_r in H. cbn [andb] in H.
    injection H as <-. exact Hd.
  - split; [discriminate|]. intros _. rewrite Hd in H. cbn [j_text j_falsy andb] in H.
    rewrite andb_true_r in H. destruct flag; cbn [andb] in H.
    + destruct (clean_text (row_get row (lit "comment"))) as [[|c t]|] eqn:Ec;
        cbn [blank negb] in H.
      * injection H as <-. rewrite Hd.
        unfold normalize_destination, normalize_inline_separators.
        assert (X : clean_text (PScalar (SStr [])) = None) by reflexivity.
        rewrite X. reflexivity.
      * pose proof (normalize_destination_nonempty (PScalar (SStr (c :: t)))) as Hn.
        destruct (normalize_destination (PScalar (SStr (c :: t)))) as [[|x u]|];
          [contradiction| |]; injection H as <-.
        -- apply dict_get_set_same.
        -- exact Hd.
      * injection H as <-. exact Hd.
    + injection H as <-. exact Hd.
Qed.

End WithRuntime.

End RecordFacts.

(** * The order of the records *)

Module RowFacts.
Import Py Val Ext Notions PyFacts FrameFacts RecordFacts.

Lemma sorted_seq (a n : nat) : StronglySorted lt (seq a n).
Proof.
  revert a. induction n as [|n IH]; intro a; cbn [seq]; constructor; [apply IH|].
  apply Forall_forall. intros x Hx. apply in_seq in Hx. lia.
Qed.

Lemma sorted_filter_fst {A : Type} (p : nat * A -> bool) (rows : list (nat * A)) :
  StronglySorted lt (map fst rows) -> StronglySorted lt (map fst (filter p rows)).
Proof.
  induction rows as [|r rows IH]; intro H; [constructor|].
  cbn [map] in H. apply StronglySorted_inv in H. destruct H as [H1 H2].
  cbn [filter]. destruct (p r); [|exact (IH H1)].
  cbn [map]. constructor; [exact (IH H1)|].
  rewrite Forall_forall in *. intros x Hx. apply H2.
  apply in_map_iff in Hx. destruct Hx as (y & <- & Hy). apply filter_In in Hy.
  apply in_map. apply Hy.
Qed.

Lemma sorted_skipn (n : nat) (l : list nat) :
  StronglySorted lt l -> StronglySorted lt (skipn n l).
Proof.
  revert l. induction n as [|n IH]; intros l H; [exact H|].
  destruct l as [|x l]; [constructor|]. cbn [skipn]. apply IH.
  apply StronglySorted_inv in H. apply H.
Qed.

(** A list of indices taken in order from another. *)
Lemma sorted_sub (l l' : list nat) (x : nat) :
  StronglySorted lt (x :: l) -> StronglySorted lt l' -> incl l' l ->
  StronglySorted lt (x :: l').
Proof.
  intros H H' Hi. apply StronglySorted_inv in H. destruct H as [_ H].
  constructor; [exact H'|]. rewrite Forall_forall in *. intros y Hy. apply H, Hi, Hy.
Qed.

Section WithRuntime.
Context {R : Runtime}.

(** ** The accreditation script *)

Lemma acc_records_of_order (rows : list Accreditation.frame_row) (recs : list (nat * record)) :
  Accreditation.records_of rows = Ok recs ->
  StronglySorted lt (map fst rows) ->
  StronglySorted lt (map fst recs) /\ incl (map fst recs) (map fst rows)
  /\ List.length recs <= List.length rows.
Proof.
  revert recs. induction rows as [|[j row] rows IH]; intros recs H Hs.
  - injection H as <-. repeat split; [constructor|apply incl_refl|apply le_n].
  - cbn [Accreditation.records_of] in H.
    destruct (Accreditation.build_record row) as [r|]; cbn [bind] in H; [|discriminate].
    destruct (Accreditation.records_of rows) as [tail|]; cbn [bind] in H; [|discriminate].
    cbn [map] in Hs. pose proof (StronglySorted_inv Hs) as [Hs1 _].
    destruct (IH tail eq_refl Hs1) as (I1 & I2 & I3).
    destruct (_ && _)%bool; injection H as <-; cbn [map List.length].
    + repeat split; [exact I1|apply incl_tl, I2|lia].
    + repeat split; [exact (sorted_sub _ _ _ Hs I1 I2)| |lia].
      apply incl_cons; [left; reflexivity|apply incl_tl, I2].
Qed.

Lemma kept_rows_sorted (labels : list scalar) (data : list (list scalar)) :
  StronglySorted lt (map fst (Accreditation.kept_rows labels data))
  /\ incl (map fst (Accreditation.kept_rows labels data)) (seq 0 (List.length data))
  /\ List.length (Accreditation.kept_rows labels data) <= List.length data.
Proof.
  rewrite AccreditationFacts.kept_rows_eq.
  pose proof (AccreditationFacts.Forall2_fst _ _ _ (AccreditationFacts.filled_spec labels data))
    as E.
  unfold selected in E. rewrite index_from_fst, length_map in E.
  unfold Accreditation.dropna_any, Accreditation.dropna_all.
  split; [|split].
  - do 2 apply sorted_filter_fst. rewrite E. apply sorted_seq.
  - rewrite <- E. intros i Hi. do 2 apply filter_fst_sub in Hi. exact Hi.
  - eapply Nat.le_trans; [apply filter_length_le|].
    eapply Nat.le_trans; [apply filter_length_le|].
    rewrite <- (length_map fst), E, length_seq. apply le_n.
Qed.

(** ** The permits script *)

Lemma permits_records_of_values (sheet : pystr -> result Permits.ws_cell)
  (pdf_col situation_col : option Z) (destination_present : bool)
  (rows : list Permits.frame_row) (recs : list (nat * record)) :
  Permits.records_of sheet pdf_col situation_col destination_present rows = Ok recs ->
  forall i rec, In (i, rec) recs ->
    exists row r doc sit,
      In (i, row) rows
      /\ blank (Permits.clean_text (Permits.row_get row (lit "permit_number"))) = false
      /\ Permits.build_record row (negb destination_present) = Ok r
      /\ Permits.extract_hyperlink sheet pdf_col (Z.of_nat i + 1) = Ok doc
      /\ Permits.extract_hyperlink sheet situation_col (Z.of_nat i + 1) = Ok sit
      /\ rec = dict_set (dict_set r (lit "document_url") (j_text doc))
                        (lit "situation_url") (j_text sit).
Proof.
  revert recs. induction rows as [|[j row] rows IH]; intros recs H i rec Hin.
  - injection H as <-. destruct Hin.
  - cbn [Permits.records_of] in H.
    destruct (Permits.all_na row) eqn:Ena.
    { destruct (IH _ H i rec Hin) as (row' & r & doc & sit & H1 & H2).
      exists row', r, doc, sit. split; [right|]; assumption. }
    destruct (blank (Permits.clean_text (Permits.row_get row (lit "permit_number")))) eqn:Ebl.
    { destruct (IH _ H i rec Hin) as (row' & r & doc & sit & H1 & H2).
      exists row', r, doc, sit. split; [right|]; assumption. }
    destruct (Permits.build_record row (negb destination_present)) as [r|] eqn:Er;
      cbn [bind] in H; [|discriminate].
    destruct (Permits.extract_hyperlink sheet pdf_col _) as [doc|] eqn:Ed;
      cbn [bind] in H; [|discriminate].
    destruct (Permits.extract_hyperlink sheet situation_col _) as [sit|] eqn:Es;
      cbn [bind] in H; [|discriminate].
    destruct (Permits.records_of sheet pdf_col situation_col destination_present rows)
      as [tail|] eqn:Et; cbn [bind] in H; [|discriminate].
    injection H as <-. destruct Hin as [Hin|Hin].
    + injection Hin as <- <-. exists row, r, doc, sit.
      repeat split; try assumption; [left; reflexivity].
    + destruct (IH _ eq_refl i rec Hin) as (row' & r' & doc' & sit' & H1 & H2).
      exists row', r', doc', sit'. split; [right|]; assumption.
Qed.

Lemma permits_records_of_order (sheet : pystr -> result Permits.ws_cell)
  (pdf_col situation_col : option Z) (destination_present : bool)
  (rows : list Permits.frame_row) (recs : list (nat * record)) :
  Permits.records_of sheet pdf_col situation_col destination_present rows = Ok recs ->
  StronglySorted lt (map fst rows) ->
  StronglySorted lt (map fst recs) /\ incl (map fst recs) (map fst rows).
Proof.
  revert recs. induction rows as [|[j row] rows IH]; intros recs H Hs.
  - injection H as <-. split; [constructor|apply incl_refl].
  - cbn [map] in Hs. pose proof (StronglySorted_inv Hs) as [Hs1 _].
    cbn [Permits.records_of] in H.
    destruct (Permits.all_na row).
    { destruct (IH _ H Hs1) as [I1 I2]. split; [exact I1|apply incl_tl, I2]. }
    destruct (blank _).
    { destruct (IH _ H Hs1) as [I1 I2]. split; [exact I1|apply incl_tl, I2]. }
    destruct (Permits.build_record row _) as [r|]; cbn [bind] in H; [|discriminate].
    destruct (Permits.extract_hyperlink sheet pdf_col _) as [doc|];
      cbn [bind] in H; [|discriminate].
    destruct (Permits.extract_hyperlink sheet situation_col _) as [sit|];
      cbn [bind] in H; [|discriminate].
    destruct (Permits.records_of sheet pdf_col situation_col destination_present rows)
      as [tail|]; cbn [bind] in H; [|discriminate].
    injection H as <-. destruct (IH _ eq_refl Hs1) as [I1 I2]. cbn [map]. split.
    + exact (sorted_sub _ _ _ Hs I1 I2).
    + apply incl_cons; [left; reflexivity|apply incl_tl, I2].
Qed.

(** X16: the records come in the order of the rows of the sheet, one at
    most for a row below the header row. *)
Theorem records_in_row_order :
  (forall (wb : Accreditation.workbook) labels data recs,
     Accreditation.load_accredited_dataframe wb = Ok (labels, data) ->
     Accreditation.parse_indexed wb = Ok recs ->
     StronglySorted lt (map fst recs)
     /\ (forall i, In i (map fst recs) -> i < List.length data)
     /\ List.length recs <= List.length data)
  /\ (forall (wb : Permits.workbook) h columns recs,
        Permits.parse_indexed wb = Ok (h, columns, recs) ->
        StronglySorted lt (map fst recs)
        /\ (forall i, In i (map fst recs) -> h < i < List.length (Permits.wb_rows wb))).
Proof.
  split.
  - intros wb labels data recs Hl H. unfold Accreditation.parse_indexed in H.
    rewrite Hl in H. cbn [bind] in H.
    destruct (negb (existsb _ labels)); [discriminate|].
    destruct (filter _ Accreditation.ACCREDITED_FIELD_ORDER); [|discriminate].
    destruct (kept_rows_sorted labels data) as (K1 & K2 & K3).
    destruct (acc_records_of_order _ _ H K1) as (I1 & I2 & I3).
    split; [exact I1|]. split; [|lia].
    intros i Hi. apply I2, K2, in_seq in Hi. lia.
  - intros wb h columns recs H. unfold Permits.parse_indexed in H.
    destruct (Permits.load_dataframe wb) as [[[[data h'] columns'] positions]|] eqn:El;
      cbn [bind] in H; [|discriminate].
    destruct (Permits.records_of _ _ _ _ _) as [recs'|] eqn:Er; cbn [bind] in H; [|discriminate].
    injection H as <- <- <-.
    assert (Hd : StronglySorted lt (map fst data)
                 /\ forall i, In i (map fst data) -> h' < i < List.length (Permits.wb_rows wb)).
    { unfold Permits.load_dataframe in El.
      destruct (Permits.find_header_row (Permits.wb_rows wb)) as [hh|];
        cbn [bind] in El; [|discriminate].
      remember (skipn (S hh) (Permits.index_from 0 (Permits.wb_rows wb))) as below eqn:Eb.
      injection El as <- <- _ _.
      assert (Ef : map fst below = skipn (S hh) (seq 0 (List.length (Permits.wb_rows wb)))).
      { subst below. rewrite permits_index_from_eq, skipn_index_from, index_from_fst.
        rewrite length_skipn, skipn_seq. reflexivity. }
      unfold Permits.dropna_all. split.
      - apply sorted_filter_fst. rewrite map_map. cbn [fst].
        change (map (fun x : nat * list scalar => fst x) below) with (map fst below).
        rewrite Ef. apply sorted_skipn, sorted_seq.
      - intros i Hi. apply filter_fst_sub in Hi. rewrite map_map in Hi. cbn [fst] in Hi.
        change (map (fun x : nat * list scalar => fst x) below) with (map fst below) in Hi.
        rewrite Ef, skipn_seq in Hi. apply in_seq in Hi. lia. }
    destruct Hd as [Hd1 Hd2].
    destruct (permits_records_of_order _ _ _ _ _ _ Er) as [I1 I2].
    { rewrite map_map. exact Hd1. }
    split; [exact I1|]. intros i Hi. apply Hd2. apply I2 in Hi.
    rewrite map_map in Hi. exact Hi.
Qed.

End WithRuntime.

End RowFacts.

(** * What a record holds *)

Module IdentityFacts.
Import Py Val Ext Notions PyFacts FrameFacts RecordFacts RowFacts.

Lemma j_text_truthy (t : option pystr) :
  j_falsy (Some (j_text t)) = false -> exists x u, t = Some (x :: u).
Proof. destruct t as [[|x u]|]; try discriminate. intros _. exists x, u. reflexivity. Qed.

Section WithRuntime.
Context {R : Runtime}.

(** X17: every record of the accreditation script has the name of its
    programme in one language at least, and every record of the permits
    script has a permit number; they are texts that are not empty. *)
Theorem records_identified :
  (forall (wb : Accreditation.workbook) (recs : list record),
     Accreditation.parse_accredited_programmes wb = Ok recs ->
     Forall (fun rec =>
               (exists x t, dict_get rec (lit "programme_sq") = Some (JStr (x :: t)))
               \/ (exists x t, dict_get rec (lit "programme_en") = Some (JStr (x :: t))))
            recs)
  /\ (forall (wb : Permits.workbook) (name : pystr) (res : Permits.WorkbookParseResult),
        Permits.parse_workbook wb name = Ok res ->
        Forall (fun rec => exists x t, dict_get rec (lit "permit_number") = Some (JStr (x :: t)))
               (Permits.records res)).
Proof.
  split.
  - intros wb recs H. unfold Accreditation.parse_accredited_programmes in H.
    destruct (Accreditation.parse_indexed wb) as [irecs|] eqn:Ep; cbn [bind] in H; [|discriminate].
    injection H as <-. apply Forall_forall. intros rec Hin.
    apply in_map_iff in Hin. destruct Hin as ([i rec'] & E & Hin). cbn [snd] in E. subst rec'.
    unfold Accreditation.parse_indexed in Ep.
    destruct (Accreditation.load_accredited_dataframe wb) as [[labels data]|];
      cbn [bind] in Ep; [|discriminate].
    destruct (negb (existsb _ labels)); [discriminate|].
    destruct (filter _ Accreditation.ACCREDITED_FIELD_ORDER); [|discriminate].
    destruct (AccreditationFacts.acc_records_of_inv _ _ Ep i rec Hin) as (row & _ & Hb & Hf).
    destruct (AccreditationFacts.build_record_inv _ _ Hb)
      as (_ & (v1 & t1 & _ & _ & E1) & (v2 & t2 & _ & _ & E2)).
    rewrite E1, E2 in Hf. apply andb_false_iff in Hf. destruct Hf as [Hf|Hf];
      apply j_text_truthy in Hf; destruct Hf as (x & u & ->); [left|right];
      exists x, u; assumption.
  - intros wb name res H. unfold Permits.parse_workbook in H.
    destruct (Permits.parse_indexed wb) as [[[h columns] irecs]|] eqn:Ep;
      cbn [bind] in H; [|discriminate].
    destruct (Permits.extract_year _ _); cbn [bind] in H; [|discriminate].
    injection H as <-. cbn [Permits.records]. apply Forall_forall. intros rec Hin.
    apply in_map_iff in Hin. destruct Hin as ([i rec'] & E & Hin). cbn [snd] in E. subst rec'.
    unfold Permits.parse_indexed in Ep.
    destruct (Permits.load_dataframe wb) as [[[[data h'] columns'] positions]|];
      cbn [bind] in Ep; [|discriminate].
    destruct (Permits.records_of _ _ _ _ _) as [recs'|] eqn:Er; cbn [bind] in Ep; [|discriminate].
    injection Ep as <- <- <-.
    destruct (permits_records_of_values _ _ _ _ _ _ Er i rec Hin)
      as (row & r & doc & sit & _ & Hbl & Hb & _ & _ & ->).
    rewrite !dict_get_set_other by reflexivity.
    unfold Permits.build_record in Hb.
    destruct (Permits.build_fields row [] Permits.FIELD_ORDER) as [r0|] eqn:E0;
      cbn [bind] in Hb; [|discriminate].
    destruct (build_fields_values _ _ E0) as [Hpn _].
    assert (Hr : dict_get r (lit "permit_number") = dict_get r0 (lit "permit_number")).
    { destruct (_ && _ && _)%bool; [|injection Hb as <-; reflexivity].
      destruct (Permits.normalize_destination _) as [[|x t]|]; injection Hb as <-;
        try reflexivity.
      apply dict_get_set_other. reflexivity. }
    rewrite Hr, Hpn.
    destruct (Permits.clean_text (Permits.row_get row (lit "permit_number"))) as [[|x t]|];
      try discriminate.
    exists x, t. reflexivity.
Qed.

(** X18: the two links of a record are what [extract_hyperlink] finds in
    the row of the record (the Excel row is the index of the row plus
    one), in the first column whose header has pdf in it for the document
    and in the first whose header begins with situacioni for the
    situation. *)
Theorem record_links (wb : Permits.workbook) (h : nat) (columns : list pystr)
  (recs : list (nat * record)) :
  Permits.parse_indexed wb = Ok (h, columns, recs) ->
  let cols := Permits.header_columns 0 (nth h (Permits.wb_rows wb) []) in
  let pdf := Permits.first_position (str_contains (lit "pdf")) (map fst cols) (map snd cols) in
  let situation :=
    Permits.first_position (startswith (lit "situacioni")) (map fst cols) (map snd cols) in
  forall i rec, In (i, rec) recs ->
    exists doc sit,
      Permits.extract_hyperlink (Permits.wb_sheet wb) pdf (Z.of_nat i + 1) = Ok doc
      /\ dict_get rec (lit "document_url") = Some (j_text doc)
      /\ Permits.extract_hyperlink (Permits.wb_sheet wb) situation (Z.of_nat i + 1) = Ok sit
      /\ dict_get rec (lit "situation_url") = Some (j_text sit).
Proof.
  intro H. cbv zeta. intros i rec Hin. unfold Permits.parse_indexed in H.
  destruct (Permits.load_dataframe wb) as [[[[data h'] columns'] positions]|] eqn:El;
    cbn [bind] in H; [|discriminate].
  destruct (Permits.records_of _ _ _ _ _) as [recs'|] eqn:Er; cbn [bind] in H; [|discriminate].
  injection H as <- <- <-.
  destruct (PermitsFacts.load_dataframe_inv _ _ _ _ _ El) as (_ & Hc & Hp & _).
  rewrite Hc, Hp in Er.
  destruct (permits_records_of_values _ _ _ _ _ _ Er i rec Hin)
    as (row & r & doc & sit & _ & _ & _ & Hd & Hs & ->).
  exists doc, sit. split; [exact Hd|]. split; [|split; [exact Hs|]].
  - rewrite dict_get_set_other by reflexivity. apply dict_get_set_same.
  - apply dict_get_set_same.
Qed.

End WithRuntime.

End IdentityFacts.

(** * The header row and the columns *)

Module HeaderFacts.
Import Py Val Ext Notions PyFacts FrameFacts RecordFacts RowFacts ShapeFacts.

Lemma dict_get_in {V : Type} (d : dict V) (k : pystr) (v : V) :
  dict_get d k = Some v -> In v (map snd d).
Proof.
  induction d as [|[k' v'] d IH]; [discriminate|]. cbn [dict_get map snd].
  destruct (str_eqb k' k); [intro H; injection H as <-; left; reflexivity|].
  intro H. right. exact (IH H).
Qed.

Lemma str_in_In (xs : list pystr) (x : pystr) : Permits.str_in xs x = true -> In x xs.
Proof.
  unfold Permits.str_in. intro H. apply existsb_exists in H.
  destruct H as (y & Hy & E). apply str_eqb_eq in E. subst y. exact Hy.
Qed.

Lemma str_in_incl (xs ys : list pystr) :
  forallb (Permits.str_in ys) xs = true -> incl xs ys.
Proof.
  intros H x Hx. rewrite forallb_forall in H. apply str_in_In, H, Hx.
Qed.

Lemma if_some_cases {A : Type} (b : bool) (x y : A) (o : option A) :
  (if b then Some x else o) = Some y -> x = y \/ o = Some y.
Proof. destruct b; [intro H; injection H as <-; left; reflexivity|right; assumption]. Qed.

Section WithRuntime.
Context {R : Runtime}.

Lemma permits_find_header_first (idx h : nat) (rows : list (list scalar)) :
  Permits.find_header_from idx rows = Ok h ->
  idx <= h /\ h - idx < List.length rows
  /\ Permits.is_header_row (nth (h - idx) rows []) = true
  /\ forall i, i < h - idx -> Permits.is_header_row (nth i rows []) = false.
Proof.
  revert idx. induction rows as [|row rows IH]; intros idx H; [discriminate|].
  cbn [Permits.find_header_from] in H. destruct (Permits.is_header_row row) eqn:E.
  - injection H as <-. rewrite Nat.sub_diag. cbn [List.length nth].
    repeat split; [lia|lia|exact E|]. intros i Hi. lia.
  - destruct (IH _ H) as (H1 & H2 & H3 & H4).
    replace (h - idx) with (S (h - S idx)) by lia. cbn [List.length nth].
    repeat split; [lia|lia|exact H3|].
    intros [|i] Hi; [exact E|]. apply H4. lia.
Qed.

Lemma acc_find_header_first (idx h : nat) (rows : list (list scalar)) :
  Accreditation.find_header_from idx rows = Ok (Some h) ->
  idx <= h /\ h - idx < List.length rows
  /\ marks_header (nth (h - idx) rows []) = true
  /\ forall i, i < h - idx -> marks_header (nth i rows []) = false.
Proof.
  revert idx. induction rows as [|row rows IH]; intros idx H; [discriminate|].
  cbn [Accreditation.find_header_from] in H.
  destruct row as [|c row]; [discriminate|]. cbn [Accreditation.first_cell_of bind] in H.
  destruct (Accreditation.clean_text (PScalar c)) as [t|] eqn:Et; cbn [bind] in H;
    [|discriminate].
  assert (Em : marks_header (c :: row)
               = match t with
                 | Some (x :: u) => str_contains (lit "institucioni") (str_lower (x :: u))
                 | _ => false
                 end).
  { unfold marks_header. rewrite Et. destruct t as [[|x u]|]; reflexivity. }
  assert (Next : Accreditation.find_header_from (S idx) rows = Ok (Some h) ->
                 marks_header (c :: row) = false ->
                 idx <= h /\ h - idx < List.length (((c :: row) :: rows))
                 /\ marks_header (nth (h - idx) ((c :: row) :: rows) []) = true
                 /\ forall i, i < h - idx ->
                      marks_header (nth i ((c :: row) :: rows) []) = false).
  { intros H' E. destruct (IH _ H') as (H1 & H2 & H3 & H4).
    replace (h - idx) with (S (h - S idx)) by lia. cbn [List.length nth].
    repeat split; [lia|lia|exact H3|].
    intros [|i] Hi; [exact E|]. apply H4. lia. }
  destruct t as [[|x u]|]; try (apply Next; [exact H|exact Em]).
  destruct (str_contains (lit "institucioni") (str_lower (x :: u))) eqn:E.
  - injection H as <-. rewrite Nat.sub_diag. cbn [List.length nth].
    repeat split; [lia|lia|exact Em|]. intros i Hi. lia.
  - apply Next; [exact H|exact Em].
Qed.

(** X3: the header row that both scripts find is the first row of the
    sheet that passes their test for it; the accreditation script takes
    the labels from that row and the data from the rows below it. *)
Theorem header_row_first :
  (forall (frame : list (list scalar)) (h : nat),
     Permits.find_header_row frame = Ok h ->
     h < List.length frame
     /\ Permits.is_header_row (nth h frame []) = true
     /\ forall i, i < h -> Permits.is_header_row (nth i frame []) = false)
  /\ (forall (wb : Accreditation.workbook) labels data,
        Accreditation.load_accredited_dataframe wb = Ok (labels, data) ->
        exists h,
          h < List.length (Accreditation.wb_rows wb)
          /\ marks_header (nth h (Accreditation.wb_rows wb) []) = true
          /\ (forall i, i < h -> marks_header (nth i (Accreditation.wb_rows wb) []) = false)
          /\ labels = excel_columns (nth h (Accreditation.wb_rows wb) [])
          /\ data = skipn (S h) (Accreditation.wb_rows wb)).
Proof.
  split.
  - intros frame h H. apply permits_find_header_first in H.
    rewrite Nat.sub_0_r in H. destruct H as (_ & H). exact H.
  - intros wb labels data H. unfold Accreditation.load_accredited_dataframe in H.
    destruct (Accreditation.find_header_from 0 (Accreditation.wb_rows wb)) as [[h|]|] eqn:E;
      cbn [bind] in H; try discriminate.
    injection H as <- <-. exists h. apply acc_find_header_first in E.
    rewrite Nat.sub_0_r in E. destruct E as (_ & E1 & E2 & E3).
    repeat split; assumption.
Qed.

(** ** The columns of the frame of the permits script *)

Lemma header_columns_spec (idx : nat) (header : list scalar) (l : pystr) (j : nat) :
  0 < idx ->
  In (l, j) (Permits.header_columns idx header)
  <-> idx <= j
      /\ exists s, nth_error header (j - idx) = Some (SStr s)
                   /\ Permits.clean_text (PScalar (SStr s)) = Some l /\ l <> [].
Proof.
  revert idx. induction header as [|value rest IH]; intros idx Hidx.
  - cbn [Permits.header_columns In]. split; [contradiction|].
    intros (_ & s & H & _). destruct (j - idx); discriminate.
  - cbn [Permits.header_columns]. destruct idx as [|idx']; [lia|].
    remember (match value with SStr _ => Permits.clean_text (PScalar value) | _ => None end)
      as label eqn:Hlabel.
    assert (Hhere : forall s, value = SStr s -> label = Permits.clean_text (PScalar (SStr s)))
      by (intros s E; rewrite E in Hlabel; exact Hlabel).
    assert (Hrest : In (l, j) (Permits.header_columns (S (S idx')) rest)
                    <-> S idx' < j
                        /\ exists s, nth_error (value :: rest) (j - S idx') = Some (SStr s)
                             /\ Permits.clean_text (PScalar (SStr s)) = Some l /\ l <> []).
    { rewrite (IH (S (S idx')) ltac:(lia)). split.
      - intros (H1 & s & H2 & H3). split; [lia|]. exists s.
        replace (j - S idx') with (S (j - S (S idx'))) by lia. split; assumption.
      - intros (H1 & s & H2 & H3). split; [lia|]. exists s.
        replace (j - S idx') with (S (j - S (S idx'))) in H2 by lia. split; assumption. }
    assert (Hskip : (label = None \/ label = Some []) ->
                    In (l, j) (Permits.header_columns (S (S idx')) rest)
                    <-> S idx' <= j
                        /\ exists s, nth_error (value :: rest) (j - S idx') = Some (SStr s)
                             /\ Permits.clean_text (PScalar (SStr s)) = Some l /\ l <> []).
    { intro Hl. rewrite Hrest. split; [intros (H1 & H2); split; [lia|exact H2]|].
      intros (H1 & s & H2 & H3 & H4).
      destruct (Nat.eq_dec j (S idx')) as [->|Hn]; [|split; [lia|exists s; auto]].
      exfalso. rewrite Nat.sub_diag in H2. cbn [nth_error] in H2. injection H2 as Hv.
      rewrite (Hhere s Hv), H3 in Hl. destruct Hl as [Hl|Hl]; [discriminate|].
      injection Hl as ->. contradiction. }
    destruct label as [[|x t]|]; [apply Hskip; auto| |apply Hskip; auto].
    cbn [In]. rewrite Hrest. split.
    + intros [E|(H1 & H2)]; [|split; [lia|exact H2]].
      injection E as <- <-. split; [lia|]. rewrite Nat.sub_diag. cbn [nth_error].
      destruct value as [| | | |s| |]; try discriminate Hlabel. exists s.
      split; [reflexivity|]. split; [symmetry; exact Hlabel|discriminate].
    + intros (H1 & s & H2 & H3 & H4).
      destruct (Nat.eq_dec j (S idx')) as [->|Hn]; [left|right; split; [lia|exists s; auto]].
      rewrite Nat.sub_diag in H2. cbn [nth_error] in H2. injection H2 as Hv.
      pose proof (Hhere s Hv) as Hq. rewrite H3 in Hq. injection Hq as <-. reflexivity.
Qed.

Lemma header_columns_sorted (idx : nat) (header : list scalar) :
  StronglySorted lt (map snd (Permits.header_columns idx header))
  /\ Forall (fun j => idx <= j < idx + List.length header)
            (map snd (Permits.header_columns idx header)).
Proof.
  revert idx. induction header as [|value rest IH]; intro idx.
  - split; constructor.
  - destruct (IH (S idx)) as [I1 I2].
    assert (I3 : Forall (fun j => idx <= j < idx + List.length (value :: rest))
                        (map snd (Permits.header_columns (S idx) rest))).
    { eapply Forall_impl; [|exact I2]. cbn [List.length]. intros j Hj. lia. }
    assert (I4 : Forall (lt idx) (map snd (Permits.header_columns (S idx) rest))).
    { eapply Forall_impl; [|exact I2]. intros j Hj. cbn beta in Hj. lia. }
    cbn [Permits.header_columns].
    destruct idx as [|idx'].
    + cbn [map snd]. split; constructor; try assumption. cbn [List.length]. lia.
    + destruct (match value with SStr _ => _ | _ => None end) as [[|x t]|];
        [split; assumption| |split; assumption].
      cbn [map snd]. split; constructor; try assumption. cbn [List.length]. lia.
Qed.

(** X4: the frame of [load_dataframe] has as many labels as positions,
    the positions go up, a column other than the first one is kept
    exactly when its header cell holds a text of which cleaning leaves
    something, under that cleaned text, and every row of the frame has
    the labels of the frame. *)
Theorem frame_columns (wb : Permits.workbook) (data : list Permits.frame_row) (h : nat)
  (columns : list pystr) (positions : list nat) :
  Permits.load_dataframe wb = Ok (data, h, columns, positions) ->
  let header := nth h (Permits.wb_rows wb) [] in
  List.length columns = List.length positions
  /\ StronglySorted lt positions
  /\ (forall l j, 0 < j ->
        In (l, j) (combine columns positions)
        <-> exists s, nth_error header j = Some (SStr s)
                      /\ Permits.clean_text (PScalar (SStr s)) = Some l /\ l <> [])
  /\ Forall (fun r => map fst (snd r) = columns) data.
Proof.
  intro H. cbv zeta.
  destruct (PermitsFacts.load_dataframe_inv _ _ _ _ _ H) as (Hh & -> & -> & _ & Hrows).
  set (header := nth h (Permits.wb_rows wb) []) in *.
  split; [rewrite !length_map; reflexivity|].
  split; [apply header_columns_sorted|]. split.
  - intros l j Hj.
    assert (Ec : combine (map fst (Permits.header_columns 0 header))
                         (map snd (Permits.header_columns 0 header))
                 = Permits.header_columns 0 header).
    { generalize (Permits.header_columns 0 header). intro cs.
      induction cs as [|[a b] cs IH]; [reflexivity|]. cbn [map combine fst snd].
      rewrite IH. reflexivity. }
    rewrite Ec. destruct header as [|value rest].
    + cbn [Permits.header_columns In]. split; [contradiction|].
      intros (s & E & _). destruct j; discriminate.
    + cbn [Permits.header_columns In]. split.
      * intros [E|Hin]; [injection E as _ <-; lia|].
        apply (header_columns_spec 1 rest l j ltac:(lia)) in Hin.
        destruct Hin as (H1 & s & H2 & H3). exists s.
        replace j with (S (j - 1)) by lia. split; assumption.
      * intros (s & H2 & H3). right.
        apply (header_columns_spec 1 rest l j ltac:(lia)). split; [lia|].
        exists s. replace j with (S (j - 1)) in H2 by lia. split; assumption.
  - apply Forall_forall. intros [i row] Hin. cbn [snd].
    destruct (Hrows _ _ Hin) as (cells & _ & _ & -> & _).
    unfold data_row. rewrite map_map. reflexivity.
Qed.

(** ** The field of a header *)

(** X5: [header_to_field] does not depend on the case or the diacritics of
    the letters of the header, and the field it gives is one of the
    fourteen that are read from the row, comment or
    situation_reference: never one of the two links. *)
Theorem header_to_field_range :
  (forall x y : pystr, same_letters x y ->
     Permits.header_to_field x = Permits.header_to_field y)
  /\ (forall (header field : pystr),
        Permits.header_to_field header = Some field ->
        In field (firstn 14 Permits.FIELD_ORDER
                  ++ [lit "comment"; lit "situation_reference"])).
Proof.
  split.
  - intros x y H. unfold Permits.header_to_field.
    rewrite <- (FoldFacts.permits_normalize_header_fold x),
            <- (FoldFacts.permits_normalize_header_fold y).
    unfold same_letters in H. rewrite H. reflexivity.
  - intros header field. unfold Permits.header_to_field.
    destruct (Permits.normalize_header _) as [|c k]; [discriminate|].
    intro H.
    apply if_some_cases in H.
    destruct H as [<-|H]; [apply str_in_In; vm_compute; reflexivity|].
    apply if_some_cases in H.
    destruct H as [<-|H]; [apply str_in_In; vm_compute; reflexivity|].
    apply if_some_cases in H.
    destruct H as [<-|H]; [apply str_in_In; vm_compute; reflexivity|].
    apply dict_get_in in H. revert field H.
    apply str_in_incl. vm_compute. reflexivity.
Qed.

End WithRuntime.

End HeaderFacts.

(** * Links *)

Module LinkFacts.
Import Py Val Ext Notions PyFacts ShapeFacts.

Section WithRuntime.
Context {R : Runtime}.

(** X2: a link that [extract_hyperlink] returns has no white space at its
    ends and comes from the cell of the column and row asked for: it is
    the target of the link of the cell, or else the text of the cell,
    which then begins with http in any case of the letters. *)
Theorem extract_hyperlink_url (sheet : pystr -> result Permits.ws_cell) (column : option Z)
  (excel_row : Z) (url : pystr) :
  Permits.extract_hyperlink sheet column excel_row = Ok (Some url) ->
  ends_free py_isspace url
  /\ exists index letters cell,
       column = Some index
       /\ Permits.excel_column_letter index = Ok letters
       /\ sheet (letters ++ str_of_Z excel_row) = Ok cell
       /\ ((exists x t, Permits.c_hyperlink cell = Some (Permits.Hyperlink (Some (x :: t)))
                        /\ url = str_strip (x :: t))
           \/ (exists value, Permits.c_value cell = SStr value
                             /\ url = str_strip value
                             /\ startswith (lit "http") (str_lower url) = true)).
Proof.
  unfold Permits.extract_hyperlink. destruct column as [index|]; [|discriminate].
  destruct (Permits.excel_column_letter index) as [letters|] eqn:El; cbn [bind]; [|discriminate].
  destruct (sheet (letters ++ str_of_Z excel_row)) as [cell|] eqn:Ec; cbn [bind]; [|discriminate].
  intro H.
  assert (G : (exists x t, Permits.c_hyperlink cell = Some (Permits.Hyperlink (Some (x :: t)))
                           /\ url = str_strip (x :: t))
              \/ (exists value, Permits.c_value cell = SStr value
                                /\ url = str_strip value
                                /\ startswith (lit "http") (str_lower url) = true)).
  { assert (V : match Permits.c_value cell with
                | SStr value =>
                    if Permits.str_http value then Ok (Some (str_strip value)) else Ok None
                | _ => Ok None
                end = Ok (Some url) ->
                exists value, Permits.c_value cell = SStr value
                              /\ url = str_strip value
                              /\ startswith (lit "http") (str_lower url) = true).
    { destruct (Permits.c_value cell) as [| | | |value| |]; try discriminate.
      destruct (Permits.str_http value) eqn:Eh; [|discriminate].
      intro E. injection E as <-. exists value. repeat split. exact Eh. }
    destruct (Permits.c_hyperlink cell) as [[[[|x t]|]]|]; try (right; exact (V H)).
    injection H as <-. left. exists x, t. split; reflexivity. }
  split.
  - destruct G as [(x & t & _ & ->) | (value & _ & -> & _)];
      apply trimmed_ends, strip_by_trimmed.
  - exists index, letters, cell. repeat split; assumption.
Qed.

End WithRuntime.

End LinkFacts.

(** * The institution of a programme *)

Module FillFacts.
Import Py Val Ext Notions PyFacts FrameFacts.
Import Accreditation.

Lemma attr_same_labels (f : pystr) (r1 r2 : list (pystr * scalar)) (v : scalar) :
  map fst r1 = map fst r2 -> attr f r1 = Ok v -> exists c, attr f r2 = Ok c.
Proof.
  revert r2. induction r1 as [|[f1 v1] r1 IH]; intros [|[f2 v2] r2] E H; try discriminate.
  cbn [map fst] in E. injection E as <- E. cbn [attr] in H |- *.
  destruct (str_eqb f1 f); [exists v2; reflexivity|exact (IH _ E H)].
Qed.

(** The cell labelled [f] after one step of the forward fill. *)
Lemma ffill_row_attr (f : pystr) (above row : list (pystr * scalar)) (a c : scalar) :
  map fst above = map fst row -> attr f above = Ok a -> attr f row = Ok c ->
  attr f (ffill_row f above row)
  = Ok (if (scalar_isna c && negb (scalar_isna a))%bool then a else c).
Proof.
  revert row. induction above as [|[fa va] above IH]; intros [|[fc vc] row] E Ha Hc;
    try discriminate.
  cbn [map fst] in E. injection E as <- E. unfold ffill_row. cbn [combine map fst snd].
  cbn [attr] in Ha, Hc. destruct (str_eqb fa f) eqn:Ef; cbn [andb].
  - injection Ha as <-. injection Hc as <-.
    destruct (scalar_isna vc && negb (scalar_isna va))%bool; cbn [attr fst]; rewrite Ef;
      reflexivity.
  - cbn [attr]. rewrite Ef. apply (IH row E Ha Hc).
Qed.

Lemma ffill_row_labels (f : pystr) (above row : list (pystr * scalar)) :
  map fst above = map fst row -> map fst (ffill_row f above row) = map fst row.
Proof.
  revert row. induction above as [|[fa va] above IH]; intros [|[fc vc] row] E;
    try discriminate; [reflexivity|].
  cbn [map fst] in E. injection E as <- E. unfold ffill_row. cbn [combine map].
  f_equal; [|apply (IH row E)].
  destruct (_ && _ && _)%bool; reflexivity.
Qed.

(** A value found in a filled column comes from the nearest row above
    that has one, or from above the frame. *)
Lemma ffill_from_nearest (f : pystr) (rows : list frame_row) :
  forall (above : list (pystr * scalar)) (a : scalar) (n i : nat)
         (row' : list (pystr * scalar)) (v : scalar),
    Forall (fun r => map fst (snd r) = map fst above) rows ->
    attr f above = Ok a ->
    nth_error (ffill_from f above rows) n = Some (i, row') ->
    attr f row' = Ok v -> scalar_isna v = false ->
    (v = a /\ forall m r, m <= n -> nth_error rows m = Some r ->
                 exists c, attr f (snd r) = Ok c /\ scalar_isna c = true)
    \/ (exists j r, j <= n /\ nth_error rows j = Some r /\ attr f (snd r) = Ok v
          /\ forall m r', j < m <= n -> nth_error rows m = Some r' ->
               exists c, attr f (snd r') = Ok c /\ scalar_isna c = true).
Proof.
  induction rows as [|[i0 row0] rest IH]; intros above a n i row' v Hrect Ha Hn Hv Hna.
  - destruct n; discriminate.
  - inversion_clear Hrect as [|? ? Hl0 Hrest]. cbn [snd] in Hl0.
    destruct (attr_same_labels f above row0 a (eq_sym Hl0) Ha) as [c0 Hc0].
    pose proof (ffill_row_attr f above row0 a c0 (eq_sym Hl0) Ha Hc0) as Hfill.
    pose proof (ffill_row_labels f above row0 (eq_sym Hl0)) as Hlab.
    cbn [ffill_from] in Hn. destruct n as [|n].
    + cbn [nth_error] in Hn. injection Hn as <- <-. rewrite Hfill in Hv. injection Hv as <-.
      destruct (scalar_isna c0) eqn:E0; cbn [andb] in *.
      * destruct (scalar_isna a) eqn:Ea; cbn [negb] in *; [congruence|].
        left. split; [reflexivity|]. intros [|m] r Hm Hr; [|lia].
        injection Hr as <-. exists c0. split; assumption.
      * right. exists 0, (i0, row0). split; [lia|]. split; [reflexivity|].
        split; [exact Hc0|]. intros m r' Hm. lia.
    + cbn [nth_error] in Hn.
      assert (Hrest' : Forall (fun r => map fst (snd r) = map fst (ffill_row f above row0)) rest).
      { rewrite Hlab. eapply Forall_impl; [|exact Hrest]. cbn beta. intros r Hr.
        rewrite Hr. exact (eq_sym Hl0). }
      destruct (IH _ _ n i row' v Hrest' Hfill Hn Hv Hna)
        as [(Ev & Hall) | (j & r & Hj & Hr & Hvj & Hbetween)].
      * destruct (scalar_isna c0) eqn:E0; cbn [andb] in Ev.
        -- destruct (scalar_isna a) eqn:Ea; cbn [negb] in Ev; [congruence|].
           left. split; [exact Ev|]. intros [|m] r Hm Hr.
           ++ injection Hr as <-. exists c0. split; assumption.
           ++ apply (Hall m r); [lia|exact Hr].
        -- right. exists 0, (i0, row0). subst v. split; [lia|]. split; [reflexivity|].
           split; [exact Hc0|].
           intros [|m] r' Hm Hr'; [lia|]. apply (Hall m r'); [lia|exact Hr'].
      * right. exists (S j), r. split; [lia|]. split; [exact Hr|]. split; [exact Hvj|].
        intros [|m] r' Hm Hr'; [lia|]. apply (Hbetween m r'); [lia|exact Hr'].
Qed.

Lemma ffill_from_labels (f : pystr) (rows : list frame_row) :
  forall above : list (pystr * scalar),
    Forall (fun r => map fst (snd r) = map fst above) rows ->
    Forall (fun r => map fst (snd r) = map fst above) (ffill_from f above rows).
Proof.
  induction rows as [|[i0 row0] rest IH]; intros above H; [constructor|].
  inversion_clear H as [|? ? H0 Hrest]. cbn [snd] in H0. cbn [ffill_from].
  pose proof (ffill_row_labels f above row0 (eq_sym H0)) as Hl.
  constructor; [cbn [snd]; rewrite Hl; exact H0|].
  assert (E : map fst (ffill_row f above row0) = map fst above) by (rewrite Hl; exact H0).
  rewrite <- E. apply IH. rewrite E. exact Hrest.
Qed.

Lemma ffill_nearest (f : pystr) (labels : list pystr) (rows : list frame_row)
  (n i : nat) (row' : list (pystr * scalar)) (v : scalar) :
  Forall (fun r => map fst (snd r) = labels) rows ->
  nth_error (ffill f rows) n = Some (i, row') ->
  attr f row' = Ok v -> scalar_isna v = false ->
  exists j r, j <= n /\ nth_error rows j = Some r /\ attr f (snd r) = Ok v
    /\ forall m r', j < m <= n -> nth_error rows m = Some r' ->
         exists c, attr f (snd r') = Ok c /\ scalar_isna c = true.
Proof.
  intros Hrect Hn Hv Hna. destruct rows as [|[i0 row0] rest]; [destruct n; discriminate|].
  inversion_clear Hrect as [|? ? Hl0 Hrest]. cbn [snd] in Hl0. cbn [ffill] in Hn.
  destruct n as [|n].
  - injection Hn as <- <-. exists 0, (i0, row0). split; [lia|]. split; [reflexivity|].
    split; [exact Hv|]. intros m r' Hm. lia.
  - cbn [nth_error] in Hn.
    assert (Hrest' : Forall (fun r => map fst (snd r) = map fst row0) rest)
      by (rewrite Hl0; exact Hrest).
    pose proof (ffill_from_labels f rest row0 Hrest') as Hl'.
    rewrite Forall_forall in Hl'. specialize (Hl' _ (nth_error_In _ _ Hn)). cbn [snd] in Hl'.
    destruct (attr_same_labels f row' row0 v Hl' Hv) as [c0 Hc0].
    destruct (ffill_from_nearest f rest row0 c0 n i row' v Hrest' Hc0 Hn Hv Hna)
      as [(Ev & Hall) | (j & r & Hj & Hr & Hvj & Hbetween)].
    + subst v. exists 0, (i0, row0). split; [lia|]. split; [reflexivity|].
      split; [exact Hc0|]. intros [|m] r' Hm Hr'; [lia|]. apply (Hall m r'); [lia|exact Hr'].
    + exists (S j), r. split; [lia|]. split; [exact Hr|]. split; [exact Hvj|].
      intros [|m] r' Hm Hr'; [lia|]. apply (Hbetween m r'); [lia|exact Hr'].
Qed.

Lemma nth_error_index_from {A : Type} (i n : nat) (xs : list A) :
  nth_error (index_from i xs) n = option_map (fun x => (i + n, x)) (nth_error xs n).
Proof.
  revert i n. induction xs as [|x xs IH]; intros i [|n]; cbn [index_from nth_error option_map];
    try reflexivity.
  - rewrite Nat.add_0_r. reflexivity.
  - rewrite IH. replace (S i + n) with (i + S n) by lia. reflexivity.
Qed.

Section WithRuntime.
Context {R : Runtime}.

Lemma attr_in (f : pystr) (row : list (pystr * scalar)) (v : scalar) :
  attr f row = Ok v -> In v (map snd (filter (in_subset [f]) row)).
Proof.
  induction row as [|[g w] row IH]; [discriminate|]. cbn [attr filter].
  unfold in_subset at 1. cbn [fst existsb]. rewrite orb_false_r.
  destruct (str_eqb g f) eqn:E.
  - intro H. injection H as <-. left. reflexivity.
  - intro H. exact (IH H).
Qed.

Lemma build_record_institution (row : list (pystr * scalar)) (rec : record) :
  build_record row = Ok rec ->
  exists v t, attr (lit "institution") row = Ok v /\ clean_text (PScalar v) = Ok t
              /\ dict_get rec (lit "institution") = Some (j_text t).
Proof.
  unfold build_record. intro H.
  repeat match type of H with
  | bind (bind ?a ?f) _ = Ok _ =>
      let v := fresh "v" in let t := fresh "t" in
      let Ev := fresh "Ev" in let Et := fresh "Et" in
      destruct a as [v|] eqn:Ev; cbn [bind] in H; [|discriminate];
      destruct (f v) as [t|] eqn:Et; cbn [bind] in H; [|discriminate]
  end.
  injection H as <-. exists v, t. repeat split; assumption || reflexivity.
Qed.

(** X20: the institution of a record is the cleaned institution cell of
    the nearest row, at or above the row of the record, whose institution
    cell is not empty: the rows between the two have it empty. *)
Theorem institution_carried_down (wb : workbook) (labels : list scalar)
  (data : list (list scalar)) (recs : list (nat * record)) :
  load_accredited_dataframe wb = Ok (labels, data) ->
  parse_indexed wb = Ok recs ->
  forall i rec, In (i, rec) recs ->
    exists j cells c t,
      j <= i /\ nth_error data j = Some cells
      /\ institution_of labels cells = Ok c /\ scalar_isna c = false
      /\ (forall m cells', j < m <= i -> nth_error data m = Some cells' ->
            exists c', institution_of labels cells' = Ok c' /\ scalar_isna c' = true)
      /\ clean_text (PScalar c) = Ok t
      /\ dict_get rec (lit "institution") = Some (j_text t).
Proof.
  intros Hl Hp i rec Hin.
  destruct (AccreditationFacts.acc_parse_indexed_inv _ _ _ _ Hl Hp i rec Hin)
    as (row & Hrow & _ & Hinst & Hb & _).
  destruct (build_record_institution _ _ Hb) as (v & t & Hv & Ht & Hd).
  assert (Hna : scalar_isna v = false).
  { destruct (scalar_isna v) eqn:E; [|reflexivity]. exfalso.
    apply attr_in in Hv. apply in_map_iff in Hv. destruct Hv as (cell & <- & Hc).
    assert (X : existsb (fun c => scalar_isna (snd c))
                  (filter (in_subset [lit "institution"]) row) = true)
      by (apply existsb_exists; exists cell; split; assumption).
    congruence. }
  assert (Hnth : nth_error (filled labels data) i = Some (i, row)).
  { pose proof (AccreditationFacts.Forall2_fst _ _ _ (AccreditationFacts.filled_spec labels data))
      as E.
    unfold selected in E. rewrite index_from_fst, length_map in E.
    apply In_nth_error in Hrow. destruct Hrow as [n Hn].
    assert (Hi : nth_error (map fst (filled labels data)) n = Some i)
      by (rewrite nth_error_map, Hn; reflexivity).
    rewrite E in Hi. pose proof (nth_error_Some (seq 0 (List.length data)) n) as Hlt.
    rewrite Hi in Hlt. rewrite length_seq in Hlt.
    assert (n < List.length data) by (apply Hlt; discriminate).
    rewrite nth_error_nth' with (d := 0) in Hi by (rewrite length_seq; assumption).
    rewrite seq_nth in Hi by assumption. injection Hi as <-. exact Hn. }
  unfold filled in Hnth.
  destruct (ffill_nearest _ _ _ _ _ _ _ (AccreditationFacts.selected_rectangular labels data)
              Hnth Hv Hna) as (j & r & Hj & Hr & Hvj & Hbetween).
  assert (Hsel : forall m r', nth_error (selected labels data) m = Some r' ->
            exists cells, nth_error data m = Some cells
              /\ snd r' = select_row (select ACCREDITED_FIELD_ORDER (map renamed labels)) cells).
  { intros m r' Hm. unfold selected, frame_row in Hm.
    rewrite nth_error_index_from, nth_error_map in Hm.
    destruct (nth_error data m) as [cells|]; [|discriminate].
    cbn [option_map] in Hm. injection Hm as <-. exists cells. split; reflexivity. }
  destruct (Hsel _ _ Hr) as (cells & Hcells & Er).
  exists j, cells, v, t. split; [exact Hj|]. split; [exact Hcells|].
  split; [unfold institution_of; rewrite <- Er; exact Hvj|]. split; [exact Hna|].
  split; [|split; assumption].
  intros m cells' Hm Hc'.
  assert (Hm' : exists r', nth_error (selected labels data) m = Some r').
  { unfold selected, frame_row. rewrite nth_error_index_from, nth_error_map, Hc'.
    eexists. reflexivity. }
  destruct Hm' as [r' Hr'].
  destruct (Hbetween m r' Hm Hr') as (c' & Hc1 & Hc2).
  destruct (Hsel _ _ Hr') as (cells2 & Hcells2 & Er').
  rewrite Hc' in Hcells2. injection Hcells2 as <-.
  exists c'. split; [unfold institution_of; rewrite <- Er'; exact Hc1|exact Hc2].
Qed.

End WithRuntime.

End FillFacts.

(** * The rows that are kept *)

Module KeptFacts.
Import Py Val Ext Notions PyFacts FrameFacts FillFacts.

Section WithRuntime.
Context {R : Runtime}.

Lemma acc_records_of_complete (rows : list Accreditation.frame_row)
  (recs : list (nat * record)) :
  Accreditation.records_of rows = Ok recs ->
  forall i row, In (i, row) rows ->
    exists rec, Accreditation.build_record row = Ok rec
      /\ ((j_falsy (dict_get rec (lit "programme_sq"))
           && j_falsy (dict_get rec (lit "programme_en")))%bool = false ->
          In (i, rec) recs).
Proof.
  revert recs. induction rows as [|[j row0] rows IH]; intros recs H i row Hin; [destruct Hin|].
  cbn [Accreditation.records_of] in H.
  destruct (Accreditation.build_record row0) as [r|] eqn:Eb; cbn [bind] in H; [|discriminate].
  destruct (Accreditation.records_of rows) as [tail|] eqn:Et; cbn [bind] in H; [|discriminate].
  destruct Hin as [Hin|Hin].
  - injection Hin as <- <-. exists r. split; [exact Eb|]. intro Hf. rewrite Hf in H.
    injection H as <-. left. reflexivity.
  - destruct (IH tail eq_refl i row Hin) as (rec & Hb & Hr). exists rec. split; [exact Hb|].
    intro Hf. specialize (Hr Hf).
    destruct (_ && _)%bool; injection H as <-; [exact Hr|right; exact Hr].
Qed.

Lemma permits_records_of_complete (sheet : pystr -> result Permits.ws_cell)
  (pdf_col situation_col : option Z) (destination_present : bool)
  (rows : list Permits.frame_row) (recs : list (nat * record)) :
  Permits.records_of sheet pdf_col situation_col destination_present rows = Ok recs ->
  forall i row, In (i, row) rows -> Permits.all_na row = false ->
    blank (Permits.clean_text (Permits.row_get row (lit "permit_number"))) = false ->
    In i (map fst recs).
Proof.
  revert recs. induction rows as [|[j row0] rows IH]; intros recs H i row Hin Hna Hbl;
    [destruct Hin|].
  cbn [Permits.records_of] in H. destruct Hin as [Hin|Hin].
  - injection Hin as <- <-. rewrite Hna, Hbl in H.
    destruct (Permits.build_record row0 _) as [r|]; cbn [bind] in H; [|discriminate].
    destruct (Permits.extract_hyperlink sheet pdf_col _) as [doc|];
      cbn [bind] in H; [|discriminate].
    destruct (Permits.extract_hyperlink sheet situation_col _) as [sit|];
      cbn [bind] in H; [|discriminate].
    destruct (Permits.records_of sheet pdf_col situation_col destination_present rows)
      as [tail|]; cbn [bind] in H; [|discriminate].
    injection H as <-. left. reflexivity.
  - destruct (Permits.all_na row0); [exact (IH _ H i row Hin Hna Hbl)|].
    destruct (blank (Permits.clean_text (Permits.row_get row0 (lit "permit_number"))));
      [exact (IH _ H i row Hin Hna Hbl)|].
    destruct (Permits.build_record row0 _) as [r|]; cbn [bind] in H; [|discriminate].
    destruct (Permits.extract_hyperlink sheet pdf_col _) as [doc|];
      cbn [bind] in H; [|discriminate].
    destruct (Permits.extract_hyperlink sheet situation_col _) as [sit|];
      cbn [bind] in H; [|discriminate].
    destruct (Permits.records_of sheet pdf_col situation_col destination_present rows)
      as [tail|] eqn:Et; cbn [bind] in H; [|discriminate].
    injection H as <-. right. exact (IH _ eq_refl i row Hin Hna Hbl).
Qed.

Lemma attr_in_subset (f : pystr) (subset : list pystr) (row : list (pystr * scalar))
  (v : scalar) :
  Accreditation.attr f row = Ok v -> existsb (fun g => str_eqb g f) subset = true ->
  exists cell, In cell (filter (Accreditation.in_subset subset) row) /\ snd cell = v.
Proof.
  intros H Hs. induction row as [|[g w] row IH]; [discriminate|].
  cbn [Accreditation.attr] in H. cbn [filter]. destruct (str_eqb g f) eqn:E.
  - injection H as <-. apply str_eqb_eq in E. subst g.
    assert (X : Accreditation.in_subset subset (f, w) = true).
    { unfold Accreditation.in_subset. cbn [fst]. apply existsb_exists in Hs.
      destruct Hs as (k & Hk & Ek). apply str_eqb_eq in Ek. subst k.
      apply existsb_exists. exists f. split; [exact Hk|apply str_eqb_refl]. }
    rewrite X. exists (f, w). split; [left|]; reflexivity.
  - destruct (IH H) as (cell & Hc & Ev). exists cell. split; [|exact Ev].
    destruct (Accreditation.in_subset subset (g, w)); [right|]; exact Hc.
Qed.

Lemma acc_clean_text_not_na (v : scalar) (s : pystr) :
  Accreditation.clean_text (PScalar v) = Ok (Some s) -> scalar_isna v = false.
Proof.
  unfold Accreditation.clean_text, Accreditation.none_or_na.
  destruct v as [| b | z | f | t | d |]; cbn [is_none isna_truth scalar_isna bind];
    try discriminate; try reflexivity.
  destruct (PyFloat.is_nan f); [discriminate|reflexivity].
Qed.

(** X19: when parsing succeeds, a row gives a record as soon as it is not
    to be dropped: in the accreditation script, a row of the filled frame
    with an institution and a programme name that cleaning does not
    empty; in the permits script, a row below the header row that is not
    blank and whose permit number is not blank. *)
Theorem kept_rows_give_records :
  (forall (wb : Accreditation.workbook) labels data recs,
     Accreditation.load_accredited_dataframe wb = Ok (labels, data) ->
     Accreditation.parse_indexed wb = Ok recs ->
     forall i row, In (i, row) (filled labels data) ->
       existsb (fun c => scalar_isna (snd c))
         (filter (Accreditation.in_subset [lit "institution"]) row) = false ->
       (exists f v x t,
          (f = lit "programme_sq" \/ f = lit "programme_en")
          /\ Accreditation.attr f row = Ok v
          /\ Accreditation.clean_text (PScalar v) = Ok (Some (x :: t))) ->
       In i (map fst recs))
  /\ (forall (wb : Permits.workbook) h columns recs,
        Permits.parse_indexed wb = Ok (h, columns, recs) ->
        forall i cells, nth_error (Permits.wb_rows wb) i = Some cells -> h < i ->
          let row := renamed_row
                       (Permits.header_columns 0 (nth h (Permits.wb_rows wb) [])) cells in
          Permits.all_na row = false ->
          blank (Permits.clean_text (Permits.row_get row (lit "permit_number"))) = false ->
          In i (map fst recs)).
Proof.
  split.
  - intros wb labels data recs Hl Hp i row Hrow Hinst (f & v & x & t & Hf & Hv & Hc).
    unfold Accreditation.parse_indexed in Hp. rewrite Hl in Hp. cbn [bind] in Hp.
    destruct (negb (existsb _ labels)); [discriminate|].
    destruct (filter _ Accreditation.ACCREDITED_FIELD_ORDER); [|discriminate].
    assert (Hk : In (i, row) (Accreditation.kept_rows labels data)).
    { rewrite AccreditationFacts.kept_rows_eq.
      unfold Accreditation.dropna_any, Accreditation.dropna_all.
      apply filter_In. split; [|cbn [snd]; rewrite Hinst; reflexivity].
      apply filter_In. split; [exact Hrow|]. cbn [snd]. apply negb_true_iff.
      destruct (attr_in_subset f [lit "programme_sq"; lit "programme_en"] row v Hv)
        as (cell & Hcell & Ev).
      { destruct Hf as [-> | ->]; reflexivity. }
      destruct (forallb _ _) eqn:E; [|reflexivity]. exfalso.
      rewrite forallb_forall in E. specialize (E cell Hcell). rewrite Ev in E.
      rewrite (acc_clean_text_not_na v _ Hc) in E. discriminate. }
    destruct (acc_records_of_complete _ _ Hp i row Hk) as (rec & Hb & Hr).
    apply in_map_iff. exists (i, rec). split; [reflexivity|]. apply Hr.
    destruct (AccreditationFacts.build_record_inv _ _ Hb)
      as (_ & (v1 & t1 & A1 & C1 & E1) & (v2 & t2 & A2 & C2 & E2)).
    rewrite E1, E2. destruct Hf as [-> | ->].
    + rewrite Hv in A1. injection A1 as <-. rewrite Hc in C1. injection C1 as <-. reflexivity.
    + rewrite Hv in A2. injection A2 as <-. rewrite Hc in C2. injection C2 as <-.
      apply andb_false_r.
  - intros wb h columns recs Hp i cells Hc Hlt row Hna Hbl.
    unfold Permits.parse_indexed in Hp.
    destruct (Permits.load_dataframe wb) as [[[[data h'] columns'] positions]|] eqn:El;
      cbn [bind] in Hp; [|discriminate].
    destruct (Permits.records_of _ _ _ _ _) as [recs'|] eqn:Er; cbn [bind] in Hp; [|discriminate].
    injection Hp as <- <- <-.
    refine (permits_records_of_complete _ _ _ _ _ _ Er i row _ Hna Hbl).
    unfold Permits.load_dataframe in El.
    destruct (Permits.find_header_row (Permits.wb_rows wb)) as [hh|];
      cbn [bind] in El; [|discriminate].
    remember (skipn (S hh) (Permits.index_from 0 (Permits.wb_rows wb))) as below eqn:Eb.
    injection El as <- <- _ _.
    apply in_map_iff.
    exists (i, data_row (Permits.header_columns 0 (nth hh (Permits.wb_rows wb) [])) cells).
    split; [reflexivity|]. unfold Permits.dropna_all. apply filter_In. split.
    + apply in_map_iff. exists (i, cells). split; [reflexivity|].
      subst below. rewrite permits_index_from_eq, skipn_index_from. apply index_from_in.
      split; [lia|]. rewrite nth_error_skipn.
      replace (S hh + (i - (0 + S hh))) with i by lia. exact Hc.
    + cbn [snd]. apply negb_true_iff. rewrite <- Hna.
      unfold row, renamed_row, Permits.all_na.
      generalize (data_row (Permits.header_columns 0 (nth hh (Permits.wb_rows wb) [])) cells).
      intro l. induction l as [|c l IHl]; [reflexivity|].
      cbn [map forallb snd]. rewrite IHl. reflexivity.
Qed.

End WithRuntime.

End KeptFacts.

(** * Separators *)

Module SeparatorFacts.
Import Py Re Val Ext Notions PyFacts ReFacts CharFacts KeyFacts CleanerFacts ShapeFacts.
Local Open Scope N_scope.

Lemma replace_from_forallb (q : codepoint -> bool) (old new : pystr) (k : nat) (s : pystr) :
  forallb q new = true -> forallb q s = true -> forallb q (replace_from old new k s) = true.
Proof.
  intro Hn. revert k. induction s as [|c s IH]; intros k H; [reflexivity|].
  cbn [forallb] in H. apply andb_true_iff in H. destruct H as [Hc Hs].
  cbn [replace_from]. destruct k as [|k]; [|apply IH, Hs].
  destruct (startswith old (c :: s)).
  - rewrite forallb_app, Hn. apply IH, Hs.
  - cbn [forallb]. rewrite Hc. apply IH, Hs.
Qed.

Lemma str_replace_forallb (q : codepoint -> bool) (old new s : pystr) :
  forallb q new = true -> forallb q s = true -> forallb q (str_replace old new s) = true.
Proof.
  intros Hn Hs. unfold str_replace. destruct old; [exact Hs|].
  apply replace_from_forallb; assumption.
Qed.

(** After [s.replace(x, new)] the character [x] is gone, if [new] is
    without it. *)
Lemma str_replace_gone (x : codepoint) (new s : pystr) :
  forallb (fun c => negb (cp_eqb x c)) new = true ->
  forallb (fun c => negb (cp_eqb x c)) (str_replace [x] new s) = true.
Proof.
  intro Hn. unfold str_replace. induction s as [|c s IH]; [reflexivity|].
  cbn [replace_from startswith List.length Nat.sub]. rewrite andb_true_r.
  destruct (cp_eqb x c) eqn:E.
  - rewrite forallb_app, Hn. exact IH.
  - cbn [forallb]. rewrite E. exact IH.
Qed.

Section WithRuntime.
Context {R : Runtime}.

(** X12: what [normalize_inline_separators] returns when it is not asked
    for capitals, with the dash it writes by default or with none, is not
    empty, neither starts nor ends with a blank, a comma, a dash or a
    slash, has its white space made of single blanks and has no en dash
    and no em dash left. *)
Theorem inline_separators_shape (v : pyval) (sep : option pystr) (s : pystr) :
  sep = None \/ sep = Some [32; Permits.DASH; 32] ->
  Permits.normalize_inline_separators v sep false = Some s ->
  s <> []
  /\ ends_free (mem_cp [32; Permits.COMMA; Permits.DASH; Permits.SLASH]) s
  /\ blanks_only s /\ no_double_blank s
  /\ forallb no_long_dash s = true.
Proof.
  intros Hsep. unfold Permits.normalize_inline_separators.
  destruct (Permits.clean_text v) as [[|c t]|]; try discriminate.
  set (t1 := str_replace [8212] [Permits.DASH] (str_replace [8211] [Permits.DASH] (c :: t))).
  assert (H1 : forallb no_long_dash t1 = true).
  { assert (A : forallb (fun c => negb (cp_eqb 8211 c))
                  (str_replace [8211] [Permits.DASH] (c :: t)) = true)
      by (apply str_replace_gone; reflexivity).
    assert (B : forallb (fun c => negb (cp_eqb 8211 c)) t1 = true)
      by (apply str_replace_forallb; [reflexivity|exact A]).
    assert (C : forallb (fun c => negb (cp_eqb 8212 c)) t1 = true)
      by (apply str_replace_gone; reflexivity).
    apply forallb_forall. intros d Hd. rewrite forallb_forall in B, C.
    specialize (B d Hd). specialize (C d Hd). unfold no_long_dash. cbn [mem_cp existsb].
    rewrite orb_false_r. apply negb_true_iff in B, C. apply negb_true_iff.
    rewrite (N.eqb_sym d 8211 : cp_eqb d 8211 = cp_eqb 8211 d), B.
    rewrite (N.eqb_sym d 8212 : cp_eqb d 8212 = cp_eqb 8212 d), C. reflexivity. }
  clearbody t1.
  match goal with
  | |- match str_strip_chars ?cs (sub ?p ?r ?u) with _ => _ end = _ -> _ =>
      assert (Hu : forallb no_long_dash u = true);
      [ apply sub_forallb; [reflexivity|];
        destruct Hsep as [-> | ->]; (apply sub_forallb; [reflexivity|]);
        repeat (apply sub_forallb; [reflexivity|]); exact H1
      | set (t5 := sub p r u);
        assert (H5 : single CSpace 32 t5 = true) by (apply sub_plus_single; reflexivity);
        assert (D5 : forallb no_long_dash t5 = true)
          by (apply sub_forallb; [reflexivity|exact Hu]);
        clearbody t5;
        pose proof (strip_by_trimmed (mem_cp cs) t5) as Ht;
        pose proof (single_strip_by CSpace 32 (mem_cp cs) t5 H5) as Hs;
        pose proof (forallb_strip_by no_long_dash (mem_cp cs) t5 D5) as Hd;
        change (strip_by (mem_cp cs) t5) with (str_strip_chars cs t5) in Ht, Hs, Hd;
        destruct (str_strip_chars cs t5) as [|d w]; [discriminate|] ]
  end.
  intro H. injection H as <-.
  split; [discriminate|]. split; [apply trimmed_ends, Ht|].
  split; [apply single_blanks_only, Hs|]. split; [apply single_no_double_blank, Hs|exact Hd].
Qed.

End WithRuntime.

End SeparatorFacts.

(** * Sorting *)

Module SortFacts.
Import Py Val Ext PySort.

Section Sort.
Context {A : Type} (before : A -> A -> bool).

Lemma insert_perm (x : A) (l : list A) : Permutation (x :: l) (insert before x l).
Proof.
  induction l as [|y l IH]; [apply Permutation_refl|]. cbn [insert].
  destruct (before y x); [|apply Permutation_refl].
  eapply Permutation_trans; [apply perm_swap|]. apply perm_skip, IH.
Qed.

Lemma sort_perm (l : list A) : Permutation l (sort before l).
Proof.
  induction l as [|x l IH]; [apply Permutation_refl|]. cbn [sort fold_right].
  eapply Permutation_trans; [apply perm_skip, IH|apply insert_perm].
Qed.

(** Elements that the order does not tell apart keep their order. *)
Lemma insert_filter (p : A -> bool) (x : A) (l : list A) :
  (forall a b, p a = true -> p b = true -> before a b = false) ->
  filter p (insert before x l) = filter p (x :: l).
Proof.
  intro Hp. induction l as [|y l IH]; [reflexivity|]. cbn [insert].
  destruct (before y x) eqn:E; [|reflexivity].
  cbn [filter] in IH |- *. rewrite IH.
  destruct (p x) eqn:Ex; [|reflexivity]. destruct (p y) eqn:Ey; [|reflexivity].
  rewrite (Hp y x Ey Ex) in E. discriminate.
Qed.

Lemma sort_stable (p : A -> bool) (l : list A) :
  (forall a b, p a = true -> p b = true -> before a b = false) ->
  filter p (sort before l) = filter p l.
Proof.
  intro Hp. induction l as [|x l IH]; [reflexivity|]. cbn [sort fold_right].
  rewrite (insert_filter p x _ Hp). cbn [filter]. fold (sort before l). rewrite IH. reflexivity.
Qed.

Hypothesis asym : forall a b, before a b = true -> before b a = false.
Hypothesis trans : forall a b c, before b a = false -> before c b = false -> before c a = false.

Lemma insert_sorted (x : A) (l : list A) :
  StronglySorted (fun a b => before b a = false) l ->
  StronglySorted (fun a b => before b a = false) (insert before x l).
Proof.
  induction l as [|y l IH]; intro H; [repeat constructor|]. cbn [insert].
  apply StronglySorted_inv in H. destruct H as [H1 H2].
  destruct (before y x) eqn:E.
  - constructor; [apply IH, H1|]. apply Forall_forall. intros z Hz.
    apply (Permutation_in _ (Permutation_sym (insert_perm x l))) in Hz.
    destruct Hz as [<-|Hz]; [apply asym, E|]. rewrite Forall_forall in H2. apply H2, Hz.
  - constructor; [constructor; assumption|]. constructor; [exact E|].
    rewrite Forall_forall in *. intros z Hz. apply (trans x y z E). apply H2, Hz.
Qed.

Lemma sort_sorted (l : list A) :
  StronglySorted (fun a b => before b a = false) (sort before l).
Proof.
  induction l as [|x l IH]; [constructor|]. cbn [sort fold_right]. apply insert_sorted, IH.
Qed.

End Sort.
End SortFacts.

(** * Years and indexes *)

Module OrderFacts.
Import Py Val Ext PySort SortFacts.

Lemma str_compare_antisym (a b : pystr) : str_compare b a = CompOpp (str_compare a b).
Proof.
  revert b. induction a as [|x a IH]; intros [|y b]; try reflexivity.
  cbn [str_compare]. rewrite (N.compare_antisym x y).
  destruct (N.compare x y); cbn [CompOpp]; [apply IH|reflexivity|reflexivity].
Qed.

Lemma str_compare_eq (a b : pystr) : str_compare a b = Eq -> a = b.
Proof.
  revert b. induction a as [|x a IH]; intros [|y b]; try discriminate; [reflexivity|].
  cbn [str_compare]. destruct (N.compare x y) eqn:E; try discriminate.
  apply N.compare_eq in E. subst y. intro H. f_equal. apply IH, H.
Qed.

Lemma str_compare_refl (a : pystr) : str_compare a a = Eq.
Proof. induction a as [|x a IH]; [reflexivity|]. cbn. rewrite N.compare_refl. exact IH. Qed.

Lemma str_compare_lt_trans (a b c : pystr) :
  str_compare a b = Lt -> str_compare b c = Lt -> str_compare a c = Lt.
Proof.
  revert b c. induction a as [|x a IH]; intros [|y b] [|z c]; try discriminate;
    try reflexivity.
  cbn [str_compare].
  destruct (N.compare_spec x y) as [->|Hxy|Hxy]; try discriminate.
  - destruct (N.compare z y) eqn:E; rewrite (N.compare_antisym z y), E; cbn [CompOpp];
      try discriminate; [apply IH|reflexivity].
  - intros _. destruct (N.compare_spec y z) as [->|Hyz|Hyz]; try discriminate; intros _.
    + apply N.compare_lt_iff in Hxy. rewrite Hxy. reflexivity.
    + assert (H : (x < z)%N) by lia. apply N.compare_lt_iff in H. rewrite H. reflexivity.
Qed.

Section WithRuntime.
Context {R : Runtime}.
Import Accreditation.

Lemma key_compare_antisym (a b : Z * pystr * pystr) :
  key_compare b a = CompOpp (key_compare a b).
Proof.
  destruct a as [[y1 c1] p1], b as [[y2 c2] p2]. cbn [key_compare].
  rewrite (Z.compare_antisym y1 y2). destruct (Z.compare y1 y2); cbn [CompOpp]; try reflexivity.
  rewrite (str_compare_antisym c1 c2). destruct (str_compare c1 c2); cbn [CompOpp];
    try reflexivity.
  apply str_compare_antisym.
Qed.

Lemma key_compare_eq (a b : Z * pystr * pystr) : key_compare a b = Eq -> a = b.
Proof.
  destruct a as [[y1 c1] p1], b as [[y2 c2] p2]. cbn [key_compare].
  destruct (Z.compare y1 y2) eqn:E1; try discriminate. apply Z.compare_eq in E1.
  destruct (str_compare c1 c2) eqn:E2; try discriminate. apply str_compare_eq in E2.
  intro E3. apply str_compare_eq in E3. subst. reflexivity.
Qed.

Lemma key_compare_lt_trans (a b c : Z * pystr * pystr) :
  key_compare a b = Lt -> key_compare b c = Lt -> key_compare a c = Lt.
Proof.
  destruct a as [[y1 c1] p1], b as [[y2 c2] p2], c as [[y3 c3] p3]. cbn [key_compare].
  destruct (Z.compare_spec y1 y2) as [->|H12|H12]; try discriminate.
  - destruct (Z.compare y2 y3); try discriminate; [|reflexivity].
    destruct (str_compare c1 c2) eqn:E12; try discriminate.
    + apply str_compare_eq in E12. subst c2.
      destruct (str_compare c1 c3); try discriminate; [|reflexivity].
      apply str_compare_lt_trans.
    + intros _. destruct (str_compare c2 c3) eqn:E23; try discriminate.
      * apply str_compare_eq in E23. subst c3. rewrite E12. reflexivity.
      * rewrite (str_compare_lt_trans _ _ _ E12 E23). reflexivity.
  - intros _. destruct (Z.compare_spec y2 y3) as [->|H23|H23]; try discriminate.
    + intros _. apply Z.compare_lt_iff in H12. rewrite H12. reflexivity.
    + intros _. assert (H : (y1 < y3)%Z) by lia. apply Z.compare_lt_iff in H.
      rewrite H. reflexivity.
Qed.

Lemma key_ltb_asym (a b : Z * pystr * pystr) : key_ltb a b = true -> key_ltb b a = false.
Proof.
  unfold key_ltb. rewrite (key_compare_antisym a b).
  destruct (key_compare a b); cbn [CompOpp]; try discriminate. reflexivity.
Qed.

Lemma key_ltb_trans (a b c : Z * pystr * pystr) :
  key_ltb b a = false -> key_ltb c b = false -> key_ltb c a = false.
Proof.
  unfold key_ltb. intros H1 H2.
  destruct (key_compare c a) eqn:Eca; try reflexivity. exfalso.
  destruct (key_compare c b) eqn:Ecb; try discriminate.
  - apply key_compare_eq in Ecb. subst c. rewrite Eca in H1. discriminate.
  - assert (Ebc : key_compare b c = Lt) by (rewrite key_compare_antisym, Ecb; reflexivity).
    rewrite (key_compare_lt_trans _ _ _ Ebc Eca) in H1. discriminate.
Qed.

(** X23: sorting the index by [dataset_index_key] loses no entry, puts
    the entries by the year of their period, the latest first (a period
    without a year counts as 0), then by category and path, and leaves
    entries with the same key in their order. *)
Theorem index_latest_first (index_entries : list index_entry) :
  Permutation index_entries (sort_index index_entries)
  /\ StronglySorted (fun a b => (period_year b <= period_year a)%Z
                                /\ key_ltb (dataset_index_key b) (dataset_index_key a) = false)
                    (sort_index index_entries)
  /\ forall k, filter (fun e => match key_compare (dataset_index_key e) k with
                                | Eq => true | _ => false end) (sort_index index_entries)
               = filter (fun e => match key_compare (dataset_index_key e) k with
                                  | Eq => true | _ => false end) index_entries.
Proof.
  unfold sort_index. split; [apply sort_perm|]. split.
  - eapply StronglySorted_ind with
      (P := fun l => StronglySorted
                       (fun a b => (period_year b <= period_year a)%Z
                                   /\ key_ltb (dataset_index_key b) (dataset_index_key a) = false)
                       l);
      [constructor| |apply sort_sorted].
    + intros a l _ IH Hall. constructor; [exact IH|].
      eapply Forall_impl; [|exact Hall]. cbn beta. intros b Hb. split; [|exact Hb].
      unfold key_ltb, dataset_index_key in Hb. cbn [key_compare] in Hb.
      destruct (Z.compare_spec (- period_year b) (- period_year a)) as [E|E|E];
        try lia; discriminate.
    + intros a b E. apply key_ltb_asym, E.
    + intros a b c. apply key_ltb_trans.
  - intro k. apply sort_stable. intros a b Ha Hb.
    destruct (key_compare (dataset_index_key a) k) eqn:Ea; try discriminate.
    destruct (key_compare (dataset_index_key b) k) eqn:Eb; try discriminate.
    apply key_compare_eq in Ea, Eb. rewrite Ea, Eb. unfold key_ltb.
    assert (X : key_compare k k = Eq).
    { destruct k as [[y c] p]. cbn [key_compare]. rewrite Z.compare_refl, !str_compare_refl.
      reflexivity. }
    rewrite X. reflexivity.
Qed.

(** ** The years *)

Lemma acc_extract_year_skip (a : codepoint) (rest : pystr) :
  cp_eqb a 50 = false -> extract_year (a :: rest) = extract_year rest.
Proof.
  intro H. cbn [extract_year]. rewrite H. cbn [andb].
  destruct rest as [|b [|c [|d rest]]]; reflexivity.
Qed.

Lemma acc_extract_year_range (text : pystr) (y : Z) :
  forallb is_ascii text = true -> extract_year text = Some y -> (2000 <= y <= 2099)%Z.
Proof.
  induction text as [|a rest IH]; [discriminate|]. intro Ha.
  cbn [forallb] in Ha. apply andb_true_iff in Ha. destruct Ha as [_ Ha].
  cbn [extract_year]. destruct rest as [|b [|c [|d rest]]]; try discriminate.
  assert (Hc : is_ascii c = true /\ is_ascii d = true).
  { cbn [forallb] in Ha. repeat (apply andb_true_iff in Ha; destruct Ha as [? Ha]). auto. }
  destruct Hc as [Hc Hd].
  destruct (cp_eqb a 50 && cp_eqb b 48)%bool; [|apply IH, Ha].
  unfold decimal_digit. rewrite Hc, Hd.
  destruct (is_ascii_digit c) eqn:Ec; [|apply IH, Ha].
  destruct (is_ascii_digit d) eqn:Ed; [|apply IH, Ha].
  intro H.
  assert (E : y = Z.of_N (2000 + 10 * (c - 48) + (d - 48))) by congruence.
  clear H. unfold is_ascii_digit, in_range in Ec, Ed.
  apply andb_true_iff in Ec, Ed. destruct Ec as [E1 E2], Ed as [E3 E4].
  apply N.leb_le in E1, E2, E3, E4. lia.
Qed.

(** X22: when the first 2 of a text begins 20 and two digits,
    [extract_year] of the accreditation script gives the year these four
    characters write, so the year a period begins with; the year it gives
    for an ASCII text is between 2000 and 2099. *)
Theorem acc_extract_year_first :
  (forall (before : pystr) (c d : codepoint) (rest : pystr),
     forallb (fun x => negb (cp_eqb x 50)) before = true ->
     is_ascii_digit c = true -> is_ascii_digit d = true ->
     extract_year (before ++ 50%N :: 48%N :: c :: d :: rest)
     = Some (2000 + 10 * (Z.of_N c - 48) + (Z.of_N d - 48))%Z)
  /\ (forall (text : pystr) (y : Z),
        forallb is_ascii text = true -> extract_year text = Some y -> (2000 <= y <= 2099)%Z).
Proof.
  split; [|exact acc_extract_year_range].
  intros before c d rest Hb Hc Hd. induction before as [|a before IH].
  - cbn [app extract_year cp_eqb N.eqb Pos.eqb andb]. unfold decimal_digit.
    assert (Ac : is_ascii c = true /\ is_ascii d = true).
    { unfold is_ascii_digit, in_range in Hc, Hd. unfold is_ascii.
      apply andb_true_iff in Hc, Hd. destruct Hc as [_ Hc], Hd as [_ Hd].
      apply N.leb_le in Hc, Hd. split; apply N.ltb_lt; lia. }
    destruct Ac as [Ac Ad]. rewrite Ac, Ad, Hc, Hd. f_equal.
    unfold is_ascii_digit, in_range in Hc, Hd.
    apply andb_true_iff in Hc, Hd. destruct Hc as [E1 E2], Hd as [E3 E4].
    apply N.leb_le in E1, E2, E3, E4. lia.
  - cbn [forallb] in Hb. apply andb_true_iff in Hb. destruct Hb as [Ha Hb].
    apply negb_true_iff in Ha. cbn [app]. rewrite (acc_extract_year_skip _ _ Ha).
    apply IH, Hb.
Qed.

Lemma permits_search_year_skip (a : codepoint) (s : pystr) :
  Permits.decimal_digit a = None -> Permits.search_year (a :: s) = Permits.search_year s.
Proof.
  intro H. destruct s as [|b [|c [|d s]]]; try reflexivity.
  cbn [Permits.search_year]. rewrite H. reflexivity.
Qed.

(** X21: when the first digit of the stem begins four digits in a row,
    [extract_year] of the permits script gives the year they write; when
    the stem has no digit it raises the ValueError that names the file. *)
Theorem permits_extract_year_first :
  (forall (before : pystr) (a b c d : codepoint) (rest name : pystr),
     forallb (fun x => match Permits.decimal_digit x with None => true | _ => false end)
             before = true ->
     forallb is_ascii_digit [a; b; c; d] = true ->
     Permits.extract_year (before ++ a :: b :: c :: d :: rest) name
     = Ok (1000 * (Z.of_N a - 48) + 100 * (Z.of_N b - 48) + 10 * (Z.of_N c - 48)
           + (Z.of_N d - 48))%Z)
  /\ (forall (stem name : pystr),
        forallb (fun x => match Permits.decimal_digit x with None => true | _ => false end)
                stem = true ->
        Permits.extract_year stem name
        = Raise (Exn ValueError (lit "Unable to extract year from filename: " ++ name))).
Proof.
  split.
  - intros before a b c d rest name Hb Hd. unfold Permits.extract_year.
    assert (E : Permits.search_year (before ++ a :: b :: c :: d :: rest)
                = Some (1000 * (Z.of_N a - 48) + 100 * (Z.of_N b - 48)
                        + 10 * (Z.of_N c - 48) + (Z.of_N d - 48))%Z);
      [|rewrite E; reflexivity].
    induction before as [|x before IH].
    + cbn [app Permits.search_year]. cbn [forallb] in Hd.
      repeat (apply andb_true_iff in Hd; destruct Hd as [? Hd]).
      assert (A : forall x, is_ascii_digit x = true ->
                    Permits.decimal_digit x = Some (x - 48)%N /\ (48 <= x <= 57)%N).
      { intros x Hx. unfold Permits.decimal_digit. rewrite Hx.
        unfold is_ascii_digit, in_range in Hx. apply andb_true_iff in Hx.
        destruct Hx as [Hlo Hhi]. apply N.leb_le in Hlo, Hhi.
        assert (Hx : is_ascii x = true) by (apply N.ltb_lt; lia).
        rewrite Hx. split; [reflexivity|lia]. }
      destruct (A a) as [-> ?]; [assumption|]. destruct (A b) as [-> ?]; [assumption|].
      destruct (A c) as [-> ?]; [assumption|]. destruct (A d) as [-> ?]; [assumption|].
      f_equal. lia.
    + cbn [forallb] in Hb. apply andb_true_iff in Hb. destruct Hb as [Hx Hb].
      cbn [app]. rewrite permits_search_year_skip; [apply IH, Hb|].
      destruct (Permits.decimal_digit x); [discriminate|reflexivity].
  - intros stem name Hs. unfold Permits.extract_year.
    assert (E : Permits.search_year stem = None); [|rewrite E; reflexivity].
    induction stem as [|x stem IH]; [reflexivity|].
    cbn [forallb] in Hs. apply andb_true_iff in Hs. destruct Hs as [Hx Hs].
    rewrite permits_search_year_skip; [apply IH, Hs|].
    destruct (Permits.decimal_digit x); [discriminate|reflexivity].
Qed.

End WithRuntime.

(** X24: sorting the summary of [main] loses no item, puts the greater
    years first and leaves the items of one year in the order of their
    files. *)
Theorem summary_latest_first (summary : list Permits.summary_item) :
  Permutation summary (Permits.sort_summary summary)
  /\ StronglySorted (fun a b => (Permits.s_year b <= Permits.s_year a)%Z)
                    (Permits.sort_summary summary)
  /\ forall y, filter (fun e => Z.eqb (Permits.s_year e) y)
                      (Permits.sort_summary summary)
               = filter (fun e => Z.eqb (Permits.s_year e) y) summary.
Proof.
  unfold Permits.sort_summary. split; [apply sort_perm|]. split.
  - eapply StronglySorted_ind with
      (P := fun l => StronglySorted
                       (fun a b => (Permits.s_year b <= Permits.s_year a)%Z) l);
      [constructor| |apply sort_sorted].
    + intros a l _ IH Hall. constructor; [exact IH|].
      eapply Forall_impl; [|exact Hall]. cbn beta. intros b Hb. apply Z.ltb_ge in Hb. exact Hb.
    + intros a b E. apply Z.ltb_lt in E. apply Z.ltb_ge. lia.
    + intros a b c H1 H2. apply Z.ltb_ge in H1, H2. apply Z.ltb_ge. lia.
  - intro y. apply sort_stable. intros a b Ha Hb. apply Z.eqb_eq in Ha, Hb.
    apply Z.ltb_ge. lia.
Qed.

End OrderFacts.

(** * The properties at the sample workbooks *)

Module InstanceFacts.
Import Py Re Val Ext Notions Samples PyFacts.
Import ReFacts ShapeFacts TidyFacts.

Lemma extract_hyperlink_url_witness :
  ends_free py_isspace (lit "https://example.org/1-24.pdf").
Proof.
  exact (proj1 (LinkFacts.extract_hyperlink_url (R := ReferenceRuntime.reference)
                  permits_sheet (Some 6%Z) 3%Z (lit "https://example.org/1-24.pdf") eq_refl)).
Defined.

Lemma header_row_first_witness :
  (1 < List.length permits_rows)%nat
  /\ Permits.is_header_row (R := ReferenceRuntime.reference) (nth 1 permits_rows []) = true
  /\ forall i, (i < 1)%nat ->
       Permits.is_header_row (R := ReferenceRuntime.reference) (nth i permits_rows []) = false.
Proof.
  apply (proj1 (HeaderFacts.header_row_first (R := ReferenceRuntime.reference)) permits_rows 1%nat).
  vm_compute. reflexivity.
Defined.

Lemma frame_columns_witness :
  List.length permits_columns = List.length [0; 1; 2; 3; 4; 5; 6]%nat.
Proof.
  refine (proj1 (HeaderFacts.frame_columns (R := ReferenceRuntime.reference)
                   permits_workbook _ 1%nat permits_columns [0; 1; 2; 3; 4; 5; 6]%nat _)).
  vm_compute. reflexivity.
Defined.

Lemma header_to_field_range_witness :
  Permits.header_to_field (R := ReferenceRuntime.reference) (lit "Lagjia")
  = Permits.header_to_field (R := ReferenceRuntime.reference) (lit "LAGJIA").
Proof.
  apply (proj1 (HeaderFacts.header_to_field_range (R := ReferenceRuntime.reference))).
  vm_compute. reflexivity.
Defined.

Lemma acc_clean_text_shape_witness :
  lit "Universiteti i Prishtines" <> []
  /\ ends_free py_isspace (lit "Universiteti i Prishtines")
  /\ blanks_only (lit "Universiteti i Prishtines")
  /\ no_double_blank (lit "Universiteti i Prishtines").
Proof.
  apply (ShapeFacts.acc_clean_text_shape (R := ReferenceRuntime.reference)
           (PScalar (text "Universiteti  i Prishtines"))).
  vm_compute. reflexivity.
Defined.

Lemma permits_clean_text_shape_witness :
  lit "a,,b" <> []
  /\ ends_free (mem_cp [32; Permits.COMMA; Permits.QUOTE; Permits.APOS]%N) (lit "a,,b")
  /\ blanks_only (lit "a,,b").
Proof.
  apply (ShapeFacts.permits_clean_text_shape (R := ReferenceRuntime.reference)
           (PScalar (text "a,,,b"))).
  vm_compute. reflexivity.
Defined.

Lemma permits_clean_text_fixed_witness :
  Permits.clean_text (R := ReferenceRuntime.reference) (PScalar (text "Filan Fisteku"))
  = Some (lit "Filan Fisteku").
Proof.
  apply (TidyFacts.permits_clean_text_fixed (R := ReferenceRuntime.reference)).
  apply tidy_check; [discriminate|split; vm_compute; reflexivity|reflexivity|reflexivity].
Defined.

Lemma document_reference_shape_witness :
  exists c t, lit "1/24" = c :: t
              /\ mem_cp [Permits.COLON; Permits.DASH; 32%N] c = false.
Proof.
  apply (DocumentFacts.document_reference_shape (R := ReferenceRuntime.reference)
           (PScalar (text "Leja nr. 1/24"))).
  vm_compute. reflexivity.
Defined.


Lemma inline_separators_shape_witness :
  lit "banesa - afariste" <> []
  /\ ends_free (mem_cp [32%N; Permits.COMMA; Permits.DASH; Permits.SLASH])
               (lit "banesa - afariste")
  /\ blanks_only (lit "banesa - afariste") /\ no_double_blank (lit "banesa - afariste")
  /\ forallb no_long_dash (lit "banesa - afariste") = true.
Proof.
  apply (SeparatorFacts.inline_separators_shape (R := ReferenceRuntime.reference)
           (PScalar (SStr (lit "banesa " ++ [8212%N] ++ lit " afariste")))
           (Some [32%N; Permits.DASH; 32%N])).
  - right. reflexivity.
  - vm_compute. reflexivity.
Defined.

Lemma to_int_of_int_witness :
  Accreditation.to_int (R := ReferenceRuntime.reference) (PScalar (number 180)) = Ok (Some 180%Z).
Proof.
  apply (proj2 (NumberFacts.to_int_of_int (R := ReferenceRuntime.reference)) 180%Z).
  vm_compute. reflexivity.
Defined.

Lemma parse_decimal_exceptions_witness :
  exn_cls (Exn OverflowError []) = OverflowError.
Proof.
  apply (proj1 (DecimalFacts.parse_decimal_exceptions (R := ReferenceRuntime.reference))
           (SInt (10 ^ 400)) (Exn OverflowError [])).
  vm_compute. reflexivity.
Defined.

Lemma records_in_row_order_witness :
  StronglySorted lt (map fst permits_records)
  /\ forall i, In i (map fst permits_records) ->
       (1 < i < List.length (Permits.wb_rows permits_workbook))%nat.
Proof.
  exact (proj2 (RowFacts.records_in_row_order (R := ReferenceRuntime.reference))
           permits_workbook 1%nat permits_columns permits_records
           PipelineFacts.permits_sample_parsed).
Defined.

Lemma records_identified_witness :
  Forall (fun rec => exists x t, dict_get rec (lit "permit_number") = Some (JStr (x :: t)))
         (Permits.records permits_result).
Proof.
  exact (proj2 (IdentityFacts.records_identified (R := ReferenceRuntime.reference))
           permits_workbook (lit "building-permits-2024.xlsx") permits_result
           PipelineFacts.permits_sample_result).
Defined.

Lemma record_links_witness :
  exists doc sit,
    Permits.extract_hyperlink (R := ReferenceRuntime.reference) permits_sheet
      (Permits.first_position (R := ReferenceRuntime.reference) (str_contains (lit "pdf"))
         (map fst (Permits.header_columns (R := ReferenceRuntime.reference) 0
                     (nth 1 permits_rows [])))
         (map snd (Permits.header_columns (R := ReferenceRuntime.reference) 0
                     (nth 1 permits_rows []))))
      (Z.of_nat 2 + 1) = Ok doc
    /\ dict_get (snd (nth 0 permits_records (0%nat, []))) (lit "document_url")
       = Some (j_text doc)
    /\ Permits.extract_hyperlink (R := ReferenceRuntime.reference) permits_sheet
         (Permits.first_position (R := ReferenceRuntime.reference) (startswith (lit "situacioni"))
            (map fst (Permits.header_columns (R := ReferenceRuntime.reference) 0
                        (nth 1 permits_rows [])))
            (map snd (Permits.header_columns (R := ReferenceRuntime.reference) 0
                        (nth 1 permits_rows []))))
         (Z.of_nat 2 + 1) = Ok sit
    /\ dict_get (snd (nth 0 permits_records (0%nat, []))) (lit "situation_url")
       = Some (j_text sit).
Proof.
  apply (IdentityFacts.record_links (R := ReferenceRuntime.reference)
           permits_workbook 1%nat permits_columns permits_records
           PipelineFacts.permits_sample_parsed 2%nat).
  left. reflexivity.
Defined.

Lemma kept_rows_give_records_witness : In 2%nat (map fst permits_records).
Proof.
  apply (proj2 (KeptFacts.kept_rows_give_records (R := ReferenceRuntime.reference))
           permits_workbook 1%nat permits_columns permits_records
           PipelineFacts.permits_sample_parsed 2%nat (nth 2 permits_rows [])).
  - reflexivity.
  - lia.
  - vm_compute. reflexivity.
  - vm_compute. reflexivity.
Defined.

Lemma permits_extract_year_first_witness :
  Permits.extract_year (R := ReferenceRuntime.reference)
    (lit "building-permits-" ++ 50%N :: 48%N :: 50%N :: 52%N :: []) (lit "building-permits-2024.xlsx")
  = Ok (1000 * (Z.of_N 50 - 48) + 100 * (Z.of_N 48 - 48) + 10 * (Z.of_N 50 - 48)
        + (Z.of_N 52 - 48))%Z.
Proof.
  apply (proj1 (OrderFacts.permits_extract_year_first (R := ReferenceRuntime.reference))).
  - vm_compute. reflexivity.
  - reflexivity.
Defined.

Lemma acc_extract_year_first_witness :
  Accreditation.extract_year (R := ReferenceRuntime.reference)
    ([] ++ 50%N :: 48%N :: 50%N :: 53%N :: lit "-2026")
  = Some (2000 + 10 * (Z.of_N 50 - 48) + (Z.of_N 53 - 48))%Z.
Proof.
  apply (proj1 (OrderFacts.acc_extract_year_first (R := ReferenceRuntime.reference))).
  - reflexivity.
  - reflexivity.
  - reflexivity.
Defined.

Lemma destination_rule_witness :
  dict_get commented_record (lit "destination") = Some (JStr (lit "Shtepi Banimi")).
Proof.
  refine (proj2 (RecordFacts.destination_rule (R := ReferenceRuntime.reference)
                   commented_row true commented_record _) _).
  - vm_compute. reflexivity.
  - vm_compute. reflexivity.
Defined.

Lemma institution_carried_down_witness :
  exists j cells c t,
    (j <= 2)%nat /\ nth_error (skipn 2 accreditation_rows) j = Some cells
    /\ institution_of (R := ReferenceRuntime.reference)
         (@excel_columns ReferenceRuntime.reference (nth 1 accreditation_rows [])) cells = Ok c
    /\ scalar_isna c = false
    /\ (forall m cells', (j < m <= 2)%nat -> nth_error (skipn 2 accreditation_rows) m = Some cells' ->
          exists c', institution_of (R := ReferenceRuntime.reference)
                       (@excel_columns ReferenceRuntime.reference (nth 1 accreditation_rows []))
                       cells' = Ok c'
                     /\ scalar_isna c' = true)
    /\ Accreditation.clean_text (R := ReferenceRuntime.reference) (PScalar c) = Ok t
    /\ dict_get (snd (nth 1 accreditation_records (0%nat, []))) (lit "institution")
       = Some (j_text t).
Proof.
  apply (FillFacts.institution_carried_down (R := ReferenceRuntime.reference)
           accreditation_workbook
           (@excel_columns ReferenceRuntime.reference (nth 1 accreditation_rows []))
           (skipn 2 accreditation_rows) accreditation_records
           eq_refl PipelineFacts.accreditation_sample_parsed 2%nat).
  right. left. reflexivity.
Defined.

End InstanceFacts.
